(** * Reviewer-data aggregation pipeline: a shallow embedding and its properties

    The development embeds the aggregation functions of the review-graph
    front end (graph_func.js, graph_3labelFunc.js, hwLabelChart.js and the
    main script) and proves the properties the specification states about
    them, followed by further properties of the code.

    Modelling conventions.
    - JavaScript integers that only ever hold counts, 0/1 flags and their
      weighted sums are [Z]; quotients of such numbers are exact rationals
      [Q] (binary rounding is not modelled: every quotient that occurs is a
      ratio of small integers).
    - The numeric [Label] field can hold any JavaScript number, so it uses
      [Js.Num]: the rationals extended with [NaN] and the two infinities.
    - Strings are ASCII strings; [trim] and [toUpperCase] are the ASCII
      restrictions of the built-ins.
    - A property access or method call that raises a [TypeError] in
      JavaScript is a [Throw] in the [result] monad.
    - Inputs are well-typed JSON data: [Reviewer], [Author] and
      [Feedback] are strings or missing, a flag is an integer, null or
      missing, and [Round] is an array of rounds or anything else.
    - An object used as a dictionary is a [gmap]: a key that is not an
      own property reads as undefined.  Homework keys are assumed not to
      name members of [Object.prototype]; the statistics keys of
      [calculateReviewerLabelAverages] cannot, being uppercased or the
      word "undefined".
    - Console output is not part of the model.
    - Where a statement depends on one of these conventions, it says so
      in a hypothesis: [binary_records] (0/1 flags, so that the sums of
      the code are exact), [exact_labels] (labels that add up exactly) and
      [plain_keys] (no selected key is missing from the data and inherited
      from [Object.prototype]). *)

From Stdlib Require Import ZArith QArith Qminmax Lqa String Ascii List Lia.
From Stdlib Require Import Permutation Sorted.
From stdpp Require Import base option list gmap strings.

Local Open Scope Z_scope.

(** ** JavaScript values and built-ins used by the sources *)
Module Js.

Inductive Error := TypeError.

Inductive result (A : Type) :=
| Ok (a : A)
| Throw (e : Error).
Arguments Ok {A} a.
Arguments Throw {A} e.

#[global] Instance result_ret : MRet result := fun A a => Ok a.
#[global] Instance result_bind : MBind result := fun A B f m =>
  match m with
  | Ok a => f a
  | Throw e => Throw e
  end.

(** Monadic left fold: the loop behind every [forEach]. *)
Fixpoint foldM {A S : Type} (f : A -> S -> result S) (l : list A) (s : S)
  : result S :=
  match l with
  | [] => Ok s
  | x :: l' => s' ← f x s; foldM f l' s'
  end.

(** *** Numbers: rationals with NaN and infinities *)
Inductive Num :=
| NaN
| PosInf
| NegInf
| Fin (q : Q).

Definition isNaN (x : Num) : bool :=
  match x with NaN => true | _ => false end.

Definition Num_add (x y : Num) : Num :=
  match x, y with
  | NaN, _ | _, NaN => NaN
  | PosInf, NegInf | NegInf, PosInf => NaN
  | PosInf, _ | _, PosInf => PosInf
  | NegInf, _ | _, NegInf => NegInf
  | Fin a, Fin b => Fin (a + b)
  end.

(** The sign of a finite number, as a comparison with zero:
    [Lt] negative, [Eq] zero, [Gt] positive.  Zero is unsigned. *)
Definition sign (q : Q) : comparison := (q ?= 0)%Q.

Definition Num_div (x y : Num) : Num :=
  match x, y with
  | NaN, _ | _, NaN => NaN
  | (PosInf | NegInf), (PosInf | NegInf) => NaN
  | PosInf, Fin b => match sign b with Lt => NegInf | _ => PosInf end
  | NegInf, Fin b => match sign b with Lt => PosInf | _ => NegInf end
  | Fin _, (PosInf | NegInf) => Fin 0
  | Fin a, Fin b =>
      match sign b with
      | Eq => match sign a with Eq => NaN | Gt => PosInf | Lt => NegInf end
      | _ => Fin (a / b)
      end
  end.

(** [Math.min] and [Math.max] on two arguments. *)
Definition Math_min (x y : Num) : Num :=
  match x, y with
  | NaN, _ | _, NaN => NaN
  | NegInf, _ | _, NegInf => NegInf
  | PosInf, z | z, PosInf => z
  | Fin a, Fin b => Fin (Qmin a b)
  end.

Definition Math_max (x y : Num) : Num :=
  match x, y with
  | NaN, _ | _, NaN => NaN
  | PosInf, _ | _, PosInf => PosInf
  | NegInf, z | z, NegInf => z
  | Fin a, Fin b => Fin (Qmax a b)
  end.

(** [x || 0] on a number: NaN and zero are falsy. *)
Definition Num_or_zero (x : Num) : Num :=
  match x with
  | NaN => Fin 0
  | Fin q => if Qeq_bool q 0 then Fin 0 else Fin q
  | inf => inf
  end.

(** An integer as a number. *)
Definition Num_of_Z (z : Z) : Num := Fin (inject_Z z).

(** [parseFloat] applied to a field that is missing ([None]) or holds a
    number.  A string label is represented by the number [parseFloat]
    reads from it, [NaN] when it reads none. *)
Definition parseFloat (v : option Num) : Num :=
  match v with
  | None => NaN
  | Some x => x
  end.

(** [0 <= x <= 1] for a number; false for NaN. *)
Definition in_unit_interval (x : Num) : Prop :=
  match x with
  | Fin q => (0 <= q <= 1)%Q
  | _ => False
  end.

(** *** Label flags: missing, null, or an integer *)
Inductive Flag :=
| FUndefined
| FNull
| FNum (z : Z).

#[global] Instance Flag_eq_dec : EqDecision Flag.
Proof. solve_decision. Defined.

(** [v || 0]. *)
Definition or_zero (v : Flag) : Z :=
  match v with
  | FNum z => z
  | _ => 0
  end.

(** [v !== undefined]. *)
Definition is_defined (v : Flag) : bool :=
  match v with
  | FUndefined => false
  | _ => true
  end.

(** [v === 1]. *)
Definition is_one (v : Flag) : bool :=
  match v with
  | FNum 1 => true
  | _ => false
  end.

(** *** Strings *)
Definition is_space (c : ascii) : bool :=
  let n := nat_of_ascii c in
  (Nat.eqb n 32 || (Nat.leb 9 n && Nat.leb n 13))%bool.

Fixpoint trimStart (s : string) : string :=
  match s with
  | EmptyString => EmptyString
  | String c s' => if is_space c then trimStart s' else s
  end.

Fixpoint trimEnd (s : string) : string :=
  match s with
  | EmptyString => EmptyString
  | String c s' =>
      match trimEnd s' with
      | EmptyString => if is_space c then EmptyString else String c EmptyString
      | t => String c t
      end
  end.

Definition trim (s : string) : string := trimEnd (trimStart s).

Definition upper_ascii (c : ascii) : ascii :=
  let n := nat_of_ascii c in
  if (Nat.leb 97 n && Nat.leb n 122)%bool then ascii_of_nat (n - 32) else c.

Fixpoint toUpperCase (s : string) : string :=
  match s with
  | EmptyString => EmptyString
  | String c s' => String (upper_ascii c) (toUpperCase s')
  end.

(** A value used as a property key: [undefined] becomes ["undefined"]. *)
Definition property_key (v : option string) : string :=
  match v with
  | None => "undefined"
  | Some s => s
  end.

(** [v || ""] on a string that may be missing. *)
Definition or_empty (v : option string) : string :=
  match v with
  | None => ""
  | Some s => s
  end.

(** *** Insertion-ordered [Map] *)
Section JsMap.
Context {K V : Type} `{EqDecision K}.

Fixpoint Map_get (k : K) (m : list (K * V)) : option V :=
  match m with
  | [] => None
  | (k', v) :: m' => if decide (k' = k) then Some v else Map_get k m'
  end.

Definition Map_has (k : K) (m : list (K * V)) : bool :=
  match Map_get k m with Some _ => true | None => false end.

(** [set] keeps the position of a key that is present and appends a
    new one. *)
Fixpoint Map_set (k : K) (v : V) (m : list (K * V)) : list (K * V) :=
  match m with
  | [] => [(k, v)]
  | (k', v') :: m' =>
      if decide (k' = k) then (k, v) :: m' else (k', v') :: Map_set k v m'
  end.

Definition Map_values (m : list (K * V)) : list V := map snd m.
End JsMap.

End Js.

(** ** The record model *)

(** One feedback event.  [Label] is the numeric label of the bar-chart
    path; the three flags are those of the graph paths. *)
Record round_record := {
  Feedback : option string;
  Relevance : Js.Flag;
  Concreteness : Js.Flag;
  Constructive : Js.Flag;
  Label : option Js.Num
}.

(** The [Round] field of a record: an array of rounds, or anything else
    (missing, null, an object, a string, ...). *)
Inductive RoundField :=
| NotArray
| ArrayOf (rounds : list round_record).

(** One reviewer-author pairing.  [avgLabel] is absent until
    [calculateReviewerLabelAverages] writes it. *)
Record assignment_record := {
  Reviewer : option string;
  Author : option string;
  Round : RoundField;
  avgLabel : option Js.Num
}.

(** Array operations on a value that may not be an array.  On a
    non-array, [forEach] and [filter] raise a [TypeError] (the value is
    missing, null, or has no such method); [length] is only ever read
    from arrays, and reading it elsewhere counts as an error too. *)
Module Arr.
Import Js.

Definition isArray (v : RoundField) : bool :=
  match v with
  | ArrayOf _ => true
  | NotArray => false
  end.

Definition length (v : RoundField) : result Z :=
  match v with
  | ArrayOf l => Ok (Z.of_nat (List.length l))
  | NotArray => Throw TypeError
  end.

Definition forEach {S : Type} (v : RoundField)
    (f : round_record -> S -> result S) (s : S) : result S :=
  match v with
  | ArrayOf l => foldM f l s
  | NotArray => Throw TypeError
  end.

Definition filter (v : RoundField) (p : round_record -> bool)
  : result (list round_record) :=
  match v with
  | ArrayOf l => Ok (List.filter p l)
  | NotArray => Throw TypeError
  end.
End Arr.

(** ** graph_func.js *)
Module GraphFunc.
Import Js.

(** *** calculateReviewerLabelAverages *)

Record reviewerStat := { totalLabel : Num; count : Z }.

(** [assignment.Reviewer?.trim().toUpperCase()] *)
Definition reviewer_of (assignment : assignment_record) : option string :=
  match Reviewer assignment with
  | None => None
  | Some s => Some (toUpperCase (trim s))
  end.

(** Body of the inner [rounds.forEach]. *)
Definition add_label (reviewer : option string) (round : round_record)
    (reviewerStats : gmap string reviewerStat)
  : result (gmap string reviewerStat) :=
  let label := parseFloat (Label round) in
  if negb (isNaN label) then
    match reviewerStats !! property_key reviewer with
    | Some st =>
        Ok (<[property_key reviewer :=
               {| totalLabel := Num_add (totalLabel st) label;
                  count := count st + 1 |}]> reviewerStats)
    | None => Throw TypeError
    end
  else Ok reviewerStats.

(** Body of the first [assignments.forEach]. *)
Definition collect (assignment : assignment_record)
    (reviewerStats : gmap string reviewerStat)
  : result (gmap string reviewerStat) :=
  let reviewer := reviewer_of assignment in
  let rounds := Round assignment in
  if negb (Arr.isArray rounds) then Ok reviewerStats
  else
    let reviewerStats :=
      match reviewerStats !! property_key reviewer with
      | Some _ => reviewerStats
      | None =>
          <[property_key reviewer :=
             {| totalLabel := Fin 0; count := 0 |}]> reviewerStats
      end in
    Arr.forEach rounds (add_label reviewer) reviewerStats.

(** Body of the second [assignments.forEach]. *)
Definition annotate (reviewerStats : gmap string reviewerStat)
    (assignment : assignment_record) : assignment_record :=
  let reviewer := reviewer_of assignment in
  let avg :=
    match reviewerStats !! property_key reviewer with
    | Some st =>
        if 0 <? count st
        then Num_div (totalLabel st) (Num_of_Z (count st))
        else NaN
    | None => NaN
    end in
  {| Reviewer := Reviewer assignment;
     Author := Author assignment;
     Round := Round assignment;
     avgLabel := Some avg |}.

Definition calculateReviewerLabelAverages
    (assignments : list assignment_record)
  : result (list assignment_record) :=
  reviewerStats ← foldM collect assignments ∅;
  Ok (map (annotate reviewerStats) assignments).

(** *** getAvgLabelQuality *)

(** [r.Feedback && r.Feedback.trim() !== ""] *)
Definition has_feedback (r : round_record) : bool :=
  match Feedback r with
  | None => false
  | Some s => negb (String.eqb s "") && negb (String.eqb (trim s) "")
  end.

Definition getAvgLabelQuality (rounds : RoundField) : result Num :=
  if negb (Arr.isArray rounds) then Ok (Fin 0)
  else
    len ← Arr.length rounds;
    if len =? 0 then Ok (Fin 0)
    else
      validFeedbacks ← Arr.filter rounds has_feedback;
      if Z.of_nat (List.length validFeedbacks) =? 0 then Ok (Fin 0)
      else
        let totalLabel :=
          fold_left
            (fun sum r => Num_add sum (Num_or_zero (parseFloat (Label r))))
            validFeedbacks (Fin 0) in
        let avgLabelQuality :=
          Num_div totalLabel
                  (Num_of_Z (Z.of_nat (List.length validFeedbacks))) in
        Ok (Math_max (Fin 0) (Math_min (Fin 1) avgLabelQuality)).
(** *** processReviewerData *)

(** The chart mode.  [processReviewerData] receives it and ignores it. *)
Inductive Mode :=
| ModeAll
| ModeRelevance
| ModeConcreteness
| ModeConstructive.

(** The [hwNames] argument: omitted, one key, or an array of keys. *)
Inductive HwNames :=
| HwDefault
| HwString (s : string)
| HwArray (l : list string).

Record LabelCounts := {
  relevance : Z;
  concreteness : Z;
  constructive : Z
}.

(** A node while it sits in [nodesMap]: [meaningfulScore] is still the
    running sum of round scores. *)
Module Acc.
Record node := {
  id : option string;
  totalRounds : Z;
  meaningfulScore : Z;
  feedbacks : list string;
  labelCounts : LabelCounts
}.
End Acc.

(** A finalized node: the fields of the accumulated node, with
    [meaningfulScore] replaced by the capped average and
    [isFeedbackEmpty] added. *)
Record node := {
  id : option string;
  totalRounds : Z;
  meaningfulScore : Q;
  feedbacks : list string;
  labelCounts : LabelCounts;
  isFeedbackEmpty : bool
}.

Record edge := {
  from : option string;
  to : option string;
  completedAll : bool;
  hwName : string
}.

Record graph := {
  nodes : list node;
  links : list edge
}.

Definition new_node (reviewerId : option string) : Acc.node :=
  {| Acc.id := reviewerId;
     Acc.totalRounds := 0;
     Acc.meaningfulScore := 0;
     Acc.feedbacks := [];
     Acc.labelCounts :=
       {| relevance := 0; concreteness := 0; constructive := 0 |} |}.

(** Body of [rounds.forEach]: the mutations of [node] for one round. *)
Definition process_round (round : round_record) (node : Acc.node) : Acc.node :=
  let feedback := trim (or_empty (Feedback round)) in
  let feedbacks' := Acc.feedbacks node ++ [feedback] in
  let relevance := or_zero (Relevance round) in
  let concreteness := or_zero (Concreteness round) in
  let constructive := or_zero (Constructive round) in
  if negb (String.eqb feedback "") then
    let roundScore := relevance * 30 + concreteness * 30 + constructive * 40 in
    {| Acc.id := Acc.id node;
       Acc.totalRounds := Acc.totalRounds node;
       Acc.meaningfulScore := Acc.meaningfulScore node + roundScore;
       Acc.feedbacks := feedbacks';
       Acc.labelCounts :=
         {| relevance := GraphFunc.relevance (Acc.labelCounts node) + relevance;
            concreteness :=
              GraphFunc.concreteness (Acc.labelCounts node) + concreteness;
            constructive :=
              GraphFunc.constructive (Acc.labelCounts node) + constructive |} |}
  else
    {| Acc.id := Acc.id node;
       Acc.totalRounds := Acc.totalRounds node;
       Acc.meaningfulScore := Acc.meaningfulScore node;
       Acc.feedbacks := feedbacks';
       Acc.labelCounts := Acc.labelCounts node |}.

Definition add_rounds (n : Z) (node : Acc.node) : Acc.node :=
  {| Acc.id := Acc.id node;
     Acc.totalRounds := Acc.totalRounds node + n;
     Acc.meaningfulScore := Acc.meaningfulScore node;
     Acc.feedbacks := Acc.feedbacks node;
     Acc.labelCounts := Acc.labelCounts node |}.

Definition state : Type := list (option string * Acc.node) * list edge.

(** Body of [hwAssignments.forEach].  [node] is the object stored in
    [nodesMap]; its mutations are written back under the same key. *)
Definition process_assignment (hwName : string)
    (assignment : assignment_record) (st : state) : result state :=
  let '(nodesMap, links) := st in
  let authorId := Author assignment in
  let reviewerId := Reviewer assignment in
  let rounds :=
    if Arr.isArray (Round assignment) then Round assignment else ArrayOf [] in
  let nodesMap :=
    if Map_has reviewerId nodesMap then nodesMap
    else Map_set reviewerId (new_node reviewerId) nodesMap in
  match Map_get reviewerId nodesMap with
  | None => Throw TypeError
  | Some node =>
      len ← Arr.length rounds;
      let node := add_rounds len node in
      node ← Arr.forEach rounds
               (fun round node => Ok (process_round round node)) node;
      len ← Arr.length rounds;
      Ok (Map_set reviewerId node nodesMap,
          links ++ [ {| from := reviewerId;
                        to := authorId;
                        completedAll := 3 <=? len;
                        hwName := hwName |} ])
  end.

(** Body of [hwNames.forEach]. *)
Definition process_homework (rawData : gmap string (list assignment_record))
    (hwName : string) (st : state) : result state :=
  let hwAssignments := default [] (rawData !! hwName) in
  foldM (process_assignment hwName) hwAssignments st.

(** The callback of the final [map]. *)
Definition finalize (node : Acc.node) : GraphFunc.node :=
  let validRounds :=
    Z.of_nat
      (length (List.filter (fun fb => negb (String.eqb fb ""))
                           (Acc.feedbacks node))) in
  let avgScore :=
    if 0 <? validRounds
    then (inject_Z (Acc.meaningfulScore node) / inject_Z validRounds)%Q
    else 0%Q in
  {| id := Acc.id node;
     totalRounds := Acc.totalRounds node;
     meaningfulScore := Qmin avgScore 100;
     feedbacks := Acc.feedbacks node;
     labelCounts := Acc.labelCounts node;
     isFeedbackEmpty :=
       forallb (fun fb => String.eqb fb "") (Acc.feedbacks node) |}.

Definition hw_list (hwNames : HwNames) : list string :=
  match hwNames with
  | HwDefault => ["HW4"%string]
  | HwString s => [s]
  | HwArray l => l
  end.

Definition processReviewerData (rawData : gmap string (list assignment_record))
    (mode : Mode) (hwNames : HwNames) : result graph :=
  let hwNames := hw_list hwNames in
  st ← foldM (process_homework rawData) hwNames ([], []);
  let '(nodesMap, links) := st in
  let nodes := map finalize (Map_values nodesMap) in
  Ok {| nodes := nodes; links := links |}.

End GraphFunc.

(** ** graph_3labelFunc.js

    [generateGraph] has the same text in static/ and in pipeline/static/;
    one embedding stands for both.  The embedding covers the data it
    computes (styled nodes and edges); looking up the container and
    handing the data to the network library are outside the model, and
    so is the tooltip text. *)
Module Graph3LabelFunc.
Import Js GraphFunc.

Definition nonempty (fb : string) : bool := negb (String.eqb fb "").

Definition completionRate (n : node) : Q :=
  let assignmentCount := Z.of_nat (length (feedbacks n)) in
  let completedAssignments :=
    Z.of_nat (length (List.filter nonempty (feedbacks n))) in
  if 0 <? assignmentCount
  then (inject_Z completedAssignments / inject_Z assignmentCount)%Q
  else 0%Q.

Definition sizeScale (rate : Q) : Q := (15 + rate * 35)%Q.

Definition colors (mode : Mode) : list string :=
  match mode with
  | ModeRelevance => ["#FFEEB7"; "#FFD753"; "#F1BC0D"; "#D4A302"]
  | ModeConcreteness => ["#CFFFCA"; "#95ED65"; "#54AF23"; "#327111"]
  | ModeConstructive => ["#F1DCFF"; "#C78EED"; "#9444CA"; "#590A8E"]
  | ModeAll => ["#F0F0F0"; "#E0E0E0"; "#757575"; "#424242"]
  end%string.

(** [n.labelCounts[mode]] for a single-label mode; it is not evaluated
    in mode all. *)
Definition labelCount (mode : Mode) (c : LabelCounts) : Z :=
  match mode with
  | ModeRelevance => relevance c
  | ModeConcreteness => concreteness c
  | ModeConstructive => constructive c
  | ModeAll => 0
  end.

Definition score (mode : Mode) (n : node) : Q :=
  let totalFeedbacks :=
    Z.of_nat (length (List.filter nonempty (feedbacks n))) in
  match mode with
  | ModeAll =>
      if 0 <? totalFeedbacks then
        let relevanceScore :=
          (inject_Z (relevance (labelCounts n)) / inject_Z totalFeedbacks)%Q in
        let concretenessScore :=
          (inject_Z (concreteness (labelCounts n)) / inject_Z totalFeedbacks)%Q in
        let constructiveScore :=
          (inject_Z (constructive (labelCounts n)) / inject_Z totalFeedbacks)%Q in
        ((relevanceScore + concretenessScore + constructiveScore) / 3)%Q
      else 0%Q
  | _ =>
      if 0 <? totalFeedbacks
      then (inject_Z (labelCount mode (labelCounts n))
            / inject_Z totalFeedbacks)%Q
      else 0%Q
  end.

Definition color (mode : Mode) (score : Q) : string :=
  if Qle_bool (3 # 4)%Q score then nth 3 (colors mode) ""%string
  else if Qle_bool (1 # 2)%Q score then nth 2 (colors mode) ""%string
  else if Qle_bool (1 # 4)%Q score then nth 1 (colors mode) ""%string
  else nth 0 (colors mode) ""%string.

Record visNode := {
  vn_id : option string;
  vn_label : option string;
  value : Q;
  background : string;
  border : string;
  borderWidth : Z;
  shape : string
}.

Record visEdge := {
  ve_from : option string;
  ve_to : option string;
  ve_color : string;
  highlight : string;
  dashes : bool;
  arrows : string;
  width : Q
}.

(** The callback of [nodes.map]. *)
Definition style_node (mode : Mode) (n : node) : visNode :=
  let completionRate := completionRate n in
  let score := score mode n in
  let color := color mode score in
  {| vn_id := id n;
     vn_label := id n;
     value := sizeScale completionRate;
     background := color;
     border := color;
     borderWidth := 0;
     shape := "dot" |}.

(** The callback of [links.map]. *)
Definition style_edge (e : edge) : visEdge :=
  {| ve_from := from e;
     ve_to := to e;
     ve_color := if completedAll e then "#73BEFF" else "#ff6b6b";
     highlight := if completedAll e then "#73BEFF" else "#ff6b6b";
     dashes := negb (completedAll e);
     arrows := "to";
     width := (3 # 2)%Q |}.

(** The node and edge sets [generateGraph] builds for the network. *)
Definition generateGraph (rawData : gmap string (list assignment_record))
    (mode : Mode) (hwNames : HwNames)
  : result (list visNode * list visEdge) :=
  g ← processReviewerData rawData mode hwNames;
  let visNodes := map (style_node mode) (nodes g) in
  let visEdges := map style_edge (links g) in
  Ok (visNodes, visEdges).

End Graph3LabelFunc.

(** ** hwLabelChart.js *)
Module HwLabelChart.
Import Js.

(** An entry of [hwStats]. *)
Module Counts.
Record t := {
  total : Z;
  relevance : Z;
  concreteness : Z;
  constructive : Z
}.
End Counts.

(** An entry of [percentageStats]. *)
Record percentages := {
  relevance : Q;
  concreteness : Q;
  constructive : Q;
  total : Z
}.

Definition incr_if (b : bool) (n : Z) : Z := if b then n + 1 else n.

(** Body of [student.Round.forEach]. *)
Definition count_round (round : round_record) (stats : Counts.t) : Counts.t :=
  if is_defined (Relevance round) && is_defined (Concreteness round)
     && is_defined (Constructive round)
  then
    {| Counts.total := Counts.total stats + 1;
       Counts.relevance :=
         incr_if (is_one (Relevance round)) (Counts.relevance stats);
       Counts.concreteness :=
         incr_if (is_one (Concreteness round)) (Counts.concreteness stats);
       Counts.constructive :=
         incr_if (is_one (Constructive round)) (Counts.constructive stats) |}
  else stats.

(** Body of [hwData.forEach]: the guard [student.Round &&
    Array.isArray(student.Round)] and the loop it protects. *)
Definition count_student (student : assignment_record) (stats : Counts.t)
  : Counts.t :=
  match Round student with
  | ArrayOf rounds => fold_left (fun st round => count_round round st) rounds stats
  | NotArray => stats
  end.

Definition count_homework (hwData : list assignment_record) : Counts.t :=
  fold_left (fun st student => count_student student st) hwData
    {| Counts.total := 0; Counts.relevance := 0;
       Counts.concreteness := 0; Counts.constructive := 0 |}.

Definition to_percentages (stats : Counts.t) : percentages :=
  if 0 <? Counts.total stats then
    {| relevance :=
         (inject_Z (Counts.relevance stats) / inject_Z (Counts.total stats)
          * 100)%Q;
       concreteness :=
         (inject_Z (Counts.concreteness stats) / inject_Z (Counts.total stats)
          * 100)%Q;
       constructive :=
         (inject_Z (Counts.constructive stats) / inject_Z (Counts.total stats)
          * 100)%Q;
       total := Counts.total stats |}
  else
    {| relevance := 0%Q; concreteness := 0%Q; constructive := 0%Q;
       total := 0 |}.

(** Every key of [data] gets its counts, then its percentages. *)
Definition calculateHwLabelFrequency
    (data : gmap string (list assignment_record)) : gmap string percentages :=
  (fun hwData => to_percentages (count_homework hwData)) <$> data.

End HwLabelChart.

(** ** Views of the input in which the properties are stated *)

(** The rounds a record contributes: none when [Round] is not an array. *)
Definition rounds_of (a : assignment_record) : list round_record :=
  match Round a with
  | ArrayOf l => l
  | NotArray => []
  end.

(** The records of the selected homework keys, in processing order, each
    with the key it was found under.  A key that occurs twice in
    [names] is processed twice. *)
Definition selected (rawData : gmap string (list assignment_record))
    (names : list string) : list (string * assignment_record) :=
  flat_map (fun hw => map (pair hw) (default [] (rawData !! hw))) names.

(** The reviewers of a list of records, in order of first occurrence. *)
Definition note_reviewer (acc : list (option string)) (k : option string)
  : list (option string) :=
  if decide (k ∈ acc) then acc else acc ++ [k].

Definition reviewers (rs : list (string * assignment_record))
  : list (option string) :=
  fold_left (fun acc p => note_reviewer acc (Reviewer p.2)) rs [].

(** All rounds assigned to reviewer [k], over all records, in order. *)
Definition assigned_rounds (rs : list (string * assignment_record))
    (k : option string) : list round_record :=
  flat_map (fun p => if decide (Reviewer p.2 = k) then rounds_of p.2 else []) rs.

(** The feedback text of a round as the aggregation reads it. *)
Definition feedback_text (r : round_record) : string :=
  Js.trim (Js.or_empty (Feedback r)).

Definition gave_feedback (r : round_record) : bool :=
  negb (String.eqb (feedback_text r) "").

Definition Zsum {A : Type} (f : A -> Z) (l : list A) : Z :=
  fold_right (fun x acc => f x + acc) 0 l.

(** The three labels, their flags, weights and chart modes. *)
Inductive LabelKind :=
| LRelevance
| LConcreteness
| LConstructive.

#[global] Instance LabelKind_eq_dec : EqDecision LabelKind.
Proof. solve_decision. Defined.

Definition flag_of (L : LabelKind) (r : round_record) : Js.Flag :=
  match L with
  | LRelevance => Relevance r
  | LConcreteness => Concreteness r
  | LConstructive => Constructive r
  end.

Definition weight (L : LabelKind) : Z :=
  match L with
  | LRelevance => 30
  | LConcreteness => 30
  | LConstructive => 40
  end.

Definition mode_of (L : LabelKind) : GraphFunc.Mode :=
  match L with
  | LRelevance => GraphFunc.ModeRelevance
  | LConcreteness => GraphFunc.ModeConcreteness
  | LConstructive => GraphFunc.ModeConstructive
  end.

(** What one round adds to the count of label [L]. *)
Definition label_value (L : LabelKind) (r : round_record) : Z :=
  if gave_feedback r then Js.or_zero (flag_of L r) else 0.

(** What one round adds to the running score. *)
Definition round_score (r : round_record) : Z :=
  if gave_feedback r
  then Js.or_zero (Relevance r) * 30 + Js.or_zero (Concreteness r) * 30
       + Js.or_zero (Constructive r) * 40
  else 0.

(** Number of rounds with non-empty feedback. *)
Definition valid_count (rounds : list round_record) : Z :=
  Z.of_nat (length (List.filter gave_feedback rounds)).

(** The accumulated node of reviewer [k] after rounds [rounds], with
    [t] as its round total. *)
Definition node_with (t : Z) (k : option string) (rounds : list round_record)
  : GraphFunc.Acc.node :=
  {| GraphFunc.Acc.id := k;
     GraphFunc.Acc.totalRounds := t;
     GraphFunc.Acc.meaningfulScore := Zsum round_score rounds;
     GraphFunc.Acc.feedbacks := map feedback_text rounds;
     GraphFunc.Acc.labelCounts :=
       {| GraphFunc.relevance := Zsum (label_value LRelevance) rounds;
          GraphFunc.concreteness := Zsum (label_value LConcreteness) rounds;
          GraphFunc.constructive := Zsum (label_value LConstructive) rounds |} |}.

Definition summary (k : option string) (rounds : list round_record)
  : GraphFunc.Acc.node :=
  node_with (Z.of_nat (length rounds)) k rounds.

(** The edge of one record. *)
Definition edge_of (p : string * assignment_record) : GraphFunc.edge :=
  {| GraphFunc.from := Reviewer p.2;
     GraphFunc.to := Author p.2;
     GraphFunc.completedAll := 3 <=? Z.of_nat (length (rounds_of p.2));
     GraphFunc.hwName := p.1 |}.

(** The nodes table and edge list after the records [rs]. *)
Definition table_of (rs : list (string * assignment_record))
  : GraphFunc.state :=
  (map (fun k => (k, summary k (assigned_rounds rs k))) (reviewers rs),
   map edge_of rs).

(** The graph of the records [rs]. *)
Definition graph_of (rs : list (string * assignment_record)) : GraphFunc.graph :=
  {| GraphFunc.nodes :=
       map (fun k => GraphFunc.finalize (summary k (assigned_rounds rs k)))
           (reviewers rs);
     GraphFunc.links := map edge_of rs |}.

(** A flag that is the number 0 or the number 1. *)
Definition binary_flag (v : Js.Flag) : bool :=
  match v with
  | Js.FNum 0 | Js.FNum 1 => true
  | _ => false
  end.

Definition binary_round (r : round_record) : bool :=
  binary_flag (Relevance r) && binary_flag (Concreteness r)
  && binary_flag (Constructive r).

(** A round with the flag of label [L] replaced. *)
Definition set_flag (L : LabelKind) (v : Js.Flag) (r : round_record)
  : round_record :=
  {| Feedback := Feedback r;
     Relevance := match L with LRelevance => v | _ => Relevance r end;
     Concreteness := match L with LConcreteness => v | _ => Concreteness r end;
     Constructive := match L with LConstructive => v | _ => Constructive r end;
     Label := Label r |}.

(** A record with its [Round] field replaced. *)
Definition with_Round (v : RoundField) (a : assignment_record)
  : assignment_record :=
  {| Reviewer := Reviewer a;
     Author := Author a;
     Round := v;
     avgLabel := avgLabel a |}.

(** [raised L rd x y]: round [y] is round [x], or it is [rd] with the
    flag of label [L] set to 1 where [x] is [rd]. *)
Definition raised (L : LabelKind) (rd x y : round_record) : Prop :=
  y = x \/ (x = rd /\ y = set_flag L (Js.FNum 1) rd).

(** The statistics key of a record: its reviewer trimmed and uppercased,
    as a property name. *)
Definition reviewer_key (a : assignment_record) : string :=
  Js.property_key (GraphFunc.reviewer_of a).

(** A round whose [Label] parses to a number other than NaN. *)
Definition parseable (r : round_record) : bool :=
  negb (Js.isNaN (Js.parseFloat (Label r))).

Definition labels_in (rounds : list round_record) : list Js.Num :=
  map (fun r => Js.parseFloat (Label r)) (List.filter parseable rounds).

(** The parseable labels of all rounds of the records keyed [key]. *)
Definition labels_of (key : string) (assignments : list assignment_record)
  : list Js.Num :=
  flat_map (fun a => if decide (reviewer_key a = key)
                     then labels_in (rounds_of a) else []) assignments.

Definition label_total (labels : list Js.Num) : Js.Num :=
  fold_left Js.Num_add labels (Js.Fin 0).

(** Whether some record keyed [key] has an array of rounds. *)
Definition seen (key : string) (assignments : list assignment_record) : bool :=
  existsb (fun a => Arr.isArray (Round a) && bool_decide (reviewer_key a = key))
          assignments.

Definition stat_of (key : string) (assignments : list assignment_record)
  : GraphFunc.reviewerStat :=
  {| GraphFunc.totalLabel := label_total (labels_of key assignments);
     GraphFunc.count := Z.of_nat (length (labels_of key assignments)) |}.

(** The average written on the records keyed [key]. *)
Definition expected_avg (key : string) (assignments : list assignment_record)
  : Js.Num :=
  let labels := labels_of key assignments in
  match labels with
  | [] => Js.NaN
  | _ => Js.Num_div (label_total labels)
                    (Js.Num_of_Z (Z.of_nat (length labels)))
  end.

Definition with_avgLabel (v : Js.Num) (a : assignment_record)
  : assignment_record :=
  {| Reviewer := Reviewer a;
     Author := Author a;
     Round := Round a;
     avgLabel := Some v |}.

(** Adding the parseable labels of [rounds] to a statistics entry. *)
Definition add_labels (rounds : list round_record) (st : GraphFunc.reviewerStat)
  : GraphFunc.reviewerStat :=
  {| GraphFunc.totalLabel :=
       fold_left Js.Num_add (labels_in rounds) (GraphFunc.totalLabel st);
     GraphFunc.count := GraphFunc.count st + Z.of_nat (length (labels_in rounds)) |}.

(** [stats] holds, for every key, the statistics of the records [done]. *)
Definition tracks (done : list assignment_record)
    (stats : gmap string GraphFunc.reviewerStat) : Prop :=
  forall key, stats !! key
              = if seen key done then Some (stat_of key done) else None.

(** A round with all three flags defined. *)
Definition complete_round (r : round_record) : bool :=
  Js.is_defined (Relevance r) && Js.is_defined (Concreteness r)
  && Js.is_defined (Constructive r).

(** Number of rounds whose flag [f] is exactly 1. *)
Definition ones (f : round_record -> Js.Flag) (rounds : list round_record) : Z :=
  Z.of_nat (length (List.filter (fun r => Js.is_one (f r)) rounds)).

(** The counts of a list of rounds added to [stats]. *)
Definition counts_from (stats : HwLabelChart.Counts.t)
    (rounds : list round_record) : HwLabelChart.Counts.t :=
  let complete := List.filter complete_round rounds in
  {| HwLabelChart.Counts.total :=
       HwLabelChart.Counts.total stats + Z.of_nat (length complete);
     HwLabelChart.Counts.relevance :=
       HwLabelChart.Counts.relevance stats + ones Relevance complete;
     HwLabelChart.Counts.concreteness :=
       HwLabelChart.Counts.concreteness stats + ones Concreteness complete;
     HwLabelChart.Counts.constructive :=
       HwLabelChart.Counts.constructive stats + ones Constructive complete |}.

(** A label that is missing, NaN or finite. *)
Definition finite_label (r : round_record) : bool :=
  match Label r with
  | Some Js.PosInf | Some Js.NegInf => false
  | _ => true
  end.

(** ** Concrete inputs *)
Module Scenario.
Local Open Scope string_scope.

Definition round (feedback : string) (rel con cons : Z) : round_record :=
  {| Feedback := Some feedback;
     Relevance := Js.FNum rel;
     Concreteness := Js.FNum con;
     Constructive := Js.FNum cons;
     Label := None |}.

Definition record (reviewer author : string) (rounds : RoundField)
  : assignment_record :=
  {| Reviewer := Some reviewer;
     Author := Some author;
     Round := rounds;
     avgLabel := None |}.

Definition good : round_record := round "good" 1 0 1.
Definition silent : round_record := round "" 1 1 1.
Definition record_AB : assignment_record :=
  record "A" "B" (ArrayOf [ good; silent ]).

(** The scenario of the specification: reviewer A reviews author B in
    two rounds, the second without feedback. *)
Definition hw1 : gmap string (list assignment_record) :=
  {[ "HW1" := [ record_AB ] ]}.

(** A reviewer whose only record has an empty round list. *)
Definition no_rounds : gmap string (list assignment_record) :=
  {[ "HW1" := [ record "A" "B" (ArrayOf []) ] ]}.

Definition labelled (feedback : string) (label : Js.Num) : round_record :=
  {| Feedback := Some feedback;
     Relevance := Js.FUndefined;
     Concreteness := Js.FUndefined;
     Constructive := Js.FUndefined;
     Label := Some label |}.

(** Two rounds with feedback whose labels are the two infinities. *)
Definition opposite_infinities : RoundField :=
  ArrayOf [ labelled "a" Js.PosInf; labelled "b" Js.NegInf ].

(** One round with all three flags 1 and one with only [Relevance]. *)
Definition only_relevance : round_record :=
  {| Feedback := Some "ok";
     Relevance := Js.FNum 1;
     Concreteness := Js.FUndefined;
     Constructive := Js.FUndefined;
     Label := None |}.

Definition frequency_students : list assignment_record :=
  [ record "A" "B" (ArrayOf [ round "ok" 1 1 1; only_relevance ]) ].

Definition frequency_input : gmap string (list assignment_record) :=
  {[ "HW1" := frequency_students ]}.

(** A record whose [Round] is not an array, between two ordinary ones. *)
Definition before_non_array : list assignment_record :=
  [ record "A" "B" (ArrayOf [ good ]) ].
Definition non_array : assignment_record := record "C" "A" NotArray.
Definition after_non_array : list assignment_record :=
  [ record "B" "C" (ArrayOf []) ].

Definition with_non_array : gmap string (list assignment_record) :=
  {[ "HW1" := (before_non_array ++ non_array :: after_non_array)%list ]}.

End Scenario.

Module Example.
Local Open Scope string_scope.

(** Two spellings of one reviewer, with labels 1 and 0. *)
Definition two_spellings : list assignment_record :=
  [ Scenario.record "ab " "x" (ArrayOf [ Scenario.labelled "f" (Js.Fin 1) ]);
    Scenario.record "AB" "y" (ArrayOf [ Scenario.labelled "g" (Js.Fin 0) ]) ].

End Example.

(** ** More arithmetic on numbers, and the stable sort

    [generateAllLabelsGraph] subtracts, multiplies and takes the minimum
    and maximum of a list of numbers, and sorts an array with a
    comparator. *)
Module JsArith.
Import Js.

Definition Num_neg (x : Num) : Num :=
  match x with
  | NaN => NaN
  | PosInf => NegInf
  | NegInf => PosInf
  | Fin q => Fin (- q)
  end.

Definition Num_sub (x y : Num) : Num := Num_add x (Num_neg y).

Definition Num_mul (x y : Num) : Num :=
  match x, y with
  | NaN, _ | _, NaN => NaN
  | Fin a, Fin b => Fin (a * b)
  | Fin a, inf | inf, Fin a =>
      match sign a with
      | Eq => NaN
      | Gt => inf
      | Lt => Num_neg inf
      end
  | PosInf, PosInf | NegInf, NegInf => PosInf
  | PosInf, NegInf | NegInf, PosInf => NegInf
  end.

(** [Math.min(...l)] and [Math.max(...l)]: the infinities on no
    argument. *)
Definition Math_min_list (l : list Num) : Num := fold_right Math_min PosInf l.
Definition Math_max_list (l : list Num) : Num := fold_right Math_max NegInf l.

(** [Array.prototype.sort] with a comparator: [x] comes before [y] when
    the comparator is negative on them, and elements on which it is 0
    keep their order (the sort is stable).  [before x y] says that the
    comparator is at most 0 on [x] and [y]. *)
Section Sort.
Context {A : Type} (before : A -> A -> bool).

Fixpoint insert (x : A) (l : list A) : list A :=
  match l with
  | [] => [x]
  | y :: l' => if before x y then x :: l else y :: insert x l'
  end.

Definition sort (l : list A) : list A := fold_right insert [] l.
End Sort.

End JsArith.

(** ** graph_func.js: generateAllLabelsGraph

    The embedding covers the node and edge data the function builds.
    The tooltip text and the random horizontal position of a node are
    left out, and so are the lookup of the container and the calls into
    the network library. *)
Module AllLabelsGraph.
Import Js JsArith GraphFunc.

Record visNode := {
  vn_id : option string;
  vn_label : option string;
  value : Num;
  vn_meaningfulScore : Q;
  colorDepth : Z;
  background : string;
  border : string;
  highlight_background : string;
  highlight_border : string;
  borderWidth : Z;
  borderWidthSelected : Z;
  shape : string;
  font_size : Z;
  shadow : bool;
  margin : Z
}.

(** A styled node with the fields the layout loop adds. *)
Record placedNode := {
  styled : visNode;
  y : Num;
  physics : bool
}.

(** [5 + ((value - minScore) / (maxScore - minScore)) * 25] *)
Definition sizeScale (minScore maxScore : Num) (value : Q) : Num :=
  Num_add (Fin 5)
          (Num_mul (Num_div (Num_sub (Fin value) minScore)
                            (Num_sub maxScore minScore))
                   (Fin 25)).

(** [labels.filter(Boolean).length] *)
Definition labelCount (n : node) : Z :=
  (if 0 <? relevance (labelCounts n) then 1 else 0)
  + (if 0 <? concreteness (labelCounts n) then 1 else 0)
  + (if 0 <? constructive (labelCounts n) then 1 else 0).

(** The colour rule: background, border, dashes and colour depth. *)
Definition colorRule (n : node) : string * string * bool * Z :=
  let labelCount := labelCount n in
  let border := "#e6f3ff"%string in
  if labelCount =? 0 then
    if isFeedbackEmpty n
    then ("#f0f8ff"%string, "#62B0D8"%string, true, 0)
    else ("#BDEDFF"%string, border, false, 1)
  else if labelCount =? 1 then ("#94D6FF"%string, border, false, 2)
  else if labelCount =? 2 then ("#46B1F4"%string, border, false, 3)
  else ("#0A6DAA"%string, border, false, 4).

(** The callback of [nodes.map]. *)
Definition style_node (minScore maxScore : Num) (n : node) : visNode :=
  let '(color, border, dashes, colorDepth) := colorRule n in
  {| vn_id := id n;
     vn_label := id n;
     value := sizeScale minScore maxScore (meaningfulScore n);
     vn_meaningfulScore := meaningfulScore n;
     colorDepth := colorDepth;
     background := color;
     border := if (dashes : bool) then border else color;
     highlight_background := color;
     highlight_border := border;
     borderWidth := 2;
     borderWidthSelected := 2;
     shape := "dot";
     font_size := 14;
     shadow := true;
     margin := 10 |}.

(** The comparator of [visNodes.sort]. *)
Definition compareNodes (a b : visNode) : Q :=
  if negb (colorDepth a =? colorDepth b)
  then inject_Z (colorDepth b - colorDepth a)
  else (vn_meaningfulScore b - vn_meaningfulScore a)%Q.

Definition before (a b : visNode) : bool := Qle_bool (compareNodes a b) 0.

(** The callback of the layout loop, for the node at [index] of
    [totalNodes]. *)
Definition place (totalNodes : Z) (index : nat) (v : visNode) : placedNode :=
  {| styled := v;
     y := Num_add (Fin (-200))
            (Num_mul (Num_div (Num_of_Z (Z.of_nat index))
                              (Num_of_Z (totalNodes - 1)))
                     (Fin 400));
     physics := true |}.

(** The default value of the [hwName] parameter. *)
Definition or_HW1 (hwName : HwNames) : HwNames :=
  match hwName with
  | HwDefault => HwArray ["HW1"%string]
  | _ => hwName
  end.

(** The node and edge sets the function builds for the network.  The
    edges are styled as in [generateGraph]. *)
Definition generateAllLabelsGraph
    (rawData : gmap string (list assignment_record)) (hwName : HwNames)
  : result (list placedNode * list Graph3LabelFunc.visEdge) :=
  let hwName := or_HW1 hwName in
  g ← processReviewerData rawData ModeAll hwName;
  let allScores := map (fun n => Fin (meaningfulScore n)) (nodes g) in
  let minScore := Math_min_list allScores in
  let maxScore := Math_max_list allScores in
  let visNodes := map (style_node minScore maxScore) (nodes g) in
  let visNodes := sort before visNodes in
  let placed := imap (place (Z.of_nat (length visNodes))) visNodes in
  let visEdges := map Graph3LabelFunc.style_edge (links g) in
  Ok (placed, visEdges).


End AllLabelsGraph.

(** ** hwLabelChart.js: createHwLabelChart

    The embedding covers the data of the chart configuration: the
    labels of the x axis and the three data sets.  The canvas and the
    chart object are outside the model. *)
Module HwChart.
Import Js.








End HwChart.

(** ** Records whose non-array Round is told apart

    [calculateStudentStats] and [prepareNetworkDataForBubbleChart] test
    the [Round] field for truthiness (and for a positive [length]) before
    looping over it, where the functions above test [Array.isArray].
    [NotArray] does not say which non-array value the field holds, so
    these functions take each record with that information. *)

(** What a [Round] that is not an array is: a falsy value (missing,
    null, false, 0 or the empty string), or any other value, with whether
    its [length] property is a number greater than 0. *)
Inductive NonArray :=
| Falsy
| Truthy (long : bool).

Record loose_record := {
  inner : assignment_record;
  non_array : NonArray
}.

(** The data as the functions above see it. *)
Definition forget (rawData : gmap string (list loose_record))
  : gmap string (list assignment_record) :=
  map inner <$> rawData.

(** A record whose [Round] is an array or falsy. *)
Definition tolerated (r : loose_record) : bool :=
  match Round (inner r), non_array r with
  | NotArray, Truthy _ => false
  | _, _ => true
  end.

(** ** pipeline/static/graph_3labelFunc.js: the click handler and
    calculateStudentStats

    The feedback items omit [time] and [roundNum]: the round model does
    not carry the [Time] and [Round] fields they are read from. *)
Module StudentStats.
Import Js.

Record feedbackItem := {
  author : string;
  feedback : string;
  relevance : bool;
  concreteness : bool;
  constructive : bool
}.

Record stats := {
  studentName : string;
  validReviews : Z;
  completedTasks : Z;
  assignedTasks : Z;
  participationRate : Q;
  relevanceCount : Z;
  concretenessCount : Z;
  constructiveCount : Z;
  feedbackList : list feedbackItem
}.

(** The counters of the function while it runs. *)
Module Acc.
Record t := {
  validReviews : Z;
  relevanceCount : Z;
  concretenessCount : Z;
  constructiveCount : Z;
  completedTasks : Z;
  feedbackList : list feedbackItem
}.
End Acc.

(** [selectedHWs.flatMap(hwName =>
      rawData[hwName]?.filter(a => a.Reviewer === nodeId) || [])] *)
Definition reviewerRecords (rawData : gmap string (list loose_record))
    (selectedHWs : list string) (nodeId : string) : list loose_record :=
  flat_map
    (fun hwName =>
       match rawData !! hwName with
       | Some records =>
           List.filter
             (fun a => bool_decide (Reviewer (inner a) = Some nodeId)) records
       | None => []
       end)
    selectedHWs.

(** [record.Round || []] *)
Definition Round_or_empty (record : loose_record) : RoundField :=
  match Round (inner record) with
  | ArrayOf rounds => ArrayOf rounds
  | NotArray =>
      match non_array record with
      | Falsy => ArrayOf []
      | Truthy _ => NotArray
      end
  end.

(** [record.Author || 'Unknown'] *)
Definition author_or_unknown (record : loose_record) : string :=
  match Author (inner record) with
  | Some s => if String.eqb s "" then "Unknown" else s
  | None => "Unknown"
  end.

(** [feedback && feedback.trim() && feedback.toUpperCase() !== 'NULL']
    with [feedback = round.Feedback || '']. *)
Definition valid_review (round : round_record) : bool :=
  let feedback := or_empty (Feedback round) in
  negb (String.eqb feedback "") && negb (String.eqb (trim feedback) "")
  && negb (String.eqb (toUpperCase feedback) "NULL").

Definition incr_if (b : bool) (n : Z) : Z := if b then n + 1 else n.

(** Body of [rounds.forEach]; the flag is [hasValidFeedback]. *)
Definition count_review (authorName : string) (round : round_record)
    (s : Acc.t * bool) : Acc.t * bool :=
  let '(acc, hasValidFeedback) := s in
  let feedback := or_empty (Feedback round) in
  if valid_review round then
    ({| Acc.validReviews := Acc.validReviews acc + 1;
        Acc.relevanceCount :=
          incr_if (is_one (Relevance round)) (Acc.relevanceCount acc);
        Acc.concretenessCount :=
          incr_if (is_one (Concreteness round)) (Acc.concretenessCount acc);
        Acc.constructiveCount :=
          incr_if (is_one (Constructive round)) (Acc.constructiveCount acc);
        Acc.completedTasks := Acc.completedTasks acc;
        Acc.feedbackList :=
          Acc.feedbackList acc
          ++ [ {| author := authorName;
                  feedback := trim feedback;
                  relevance := is_one (Relevance round);
                  concreteness := is_one (Concreteness round);
                  constructive := is_one (Constructive round) |} ] |},
     true)
  else (acc, hasValidFeedback).

(** Body of [reviewerRecords.forEach]. *)
Definition count_record (record : loose_record) (acc : Acc.t)
  : result Acc.t :=
  let rounds := Round_or_empty record in
  let authorName := author_or_unknown record in
  s ← Arr.forEach rounds
        (fun round s => Ok (count_review authorName round s)) (acc, false);
  let '(acc, hasValidFeedback) := s in
  Ok (if (hasValidFeedback : bool)
      then {| Acc.validReviews := Acc.validReviews acc;
              Acc.relevanceCount := Acc.relevanceCount acc;
              Acc.concretenessCount := Acc.concretenessCount acc;
              Acc.constructiveCount := Acc.constructiveCount acc;
              Acc.completedTasks := Acc.completedTasks acc + 1;
              Acc.feedbackList := Acc.feedbackList acc |}
      else acc).

Definition calculateStudentStats (nodeId : string)
    (reviewerRecords : list loose_record) : result stats :=
  let assignedTasks := Z.of_nat (length reviewerRecords) in
  acc ← foldM count_record reviewerRecords
          {| Acc.validReviews := 0; Acc.relevanceCount := 0;
             Acc.concretenessCount := 0; Acc.constructiveCount := 0;
             Acc.completedTasks := 0; Acc.feedbackList := [] |};
  let participationRate :=
    if 0 <? assignedTasks
    then (inject_Z (Acc.completedTasks acc) / inject_Z assignedTasks)%Q
    else 0%Q in
  Ok {| studentName := nodeId;
        validReviews := Acc.validReviews acc;
        completedTasks := Acc.completedTasks acc;
        assignedTasks := assignedTasks;
        participationRate := participationRate;
        relevanceCount := Acc.relevanceCount acc;
        concretenessCount := Acc.concretenessCount acc;
        constructiveCount := Acc.constructiveCount acc;
        feedbackList := Acc.feedbackList acc |}.

(** What the click handler computes for the modal. *)
Definition on_click (rawData : gmap string (list loose_record))
    (selectedHWs : list string) (nodeId : string) : result stats :=
  calculateStudentStats nodeId (reviewerRecords rawData selectedHWs nodeId).

End StudentStats.

(** Views used for the statistics. *)

(** The rounds of a record that [calculateStudentStats] counts. *)
Definition reviews_of (r : loose_record) : list round_record :=
  List.filter StudentStats.valid_review (rounds_of (inner r)).

Definition completed (r : loose_record) : bool :=
  match reviews_of r with
  | [] => false
  | _ => true
  end.

Definition item_of (authorName : string) (round : round_record)
  : StudentStats.feedbackItem :=
  {| StudentStats.author := authorName;
     StudentStats.feedback := Js.trim (Js.or_empty (Feedback round));
     StudentStats.relevance := Js.is_one (Relevance round);
     StudentStats.concreteness := Js.is_one (Concreteness round);
     StudentStats.constructive := Js.is_one (Constructive round) |}.

(** The counters after the counted rounds [vs] of a record by
    [authorName] are added. *)
Definition add_reviews (authorName : string) (vs : list round_record)
    (acc : StudentStats.Acc.t) : StudentStats.Acc.t :=
  {| StudentStats.Acc.validReviews :=
       StudentStats.Acc.validReviews acc + Z.of_nat (length vs);
     StudentStats.Acc.relevanceCount :=
       StudentStats.Acc.relevanceCount acc + ones Relevance vs;
     StudentStats.Acc.concretenessCount :=
       StudentStats.Acc.concretenessCount acc + ones Concreteness vs;
     StudentStats.Acc.constructiveCount :=
       StudentStats.Acc.constructiveCount acc + ones Constructive vs;
     StudentStats.Acc.completedTasks := StudentStats.Acc.completedTasks acc;
     StudentStats.Acc.feedbackList :=
       StudentStats.Acc.feedbackList acc ++ map (item_of authorName) vs |}.

(** The counters after the records [rs]. *)
Definition tally_of (rs : list loose_record) : StudentStats.Acc.t :=
  let vs := flat_map reviews_of rs in
  {| StudentStats.Acc.validReviews := Z.of_nat (length vs);
     StudentStats.Acc.relevanceCount := ones Relevance vs;
     StudentStats.Acc.concretenessCount := ones Concreteness vs;
     StudentStats.Acc.constructiveCount := ones Constructive vs;
     StudentStats.Acc.completedTasks :=
       Z.of_nat (length (List.filter completed rs));
     StudentStats.Acc.feedbackList :=
       flat_map (fun r => map (item_of (StudentStats.author_or_unknown r))
                              (reviews_of r)) rs |}.

(** The counters after one more tolerated record. *)
Definition absorb (r : loose_record) (acc : StudentStats.Acc.t)
  : StudentStats.Acc.t :=
  let acc' := add_reviews (StudentStats.author_or_unknown r) (reviews_of r) acc in
  if completed r
  then {| StudentStats.Acc.validReviews := StudentStats.Acc.validReviews acc';
          StudentStats.Acc.relevanceCount := StudentStats.Acc.relevanceCount acc';
          StudentStats.Acc.concretenessCount :=
            StudentStats.Acc.concretenessCount acc';
          StudentStats.Acc.constructiveCount :=
            StudentStats.Acc.constructiveCount acc';
          StudentStats.Acc.completedTasks :=
            StudentStats.Acc.completedTasks acc' + 1;
          StudentStats.Acc.feedbackList := StudentStats.Acc.feedbackList acc' |}
  else acc'.

Module ClickExample.
Local Open Scope string_scope.

Definition loose (a : assignment_record) (v : NonArray) : loose_record :=
  {| inner := a; non_array := v |}.

(** The scenario of two rounds, the second without feedback. *)
Definition hw1 : gmap string (list loose_record) :=
  {[ "HW1" := [ loose Scenario.record_AB Falsy ] ]}.

(** A record of reviewer A whose [Round] is an object that is not an
    array. *)
Definition object_round : gmap string (list loose_record) :=
  {[ "HW1" := [ loose (Scenario.record "A" "B" NotArray) (Truthy false) ] ]}.

End ClickExample.

(** ** The main script: prepareNetworkDataForBubbleChart

    The function reads the module variable [rawData], which is null
    until the data is loaded; it is a parameter here.  The logging is
    left out. *)
Module BubbleChart.
Import Js.

(** A record as this function reads it: next to [Reviewer], [Author]
    and [Round] it has the lower-case fields [reviewer] and [author]
    the function falls back to. *)
Record bubble_record := {
  upper : loose_record;
  reviewer : option string;
  author : option string
}.

Record student := {
  id : option string;
  name : option string;
  validComments : Z;
  validRounds : Z;
  assignedTasks : Z;
  relevanceCount : Z;
  concretenessCount : Z;
  constructiveCount : Z
}.

Record bubbleNode := {
  bn_id : option string;
  bn_label : option string;
  group : string;
  bn_validComments : Z;
  bn_validRounds : Z;
  bn_assignedTasks : Z;
  bn_relevanceCount : Z;
  bn_concretenessCount : Z;
  bn_constructiveCount : Z
}.

Record network := {
  nodes : list bubbleNode;
  edges : list GraphFunc.edge
}.

(** [a || b] on strings that may be missing. *)
Definition or_else (a b : option string) : option string :=
  match a with
  | Some s => if String.eqb s "" then b else a
  | None => b
  end.

(** Truthiness of a string that may be missing. *)
Definition truthy (v : option string) : bool :=
  match v with
  | Some s => negb (String.eqb s "")
  | None => false
  end.

(** [assignment.Reviewer || assignment.reviewer] *)
Definition reviewer_id (assignment : bubble_record) : option string :=
  or_else (Reviewer (inner (upper assignment))) (reviewer assignment).

(** [assignment.Author || assignment.author] *)
Definition author_id (assignment : bubble_record) : option string :=
  or_else (Author (inner (upper assignment))) (author assignment).

Definition new_student (studentId : option string) : student :=
  {| id := studentId;
     name := studentId;
     validComments := 0;
     validRounds := 0;
     assignedTasks := 0;
     relevanceCount := 0;
     concretenessCount := 0;
     constructiveCount := 0 |}.

(** Body of [[reviewer, author].forEach]. *)
Definition ensure_student (studentData : list (option string * student))
    (studentId : option string) : list (option string * student) :=
  if truthy studentId && negb (Map_has studentId studentData)
  then Map_set studentId (new_student studentId) studentData
  else studentData.

(** The local counters of one assignment. *)
Record counters := {
  hasValidFeedback : bool;
  validRoundsCount : Z;
  c_relevanceCount : Z;
  c_concretenessCount : Z;
  c_constructiveCount : Z
}.

Definition incr_if (b : bool) (n : Z) : Z := if b then n + 1 else n.

(** Body of [assignment.Round.forEach]. *)
Definition count_round (round : round_record) (c : counters) : counters :=
  if GraphFunc.has_feedback round then
    {| hasValidFeedback := true;
       validRoundsCount := validRoundsCount c + 1;
       c_relevanceCount :=
         incr_if (is_one (Relevance round)) (c_relevanceCount c);
       c_concretenessCount :=
         incr_if (is_one (Concreteness round)) (c_concretenessCount c);
       c_constructiveCount :=
         incr_if (is_one (Constructive round)) (c_constructiveCount c) |}
  else c.

(** [assignment.Round && assignment.Round.length > 0] *)
Definition Round_nonempty (assignment : loose_record) : bool :=
  match Round (inner assignment) with
  | ArrayOf rounds => 0 <? Z.of_nat (length rounds)
  | NotArray =>
      match non_array assignment with
      | Falsy => false
      | Truthy long => long
      end
  end.

(** Body of [hwData.forEach].  [reviewerData] is the object stored in
    [studentData]; its mutations are written back under the same key. *)
Definition process_assignment (assignment : bubble_record)
    (studentData : list (option string * student))
  : result (list (option string * student)) :=
  let reviewer := reviewer_id assignment in
  let author := author_id assignment in
  let studentData := fold_left ensure_student [reviewer; author] studentData in
  if truthy reviewer && Map_has reviewer studentData then
    match Map_get reviewer studentData with
    | None => Throw TypeError
    | Some reviewerData =>
        let assigned := assignedTasks reviewerData + 1 in
        let init :=
          {| hasValidFeedback := false;
             validRoundsCount := 0;
             c_relevanceCount := 0;
             c_concretenessCount := 0;
             c_constructiveCount := 0 |} in
        c ← (if Round_nonempty (upper assignment)
             then Arr.forEach (Round (inner (upper assignment)))
                    (fun round c => Ok (count_round round c)) init
             else Ok init);
        let reviewerData :=
          {| id := id reviewerData;
             name := name reviewerData;
             validComments :=
               incr_if (hasValidFeedback c) (validComments reviewerData);
             validRounds := validRounds reviewerData + validRoundsCount c;
             assignedTasks := assigned;
             relevanceCount :=
               relevanceCount reviewerData + c_relevanceCount c;
             concretenessCount :=
               concretenessCount reviewerData + c_concretenessCount c;
             constructiveCount :=
               constructiveCount reviewerData + c_constructiveCount c |} in
        Ok (Map_set reviewer reviewerData studentData)
    end
  else Ok studentData.

(** Body of [hwNames.forEach]. *)
Definition process_homework (rawData : gmap string (list bubble_record))
    (hwName : string) (studentData : list (option string * student))
  : result (list (option string * student)) :=
  let hwData := default [] (rawData !! hwName) in
  foldM process_assignment hwData studentData.

(** The callback of the final [map]. *)
Definition to_node (s : student) : bubbleNode :=
  {| bn_id := id s;
     bn_label := name s;
     group := "student";
     bn_validComments := validComments s;
     bn_validRounds := validRounds s;
     bn_assignedTasks := assignedTasks s;
     bn_relevanceCount := relevanceCount s;
     bn_concretenessCount := concretenessCount s;
     bn_constructiveCount := constructiveCount s |}.

(** [None] as argument is a null [rawData], [None] as result the
    returned null. *)
Definition prepareNetworkDataForBubbleChart
    (rawData : option (gmap string (list bubble_record)))
    (hwNames : list string) : result (option network) :=
  match rawData with
  | None => Ok None
  | Some rawData =>
      studentData ← foldM (process_homework rawData) hwNames [];
      Ok (Some {| nodes := map to_node (Map_values studentData);
                  edges := [] |})
  end.

End BubbleChart.

(** Views used for the bubble chart. *)

(** The records of the selected homework keys, in processing order. *)
Definition chosen (rawData : gmap string (list BubbleChart.bubble_record))
    (names : list string) : list BubbleChart.bubble_record :=
  flat_map (fun hw => default [] (rawData !! hw)) names.

(** The students of a list of records, in order of first occurrence:
    the truthy reviewer and author ids. *)
Definition note_student (acc : list (option string)) (k : option string)
  : list (option string) :=
  if BubbleChart.truthy k then note_reviewer acc k else acc.

Definition students (rs : list BubbleChart.bubble_record)
  : list (option string) :=
  fold_left
    (fun acc r =>
       note_student (note_student acc (BubbleChart.reviewer_id r))
                    (BubbleChart.author_id r))
    rs [].

(** The records student [k] reviews. *)
Definition tasks (k : option string) (rs : list BubbleChart.bubble_record)
  : list BubbleChart.bubble_record :=
  List.filter (fun r => bool_decide (BubbleChart.reviewer_id r = k)) rs.

(** The rounds of a record the bubble chart counts. *)
Definition counted (r : BubbleChart.bubble_record) : list round_record :=
  List.filter GraphFunc.has_feedback (rounds_of (inner (BubbleChart.upper r))).

Definition commented (r : BubbleChart.bubble_record) : bool :=
  match counted r with
  | [] => false
  | _ => true
  end.

(** The entry of student [k] after the records [rs]. *)
Definition student_of (rs : list BubbleChart.bubble_record)
    (k : option string) : BubbleChart.student :=
  let mine := tasks k rs in
  let vs := flat_map counted mine in
  {| BubbleChart.id := k;
     BubbleChart.name := k;
     BubbleChart.validComments := Z.of_nat (length (List.filter commented mine));
     BubbleChart.validRounds := Z.of_nat (length vs);
     BubbleChart.assignedTasks := Z.of_nat (length mine);
     BubbleChart.relevanceCount := ones Relevance vs;
     BubbleChart.concretenessCount := ones Concreteness vs;
     BubbleChart.constructiveCount := ones Constructive vs |}.

(** The table of students after the records [rs]. *)
Definition students_of (rs : list BubbleChart.bubble_record)
  : list (option string * BubbleChart.student) :=
  map (fun k => (k, student_of rs k)) (students rs).

(** A record whose [Round] can be looped over when it is not skipped. *)
Definition loopable (r : BubbleChart.bubble_record) : bool :=
  match Round (inner (BubbleChart.upper r)), non_array (BubbleChart.upper r) with
  | NotArray, Truthy true => false
  | _, _ => true
  end.

(** A record the function gets past: it has no reviewer, or its [Round]
    can be looped over. *)
Definition passable (r : BubbleChart.bubble_record) : bool :=
  negb (BubbleChart.truthy (BubbleChart.reviewer_id r)) || loopable r.

(** The data as the graph functions see it. *)
Definition uppers (rawData : gmap string (list BubbleChart.bubble_record))
  : gmap string (list loose_record) :=
  map BubbleChart.upper <$> rawData.

Module BubbleExample.
Local Open Scope string_scope.

Definition record (a : assignment_record) (v : NonArray)
  : BubbleChart.bubble_record :=
  {| BubbleChart.upper := {| inner := a; non_array := v |};
     BubbleChart.reviewer := None;
     BubbleChart.author := None |}.

(** The scenario of two rounds, the second without feedback. *)
Definition hw1 : gmap string (list BubbleChart.bubble_record) :=
  {[ "HW1" := [ record Scenario.record_AB Falsy ] ]}.

(** Reviewer A with one round for each of two authors. *)
Definition one_round_each : gmap string (list BubbleChart.bubble_record) :=
  {[ "HW1" :=
       [ record (Scenario.record "A" "B" (ArrayOf [ Scenario.good ])) Falsy;
         record (Scenario.record "A" "C" (ArrayOf [ Scenario.silent ])) Falsy ] ]}.

End BubbleExample.

(** A record that names its reviewer in the capitalised field. *)
Definition names_reviewer (r : BubbleChart.bubble_record) : bool :=
  BubbleChart.truthy (Reviewer (inner (BubbleChart.upper r))).

(** The rounds of the capitalised [Round] field of a record. *)
Definition rounds_in (r : BubbleChart.bubble_record) : list round_record :=
  rounds_of (inner (BubbleChart.upper r)).

(** ** Conditions under which the model computes what the code computes *)

(** The property names every object inherits from [Object.prototype]:
    [o[key]] finds one of them when [key] is not an own property of
    [o]. *)
Definition prototype_members : list string :=
  [ "constructor"; "__defineGetter__"; "__defineSetter__"; "hasOwnProperty";
    "__lookupGetter__"; "__lookupSetter__"; "isPrototypeOf";
    "propertyIsEnumerable"; "toString"; "valueOf"; "__proto__";
    "toLocaleString" ]%string.

Definition inherited (key : string) : bool :=
  existsb (String.eqb key) prototype_members.

(** No selected key is missing from the data and inherited: for these
    keys [rawData[hwName] || []] is the own property or the empty
    array. *)
Definition plain_keys {A : Type} (rawData : gmap string A)
    (names : list string) : Prop :=
  forall hw, In hw names -> rawData !! hw = None -> inherited hw = false.

(** Every round of the records [rs] has 0/1 flags: on such records the
    sums of flags and of weighted scores are integers far below 2^53, on
    which the additions of the code are exact. *)
Definition binary_records (rs : list (string * assignment_record)) : Prop :=
  Forall (fun p => Forall (fun r => binary_round r = true) (rounds_of p.2)) rs.






(** * Properties *)

(** ** The result monad and the ordered map *)

(** Reduce a bind whose first computation is a known [Ok]. *)
Ltac bind_ok := cbn [mbind Js.result_bind].

Section Generic.
Context {A S : Type}.

Lemma foldM_pure (g : A -> S -> S) (l : list A) (s : S) :
  Js.foldM (fun x s => Js.Ok (g x s)) l s
  = Js.Ok (fold_left (fun s x => g x s) l s).
Proof. revert s; induction l as [|x l IH]; intros s; simpl; [done | apply IH]. Qed.

End Generic.

Section MapFacts.
Context {K V : Type} `{EqDecision K}.
Implicit Types (F : K -> V) (keys : list K).

Lemma Map_get_tabulate F keys k :
  Js.Map_get k (map (fun k' => (k', F k')) keys)
  = if decide (k ∈ keys) then Some (F k) else None.
Proof.
  induction keys as [|k0 keys IH]; cbn [map Js.Map_get].
  - rewrite decide_False; [done | apply not_elem_of_nil].
  - destruct (decide (k0 = k)) as [->|Hne].
    + rewrite decide_True; [done | left].
    + rewrite IH. destruct (decide (k ∈ keys)) as [Hin|Hnin].
      * rewrite decide_True; [done | by right].
      * rewrite decide_False; [done|].
        intros [?|?]%elem_of_cons; congruence.
Qed.

Lemma Map_set_fresh F keys k v :
  k ∉ keys ->
  Js.Map_set k v (map (fun k' => (k', F k')) keys)
  = map (fun k' => (k', F k')) keys ++ [(k, v)].
Proof.
  induction keys as [|k0 keys IH]; simpl; intros Hk; [done|].
  apply not_elem_of_cons in Hk as [Hne Hk].
  rewrite decide_False by congruence. by rewrite IH.
Qed.

Lemma Map_set_present F keys k v :
  NoDup keys -> k ∈ keys ->
  Js.Map_set k v (map (fun k' => (k', F k')) keys)
  = map (fun k' => (k', if decide (k' = k) then v else F k')) keys.
Proof.
  induction keys as [|k0 keys IH]; simpl; intros Hnd Hk.
  - by apply elem_of_nil in Hk.
  - apply NoDup_cons in Hnd as [Hk0 Hnd].
    destruct (decide (k0 = k)) as [->|Hne].
    + f_equal. apply map_ext_in. intros k' Hk'.
      rewrite decide_False; [done|]. intros ->.
      apply Hk0. by apply list_elem_of_In.
    + f_equal. apply IH; [done|].
      apply elem_of_cons in Hk as [?|?]; [congruence | done].
Qed.
End MapFacts.

(** ** Facts about the views *)

Lemma Zsum_app {A : Type} (f : A -> Z) (l1 l2 : list A) :
  Zsum f (l1 ++ l2) = Zsum f l1 + Zsum f l2.
Proof. induction l1 as [|x l1 IH]; simpl; [done | rewrite IH; lia]. Qed.

Lemma reviewers_snoc rs p :
  reviewers (rs ++ [p]) = note_reviewer (reviewers rs) (Reviewer p.2).
Proof. unfold reviewers. by rewrite fold_left_app. Qed.

Lemma elem_of_note_reviewer acc k k' :
  k' ∈ note_reviewer acc k <-> k' ∈ acc \/ k' = k.
Proof.
  unfold note_reviewer. case_decide as Hin.
  - split; [by left | intros [?| ->]; done].
  - rewrite elem_of_app, list_elem_of_singleton. done.
Qed.

Lemma NoDup_note_reviewer acc k : NoDup acc -> NoDup (note_reviewer acc k).
Proof.
  intros Hnd. unfold note_reviewer. case_decide as Hin; [done|].
  apply NoDup_app. split_and!; [done | | apply NoDup_singleton].
  intros x Hx ->%list_elem_of_singleton. done.
Qed.

Lemma reviewers_NoDup rs : NoDup (reviewers rs).
Proof.
  induction rs as [|p rs IH] using rev_ind; [apply NoDup_nil_2|].
  rewrite reviewers_snoc. by apply NoDup_note_reviewer.
Qed.

Lemma elem_of_reviewers rs k :
  k ∈ reviewers rs <-> exists p, p ∈ rs /\ Reviewer p.2 = k.
Proof.
  induction rs as [|p rs IH] using rev_ind.
  - split; [by intros ?%elem_of_nil | by intros (? & ?%elem_of_nil & _)].
  - rewrite reviewers_snoc, elem_of_note_reviewer, IH. split.
    + intros [(q & Hq & Hk) | ->].
      * exists q. split; [apply elem_of_app; by left | done].
      * exists p. split; [apply elem_of_app; right; by apply list_elem_of_singleton | done].
    + intros (q & [Hq | ->%list_elem_of_singleton]%elem_of_app & Hk); [left; eauto | by right].
Qed.

Lemma assigned_rounds_app rs1 rs2 k :
  assigned_rounds (rs1 ++ rs2) k = assigned_rounds rs1 k ++ assigned_rounds rs2 k.
Proof. unfold assigned_rounds. apply flat_map_app. Qed.

Lemma assigned_rounds_one p k :
  assigned_rounds [p] k = if decide (Reviewer p.2 = k) then rounds_of p.2 else [].
Proof. unfold assigned_rounds. simpl. apply app_nil_r. Qed.

Lemma assigned_rounds_none rs k : k ∉ reviewers rs -> assigned_rounds rs k = [].
Proof.
  intros Hk. unfold assigned_rounds.
  induction rs as [|p rs IH]; simpl; [done|].
  rewrite decide_False.
  - simpl. apply IH. intros Hin. apply Hk.
    apply elem_of_reviewers in Hin as (q & Hq & Hqk).
    apply elem_of_reviewers. exists q. split; [by right | done].
  - intros Heq. apply Hk. apply elem_of_reviewers. exists p. split; [left | done].
Qed.

(** ** The node aggregation in closed form *)

Lemma process_round_node_with t k rounds r :
  GraphFunc.process_round r (node_with t k rounds) = node_with t k (rounds ++ [r]).
Proof.
  unfold GraphFunc.process_round, node_with; simpl.
  rewrite !Zsum_app, map_app; simpl.
  unfold label_value, round_score, gave_feedback; simpl.
  fold (feedback_text r).
  destruct (negb (String.eqb (feedback_text r) "")); simpl;
    by rewrite ?Z.add_0_r.
Qed.

Lemma fold_rounds_node_with t k rounds more :
  fold_left (fun n r => GraphFunc.process_round r n) more (node_with t k rounds)
  = node_with t k (rounds ++ more).
Proof.
  revert rounds; induction more as [|r more IH]; intros rounds; simpl.
  - by rewrite app_nil_r.
  - rewrite process_round_node_with, IH. by rewrite <- app_assoc.
Qed.

Lemma guarded_rounds a :
  (if Arr.isArray (Round a) then Round a else ArrayOf []) = ArrayOf (rounds_of a).
Proof. unfold rounds_of. by destruct (Round a). Qed.

Lemma ensure_node_table hw a rs :
  (if Js.Map_has (Reviewer a) (table_of rs).1 then (table_of rs).1
   else Js.Map_set (Reviewer a) (GraphFunc.new_node (Reviewer a)) (table_of rs).1)
  = map (fun k => (k, summary k (assigned_rounds rs k)))
        (reviewers (rs ++ [(hw, a)])).
Proof.
  unfold table_of, Js.Map_has. cbn [fst].
  rewrite (Map_get_tabulate (fun k => summary k (assigned_rounds rs k))).
  rewrite reviewers_snoc. unfold note_reviewer. cbn [snd].
  destruct (decide (Reviewer a ∈ reviewers rs)) as [Hin|Hnin]; [done|].
  rewrite (Map_set_fresh (fun k => summary k (assigned_rounds rs k))) by done.
  rewrite map_app. cbn [map]. do 3 f_equal.
  by rewrite assigned_rounds_none.
Qed.

Lemma process_assignment_table hw a rs :
  GraphFunc.process_assignment hw a (table_of rs) = Js.Ok (table_of (rs ++ [(hw, a)])).
Proof.
  unfold GraphFunc.process_assignment.
  change (table_of rs) with ((table_of rs).1, (table_of rs).2). cbv beta iota zeta.
  rewrite guarded_rounds, (ensure_node_table hw). cbn [Arr.length Arr.forEach].
  rewrite (Map_get_tabulate (fun k => summary k (assigned_rounds rs k))).
  assert (Hk : Reviewer a ∈ reviewers (rs ++ [(hw, a)])).
  { apply elem_of_reviewers. exists (hw, a). split; [|done].
    apply elem_of_app. right. by apply list_elem_of_singleton. }
  rewrite decide_True by done. bind_ok.
  rewrite foldM_pure. bind_ok.
  change (GraphFunc.add_rounds (Z.of_nat (length (rounds_of a)))
            (summary (Reviewer a) (assigned_rounds rs (Reviewer a))))
    with (node_with (Z.of_nat (length (assigned_rounds rs (Reviewer a)))
                     + Z.of_nat (length (rounds_of a)))
                    (Reviewer a) (assigned_rounds rs (Reviewer a))).
  rewrite fold_rounds_node_with.
  rewrite (Map_set_present (fun k => summary k (assigned_rounds rs k)));
    [| apply reviewers_NoDup | done].
  unfold table_of. f_equal. f_equal.
  - apply map_ext. intros k'. f_equal.
    rewrite assigned_rounds_app, assigned_rounds_one. cbn [snd].
    destruct (decide (k' = Reviewer a)) as [->|Hne].
    + rewrite decide_True by done. unfold summary.
      by rewrite length_app, Nat2Z.inj_add.
    + rewrite decide_False by congruence. by rewrite app_nil_r.
  - by rewrite map_app.
Qed.

Lemma fold_assignments_table hw l rs :
  Js.foldM (GraphFunc.process_assignment hw) l (table_of rs)
  = Js.Ok (table_of (rs ++ map (pair hw) l)).
Proof.
  revert rs; induction l as [|a l IH]; intros rs; cbn [Js.foldM map].
  - by rewrite app_nil_r.
  - rewrite process_assignment_table. bind_ok.
    rewrite IH. by rewrite <- app_assoc.
Qed.

Lemma process_homework_table rawData hw rs :
  GraphFunc.process_homework rawData hw (table_of rs)
  = Js.Ok (table_of (rs ++ map (pair hw) (default [] (rawData !! hw)))).
Proof. unfold GraphFunc.process_homework. apply fold_assignments_table. Qed.

Lemma fold_homeworks_table rawData names rs :
  Js.foldM (GraphFunc.process_homework rawData) names (table_of rs)
  = Js.Ok (table_of (rs ++ selected rawData names)).
Proof.
  revert rs; induction names as [|hw names IH]; intros rs;
    cbn [Js.foldM selected flat_map].
  - by rewrite app_nil_r.
  - rewrite process_homework_table. bind_ok.
    rewrite IH. by rewrite <- app_assoc.
Qed.

(** The aggregation never raises, and its result is the graph of the
    selected records. *)
Lemma processReviewerData_graph_of rawData mode hwNames :
  GraphFunc.processReviewerData rawData mode hwNames
  = Js.Ok (graph_of (selected rawData (GraphFunc.hw_list hwNames))).
Proof.
  unfold GraphFunc.processReviewerData.
  change ([], []) with (table_of []).
  rewrite fold_homeworks_table. cbn [mbind Js.result_bind app].
  unfold table_of, graph_of, Js.Map_values. by rewrite !map_map.
Qed.

(** ** Quotients of integers *)

Lemma frac_bounds (a b n : Z) :
  0 < b -> 0 <= a -> a <= n * b ->
  (0 <= inject_Z a / inject_Z b <= inject_Z n)%Q.
Proof.
  intros Hb Ha Hab. destruct b as [|p|p]; try lia.
  unfold Qdiv, Qmult, Qinv, Qle, inject_Z; simpl. split; nia.
Qed.

Lemma frac_eq_one (a b : Z) :
  0 < b -> (inject_Z a / inject_Z b == 1)%Q <-> a = b.
Proof.
  intros Hb. destruct b as [|p|p]; try lia.
  unfold Qdiv, Qmult, Qinv, Qeq, inject_Z; simpl. lia.
Qed.

Lemma frac_lt (a c b : Z) :
  0 < b -> a < c -> (inject_Z a / inject_Z b < inject_Z c / inject_Z b)%Q.
Proof.
  intros Hb Hac. destruct b as [|p|p]; try lia.
  unfold Qdiv, Qmult, Qinv, Qlt, inject_Z; simpl. nia.
Qed.

Lemma frac_le (a c b : Z) :
  0 < b -> a <= c -> (inject_Z a / inject_Z b <= inject_Z c / inject_Z b)%Q.
Proof.
  intros Hb Hac. destruct b as [|p|p]; try lia.
  unfold Qdiv, Qmult, Qinv, Qle, inject_Z; simpl. nia.
Qed.

(** ** Lists of feedback texts *)

Lemma filter_feedback_text rounds :
  List.filter Graph3LabelFunc.nonempty (map feedback_text rounds)
  = map feedback_text (List.filter gave_feedback rounds).
Proof.
  induction rounds as [|r rounds IH]; simpl; [done|].
  unfold Graph3LabelFunc.nonempty at 1, gave_feedback at 1.
  destruct (negb (String.eqb (feedback_text r) "")); simpl; by rewrite IH.
Qed.

Lemma valid_count_feedbacks rounds :
  Z.of_nat (length (List.filter Graph3LabelFunc.nonempty (map feedback_text rounds)))
  = valid_count rounds.
Proof. by rewrite filter_feedback_text, length_map. Qed.

Lemma valid_count_bounds rounds :
  0 <= valid_count rounds <= Z.of_nat (length rounds).
Proof.
  unfold valid_count. induction rounds as [|r rounds IH]; simpl; [lia|].
  destruct (gave_feedback r); simpl; lia.
Qed.

Lemma valid_count_full rounds :
  valid_count rounds = Z.of_nat (length rounds)
  <-> Forall (fun r => gave_feedback r = true) rounds.
Proof.
  induction rounds as [|r rounds IH].
  - split; [constructor | reflexivity].
  - pose proof (valid_count_bounds rounds) as Hb.
    unfold valid_count in *. simpl. destruct (gave_feedback r) eqn:Hr; simpl.
    + rewrite Forall_cons. split.
      * intros H. split; [done|]. apply IH. lia.
      * intros [_ H]. apply IH in H. lia.
    + split; [lia|]. intros H. apply Forall_cons in H as [? _]. congruence.
Qed.

(** ** Nodes of the graph *)

Lemma node_of_graph rs n :
  In n (GraphFunc.nodes (graph_of rs)) ->
  exists k, k ∈ reviewers rs
    /\ n = GraphFunc.finalize (summary k (assigned_rounds rs k)).
Proof.
  unfold graph_of; simpl. intros (k & <- & Hk)%in_map_iff.
  exists k. split; [by apply list_elem_of_In | done].
Qed.

Lemma graph_has_node rs k :
  k ∈ reviewers rs ->
  In (GraphFunc.finalize (summary k (assigned_rounds rs k)))
     (GraphFunc.nodes (graph_of rs)).
Proof.
  intros Hk. unfold graph_of; simpl. apply in_map_iff.
  exists k. split; [done | by apply list_elem_of_In].
Qed.

Lemma completionRate_summary k rounds :
  Graph3LabelFunc.completionRate (GraphFunc.finalize (summary k rounds))
  = if 0 <? Z.of_nat (length rounds)
    then (inject_Z (valid_count rounds) / inject_Z (Z.of_nat (length rounds)))%Q
    else 0%Q.
Proof.
  unfold Graph3LabelFunc.completionRate. cbn [GraphFunc.feedbacks GraphFunc.finalize summary node_with GraphFunc.Acc.feedbacks].
  by rewrite valid_count_feedbacks, length_map.
Qed.

Lemma completion_rate_of_rounds k rounds :
  let n := GraphFunc.finalize (summary k rounds) in
  GraphFunc.feedbacks n = map feedback_text rounds /\
  (0 <= Graph3LabelFunc.completionRate n <= 1)%Q /\
  ((Graph3LabelFunc.completionRate n == 1)%Q <->
   rounds <> [] /\ Forall (fun r => gave_feedback r = true) rounds).
Proof.
  intros n. unfold n. rewrite completionRate_summary. split; [done|].
  pose proof (valid_count_bounds rounds) as Hb.
  destruct (0 <? Z.of_nat (length rounds)) eqn:Hlen.
  - apply Z.ltb_lt in Hlen. split.
    + apply (frac_bounds _ _ 1); lia.
    + rewrite frac_eq_one by done. rewrite valid_count_full.
      split; [intros H; split; [|done] | by intros [_ H]].
      intros ->. simpl in Hlen. lia.
  - apply Z.ltb_ge in Hlen. split; [split; discriminate|].
    split; [discriminate|]. intros [Hne _].
    destruct rounds; [done | simpl in Hlen; lia].
Qed.

Lemma assigned_rounds_empty rs k :
  Forall (fun p => Reviewer p.2 = k ->
                   Round p.2 = NotArray \/ Round p.2 = ArrayOf []) rs ->
  assigned_rounds rs k = [].
Proof.
  unfold assigned_rounds. induction 1 as [|p l Hp _ IH]; [done|].
  cbn [flat_map]. rewrite IH, app_nil_r.
  destruct (decide (Reviewer p.2 = k)) as [Hk|Hk]; [|done].
  unfold rounds_of. by destruct (Hp Hk) as [-> | ->].
Qed.

(** C2 (amended): the derived completion rate of every node lies in
    [0, 1], the node's feedbacks are the trimmed feedback texts of the
    rounds assigned to its reviewer, and the rate is 1 exactly when the
    reviewer has at least one assigned round and every assigned round has
    non-empty feedback.  The rate is the share of the reviewer's rounds
    with non-empty feedback when there is a round, and it is 0 for a
    reviewer whose every record has an empty or non-array [Round]. *)
Theorem completion_rate_bounds rawData mode hwNames :
  exists g,
    GraphFunc.processReviewerData rawData mode hwNames = Js.Ok g /\
    forall n, In n (GraphFunc.nodes g) ->
      let rounds :=
        assigned_rounds (selected rawData (GraphFunc.hw_list hwNames))
                        (GraphFunc.id n) in
      GraphFunc.feedbacks n = map feedback_text rounds /\
      (0 <= Graph3LabelFunc.completionRate n <= 1)%Q /\
      ((Graph3LabelFunc.completionRate n == 1)%Q <->
       rounds <> [] /\ Forall (fun r => gave_feedback r = true) rounds) /\
      (rounds <> [] ->
       (Graph3LabelFunc.completionRate n
        == inject_Z (Z.of_nat (length (List.filter gave_feedback rounds)))
           / inject_Z (Z.of_nat (length rounds)))%Q) /\
      (Forall (fun p => Reviewer p.2 = GraphFunc.id n ->
                        Round p.2 = NotArray \/ Round p.2 = ArrayOf [])
              (selected rawData (GraphFunc.hw_list hwNames)) ->
       rounds = [] /\ (Graph3LabelFunc.completionRate n == 0)%Q).
Proof.
  eexists. split; [apply processReviewerData_graph_of|].
  intros n (k & _ & ->)%node_of_graph.
  cbn [GraphFunc.id GraphFunc.finalize summary node_with GraphFunc.Acc.id].
  set (rs := selected rawData (GraphFunc.hw_list hwNames)).
  destruct (completion_rate_of_rounds k (assigned_rounds rs k))
    as (Hfb & Hb & Hone).
  cbv zeta. split; [exact Hfb|]. split; [exact Hb|]. split; [exact Hone|].
  rewrite completionRate_summary. split.
  - intros Hne.
    assert (Hpos : 0 < Z.of_nat (length (assigned_rounds rs k))).
    { destruct (assigned_rounds rs k); [done | cbn [length]; lia]. }
    apply Z.ltb_lt in Hpos. rewrite Hpos. reflexivity.
  - intros Hall. rewrite (assigned_rounds_empty rs k Hall).
    split; reflexivity.
Qed.

(** C2 (as stated) fails: the only record of reviewer A has an empty
    round list, so every assigned round has feedback, yet the rate is 0. *)
Lemma completion_rate_no_rounds :
  exists g n,
    GraphFunc.processReviewerData Scenario.no_rounds GraphFunc.ModeAll
      (GraphFunc.HwArray ["HW1"%string]) = Js.Ok g /\
    In n (GraphFunc.nodes g) /\
    Forall (fun r => gave_feedback r = true)
      (assigned_rounds (selected Scenario.no_rounds ["HW1"%string])
                       (GraphFunc.id n)) /\
    (Graph3LabelFunc.completionRate n == 0)%Q /\
    ~ (Graph3LabelFunc.completionRate n == 1)%Q.
Proof.
  eexists _, _. split; [vm_compute; reflexivity|].
  split; [left; reflexivity|].
  split; [vm_compute; constructor|].
  split; [reflexivity | discriminate].
Qed.

(** C1: on the scenario input the aggregation returns one node, for
    reviewer A, with feedbacks ["good"; ""], label counts 1/0/1, score 70
    and completion rate 1/2, and one edge from A to B that is not
    complete. *)
Theorem scenario_one_node_one_edge mode :
  exists g n e,
    GraphFunc.processReviewerData Scenario.hw1 mode
      (GraphFunc.HwArray ["HW1"%string]) = Js.Ok g /\
    GraphFunc.nodes g = [n] /\
    GraphFunc.id n = Some "A"%string /\
    GraphFunc.feedbacks n = ["good"%string; ""%string] /\
    GraphFunc.labelCounts n
    = {| GraphFunc.relevance := 1;
         GraphFunc.concreteness := 0;
         GraphFunc.constructive := 1 |} /\
    (GraphFunc.meaningfulScore n == 70)%Q /\
    (Graph3LabelFunc.completionRate n == 1 # 2)%Q /\
    GraphFunc.links g = [e] /\
    e = {| GraphFunc.from := Some "A"%string;
           GraphFunc.to := Some "B"%string;
           GraphFunc.completedAll := false;
           GraphFunc.hwName := "HW1"%string |}.
Proof.
  eexists _, _, _. split; [vm_compute; reflexivity|].
  repeat split; reflexivity.
Qed.

(** ** Score bounds *)

Lemma round_score_binary r :
  binary_round r = true ->
  0 <= round_score r <= (if gave_feedback r then 100 else 0).
Proof.
  unfold binary_round, round_score. intros H.
  apply andb_prop in H as [H Hc]. apply andb_prop in H as [Ha Hb].
  destruct (gave_feedback r); [|lia].
  destruct (Relevance r) as [| |[|[]|]]; try discriminate;
  destruct (Concreteness r) as [| |[|[]|]]; try discriminate;
  destruct (Constructive r) as [| |[|[]|]]; try discriminate; simpl; lia.
Qed.

Lemma score_sum_binary rounds :
  Forall (fun r => binary_round r = true) rounds ->
  0 <= Zsum round_score rounds <= 100 * valid_count rounds.
Proof.
  unfold valid_count. induction 1 as [|r rounds Hr _ IH]; simpl; [lia|].
  apply round_score_binary in Hr.
  destruct (gave_feedback r); simpl length; lia.
Qed.

Lemma assigned_rounds_Forall (P : round_record -> Prop) rs k :
  Forall (fun p => Forall P (rounds_of p.2)) rs ->
  Forall P (assigned_rounds rs k).
Proof.
  unfold assigned_rounds. induction 1 as [|p rs Hp _ IH]; simpl; [constructor|].
  apply Forall_app. split; [|done]. case_decide; [done | constructor].
Qed.

Lemma meaningfulScore_summary k rounds :
  GraphFunc.meaningfulScore (GraphFunc.finalize (summary k rounds))
  = Qmin (if 0 <? valid_count rounds
          then inject_Z (Zsum round_score rounds) / inject_Z (valid_count rounds)
          else 0) 100.
Proof.
  unfold GraphFunc.finalize. cbn [GraphFunc.meaningfulScore summary node_with
    GraphFunc.Acc.feedbacks GraphFunc.Acc.meaningfulScore].
  change (fun fb => negb (String.eqb fb "")) with Graph3LabelFunc.nonempty.
  by rewrite valid_count_feedbacks.
Qed.

Lemma score_of_rounds k rounds :
  Forall (fun r => binary_round r = true) rounds ->
  let n := GraphFunc.finalize (summary k rounds) in
  (0 <= GraphFunc.meaningfulScore n <= 100)%Q /\
  (GraphFunc.meaningfulScore n ==
     Qmin (if 0 <? valid_count rounds
           then inject_Z (Zsum round_score rounds) / inject_Z (valid_count rounds)
           else 0) 100)%Q /\
  (0 < valid_count rounds ->
   (GraphFunc.meaningfulScore n ==
      inject_Z (Zsum round_score rounds) / inject_Z (valid_count rounds))%Q) /\
  (valid_count rounds = 0 -> (GraphFunc.meaningfulScore n == 0)%Q).
Proof.
  intros Hbin n. unfold n. rewrite meaningfulScore_summary.
  apply score_sum_binary in Hbin.
  destruct (0 <? valid_count rounds) eqn:Hv.
  - apply Z.ltb_lt in Hv.
    assert (Hq : (0 <= inject_Z (Zsum round_score rounds)
                       / inject_Z (valid_count rounds) <= inject_Z 100)%Q)
      by (apply frac_bounds; lia).
    change (inject_Z 100) with 100%Q in Hq. destruct Hq as [Hq0 Hq100].
    rewrite (Q.min_l _ _ Hq100).
    split_and!; [done | done | reflexivity | reflexivity | lia].
  - apply Z.ltb_ge in Hv.
    split_and!; try reflexivity; try discriminate. lia.
Qed.

(** C3: when the rounds of the selected records carry 0/1 flags, every
    node's meaningfulScore lies in [0, 100]; it is the weighted sum over
    the reviewer's rounds with feedback divided by their number, capped
    at 100 (the cap is never reached), and 0 when there is no such round. *)
Theorem meaningful_score_bounds rawData mode hwNames :
  Forall (fun p => Forall (fun r => binary_round r = true) (rounds_of p.2))
         (selected rawData (GraphFunc.hw_list hwNames)) ->
  exists g,
    GraphFunc.processReviewerData rawData mode hwNames = Js.Ok g /\
    forall n, In n (GraphFunc.nodes g) ->
      let rounds :=
        assigned_rounds (selected rawData (GraphFunc.hw_list hwNames))
                        (GraphFunc.id n) in
      (0 <= GraphFunc.meaningfulScore n <= 100)%Q /\
      (GraphFunc.meaningfulScore n ==
         Qmin (if 0 <? valid_count rounds
               then inject_Z (Zsum round_score rounds)
                    / inject_Z (valid_count rounds)
               else 0) 100)%Q /\
      (0 < valid_count rounds ->
       (GraphFunc.meaningfulScore n ==
          inject_Z (Zsum round_score rounds) / inject_Z (valid_count rounds))%Q) /\
      (valid_count rounds = 0 -> (GraphFunc.meaningfulScore n == 0)%Q).
Proof.
  intros Hbin. eexists. split; [apply processReviewerData_graph_of|].
  intros n (k & _ & ->)%node_of_graph.
  apply (score_of_rounds k). by apply assigned_rounds_Forall.
Qed.

(** The score bounds on the scenario input, whose flags are 0/1. *)
Lemma meaningful_score_bounds_scenario :
  exists g,
    GraphFunc.processReviewerData Scenario.hw1 GraphFunc.ModeAll
      (GraphFunc.HwArray ["HW1"%string]) = Js.Ok g /\
    forall n, In n (GraphFunc.nodes g) ->
      let rounds :=
        assigned_rounds (selected Scenario.hw1 ["HW1"%string]) (GraphFunc.id n) in
      (0 <= GraphFunc.meaningfulScore n <= 100)%Q /\
      (GraphFunc.meaningfulScore n ==
         Qmin (if 0 <? valid_count rounds
               then inject_Z (Zsum round_score rounds)
                    / inject_Z (valid_count rounds)
               else 0) 100)%Q /\
      (0 < valid_count rounds ->
       (GraphFunc.meaningfulScore n ==
          inject_Z (Zsum round_score rounds) / inject_Z (valid_count rounds))%Q) /\
      (valid_count rounds = 0 -> (GraphFunc.meaningfulScore n == 0)%Q).
Proof.
  apply (meaningful_score_bounds Scenario.hw1 GraphFunc.ModeAll
           (GraphFunc.HwArray ["HW1"%string])).
  vm_compute. repeat constructor.
Defined.

(** ** Edges *)

Lemma length_selected rawData names :
  length (selected rawData names)
  = list_sum (map (fun hw => length (default [] (rawData !! hw))) names).
Proof.
  unfold selected. induction names as [|hw names IH]; simpl; [done|].
  by rewrite length_app, length_map, IH.
Qed.

(** C10: the aggregation appends one edge per record of the selected
    homework keys, from the record's reviewer to its author, complete when
    the record has at least three rounds, tagged with the homework key; a
    record without rounds (missing, non-array or empty [Round]) still has
    its reviewer's node and an edge that is not complete; the number of
    edges is the number of selected records. *)
Theorem one_edge_per_record rawData mode hwNames :
  exists g,
    GraphFunc.processReviewerData rawData mode hwNames = Js.Ok g /\
    let rs := selected rawData (GraphFunc.hw_list hwNames) in
    GraphFunc.links g
    = map (fun p =>
             {| GraphFunc.from := Reviewer p.2;
                GraphFunc.to := Author p.2;
                GraphFunc.completedAll :=
                  3 <=? Z.of_nat (length (rounds_of p.2));
                GraphFunc.hwName := p.1 |}) rs /\
    length (GraphFunc.links g)
    = list_sum (map (fun hw => length (default [] (rawData !! hw)))
                    (GraphFunc.hw_list hwNames)) /\
    forall p, In p rs ->
      (exists n, In n (GraphFunc.nodes g) /\ GraphFunc.id n = Reviewer p.2) /\
      In (edge_of p) (GraphFunc.links g) /\
      (Round p.2 = NotArray \/ Round p.2 = ArrayOf [] ->
       GraphFunc.completedAll (edge_of p) = false).
Proof.
  eexists. split; [apply processReviewerData_graph_of|].
  intros rs. split_and!.
  - reflexivity.
  - cbn [graph_of GraphFunc.links]. rewrite length_map. apply length_selected.
  - intros p Hp. split_and!.
    + exists (GraphFunc.finalize (summary (Reviewer p.2) (assigned_rounds rs (Reviewer p.2)))).
      split; [|done]. apply graph_has_node, elem_of_reviewers.
      exists p. split; [by apply list_elem_of_In | done].
    + cbn [graph_of GraphFunc.links]. by apply in_map.
    + unfold edge_of, rounds_of. cbn [GraphFunc.completedAll].
      by intros [-> | ->].
Qed.

(** ** Node size *)

Lemma completionRate_unit n :
  (0 <= Graph3LabelFunc.completionRate n <= 1)%Q.
Proof.
  unfold Graph3LabelFunc.completionRate.
  pose proof (List.filter_length_le Graph3LabelFunc.nonempty (GraphFunc.feedbacks n)) as Hle.
  destruct (0 <? Z.of_nat (length (GraphFunc.feedbacks n))) eqn:Hlen.
  - apply Z.ltb_lt in Hlen. apply (frac_bounds _ _ 1); lia.
  - split; discriminate.
Qed.

(** C9: the visual size of a styled node is 15 + completionRate * 35 and
    lies in [15, 50]; it is the same in every mode and for every node with
    the same feedbacks, whatever the label counts and the colour are; and
    [generateGraph] styles every aggregated node this way. *)
Theorem node_size_from_completion_rate mode n :
  let size := Graph3LabelFunc.value (Graph3LabelFunc.style_node mode n) in
  (size == 15 + Graph3LabelFunc.completionRate n * 35)%Q /\
  (15 <= size <= 50)%Q /\
  (forall mode' n',
     GraphFunc.feedbacks n' = GraphFunc.feedbacks n ->
     Graph3LabelFunc.value (Graph3LabelFunc.style_node mode' n') = size) /\
  (forall rawData hwNames,
     exists g visEdges,
       GraphFunc.processReviewerData rawData mode hwNames = Js.Ok g /\
       Graph3LabelFunc.generateGraph rawData mode hwNames
       = Js.Ok (map (Graph3LabelFunc.style_node mode) (GraphFunc.nodes g),
                visEdges)).
Proof.
  intros size. unfold size, Graph3LabelFunc.style_node, Graph3LabelFunc.sizeScale.
  cbn [Graph3LabelFunc.value].
  pose proof (completionRate_unit n) as [H0 H1].
  split_and!.
  - reflexivity.
  - lra.
  - lra.
  - intros mode' n' Hfb. unfold Graph3LabelFunc.completionRate. by rewrite Hfb.
  - intros rawData hwNames. unfold Graph3LabelFunc.generateGraph.
    rewrite processReviewerData_graph_of. bind_ok.
    eexists _, _. split; reflexivity.
Qed.

(** ** Raising one flag *)

Lemma selected_app rawData n1 n2 :
  selected rawData (n1 ++ n2) = selected rawData n1 ++ selected rawData n2.
Proof. unfold selected. apply flat_map_app. Qed.

Lemma selected_cons rawData hw names :
  selected rawData (hw :: names)
  = map (pair hw) (default [] (rawData !! hw)) ++ selected rawData names.
Proof. reflexivity. Qed.

Lemma in_selected rawData names hw a :
  In hw names -> In a (default [] (rawData !! hw)) ->
  In (hw, a) (selected rawData names).
Proof.
  intros Hhw Ha. unfold selected. apply in_flat_map.
  exists hw. split; [done | by apply in_map].
Qed.

Lemma valid_count_app l1 l2 :
  valid_count (l1 ++ l2) = valid_count l1 + valid_count l2.
Proof. unfold valid_count. rewrite List.filter_app, length_app. lia. Qed.

Lemma valid_count_pos rounds r :
  In r rounds -> gave_feedback r = true -> 0 < valid_count rounds.
Proof.
  intros (l1 & l2 & ->)%in_split Hr.
  rewrite valid_count_app.
  pose proof (valid_count_bounds l1). pose proof (valid_count_bounds l2).
  unfold valid_count in *. simpl. rewrite Hr. simpl length. lia.
Qed.

Section Raise.
Variables (L : LabelKind) (rd : round_record).
Hypothesis Hfeedback : gave_feedback rd = true.
Hypothesis Hflag : flag_of L rd = Js.FNum 0.

Let rd' := set_flag L (Js.FNum 1) rd.

Lemma raised_feedback_text x y : raised L rd x y -> feedback_text y = feedback_text x.
Proof. by intros [-> | [-> ->]]. Qed.

Lemma raised_gave_feedback x y : raised L rd x y -> gave_feedback y = gave_feedback x.
Proof. by intros [-> | [-> ->]]. Qed.

Lemma label_value_raised : label_value L rd' = label_value L rd + 1.
Proof.
  unfold label_value, rd'.
  change (gave_feedback (set_flag L (Js.FNum 1) rd)) with (gave_feedback rd).
  rewrite Hfeedback, Hflag. by destruct L.
Qed.

Lemma label_value_raised_other L' : L' <> L -> label_value L' rd' = label_value L' rd.
Proof. intros Hne. unfold label_value, rd'. by destruct L, L'. Qed.

Lemma label_value_raised_le L' x y :
  raised L rd x y -> label_value L' x <= label_value L' y.
Proof.
  intros [-> | [-> ->]]; [lia|].
  destruct (decide (L' = L)) as [->|Hne].
  - fold rd'. rewrite label_value_raised. lia.
  - fold rd'. rewrite label_value_raised_other by done. lia.
Qed.

Lemma round_score_raised : round_score rd' = round_score rd + weight L.
Proof.
  unfold round_score, rd'.
  change (gave_feedback (set_flag L (Js.FNum 1) rd)) with (gave_feedback rd).
  rewrite Hfeedback. destruct L; simpl in *; rewrite Hflag; simpl; lia.
Qed.

Lemma round_score_raised_le x y : raised L rd x y -> round_score x <= round_score y.
Proof.
  intros [-> | [-> ->]]; [lia|]. fold rd'. rewrite round_score_raised.
  destruct L; simpl; lia.
Qed.

Lemma raised_map_feedback_text l l' :
  Forall2 (raised L rd) l l' -> map feedback_text l' = map feedback_text l.
Proof.
  induction 1 as [|x y l l' Hxy _ IH]; simpl; [done|].
  by rewrite IH, (raised_feedback_text x y).
Qed.

Lemma raised_valid_count l l' :
  Forall2 (raised L rd) l l' -> valid_count l' = valid_count l.
Proof.
  unfold valid_count. induction 1 as [|x y l l' Hxy _ IH]; simpl; [done|].
  rewrite (raised_gave_feedback x y) by done.
  destruct (gave_feedback x); simpl length; lia.
Qed.

Lemma raised_Zsum_le (f : round_record -> Z) l l' :
  (forall x y, raised L rd x y -> f x <= f y) ->
  Forall2 (raised L rd) l l' -> Zsum f l <= Zsum f l'.
Proof.
  intros Hf. induction 1 as [|x y l l' Hxy _ IH]; simpl; [lia|].
  specialize (Hf x y Hxy). lia.
Qed.

Lemma raised_refl l : Forall2 (raised L rd) l l.
Proof. induction l; constructor; [by left | done]. Qed.

(** The two inputs: [rawData], and [rawData] with the flag raised in round
    [rd] of record [a] under key [hw]. *)
Variables (rawData : gmap string (list assignment_record)) (hw : string).
Variables (l1 l2 : list assignment_record) (a : assignment_record).
Variables (r1 r2 : list round_record).
Hypothesis Hhw : rawData !! hw = Some (l1 ++ a :: l2).
Hypothesis Hround : Round a = ArrayOf (r1 ++ rd :: r2).

Let a' := with_Round (ArrayOf (r1 ++ rd' :: r2)) a.
Let rawData' := <[hw := l1 ++ a' :: l2]> rawData.

Lemma raised_records k name :
  let f := fun d => assigned_rounds (map (pair name) (default [] (d !! name))) k in
  Forall2 (raised L rd) (f rawData) (f rawData').
Proof.
  intros f. unfold f, rawData'.
  destruct (decide (name = hw)) as [->|Hne].
  - rewrite lookup_insert_eq, Hhw. cbn [from_option id].
    rewrite !map_app. cbn [map]. rewrite !assigned_rounds_app.
    apply Forall2_app; [apply raised_refl|].
    change ((hw, a) :: map (pair hw) l2) with ([(hw, a)] ++ map (pair hw) l2).
    change ((hw, a') :: map (pair hw) l2) with ([(hw, a')] ++ map (pair hw) l2).
    rewrite !assigned_rounds_app.
    apply Forall2_app; [|apply raised_refl].
    rewrite !assigned_rounds_one. cbn [snd].
    change (Reviewer a') with (Reviewer a).
    destruct (decide (Reviewer a = k)); [|constructor].
    unfold rounds_of, a'. cbn [Round with_Round]. rewrite Hround.
    apply Forall2_app; [apply raised_refl|].
    constructor; [by right | apply raised_refl].
  - rewrite lookup_insert_ne by done. apply raised_refl.
Qed.

Lemma raised_selected k names :
  Forall2 (raised L rd) (assigned_rounds (selected rawData names) k)
          (assigned_rounds (selected rawData' names) k).
Proof.
  induction names as [|name names IH]; [constructor|].
  rewrite !selected_cons, !assigned_rounds_app.
  apply Forall2_app; [apply (raised_records k name) | done].
Qed.

(** Where the record is selected, the reviewer's rounds split around an
    occurrence of [rd] that becomes [rd']. *)
Lemma raised_selected_split names :
  In hw names ->
  exists P S P' S',
    assigned_rounds (selected rawData names) (Reviewer a) = P ++ rd :: S /\
    assigned_rounds (selected rawData' names) (Reviewer a) = P' ++ rd' :: S' /\
    Forall2 (raised L rd) P P' /\ Forall2 (raised L rd) S S'.
Proof.
  intros (n1 & n2 & ->)%in_split.
  set (k := Reviewer a).
  exists (assigned_rounds (selected rawData n1) k
          ++ assigned_rounds (map (pair hw) l1) k ++ r1),
         (r2 ++ assigned_rounds (map (pair hw) l2) k
          ++ assigned_rounds (selected rawData n2) k),
         (assigned_rounds (selected rawData' n1) k
          ++ assigned_rounds (map (pair hw) l1) k ++ r1),
         (r2 ++ assigned_rounds (map (pair hw) l2) k
          ++ assigned_rounds (selected rawData' n2) k).
  split_and!.
  - rewrite selected_app, selected_cons, Hhw. cbn [from_option id].
    rewrite map_app. cbn [map].
    change ((hw, a) :: map (pair hw) l2) with ([(hw, a)] ++ map (pair hw) l2).
    rewrite !assigned_rounds_app, assigned_rounds_one. cbn [snd].
    rewrite decide_True by done. unfold rounds_of. rewrite Hround.
    by rewrite <- !app_assoc.
  - rewrite selected_app, selected_cons. unfold rawData' at 2.
    rewrite lookup_insert_eq. cbn [from_option id].
    rewrite map_app. cbn [map].
    change ((hw, a') :: map (pair hw) l2) with ([(hw, a')] ++ map (pair hw) l2).
    rewrite !assigned_rounds_app, assigned_rounds_one. cbn [snd].
    change (Reviewer a') with (Reviewer a).
    rewrite decide_True by done. unfold rounds_of, a'. cbn [Round with_Round].
    by rewrite <- !app_assoc.
  - apply Forall2_app; [apply raised_selected | apply raised_refl].
  - apply Forall2_app; [apply raised_refl|].
    apply Forall2_app; [apply raised_refl | apply raised_selected].
Qed.

End Raise.

Lemma score_label_summary L k rounds :
  Graph3LabelFunc.score (mode_of L) (GraphFunc.finalize (summary k rounds))
  = if 0 <? valid_count rounds
    then (inject_Z (Zsum (label_value L) rounds) / inject_Z (valid_count rounds))%Q
    else 0%Q.
Proof.
  unfold Graph3LabelFunc.score.
  cbn [GraphFunc.feedbacks GraphFunc.labelCounts GraphFunc.finalize summary
       node_with GraphFunc.Acc.feedbacks GraphFunc.Acc.labelCounts].
  rewrite valid_count_feedbacks. by destruct L.
Qed.

Lemma score_all_summary k rounds :
  Graph3LabelFunc.score GraphFunc.ModeAll (GraphFunc.finalize (summary k rounds))
  = if 0 <? valid_count rounds
    then ((inject_Z (Zsum (label_value LRelevance) rounds)
           / inject_Z (valid_count rounds)
           + inject_Z (Zsum (label_value LConcreteness) rounds)
             / inject_Z (valid_count rounds)
           + inject_Z (Zsum (label_value LConstructive) rounds)
             / inject_Z (valid_count rounds)) / 3)%Q
    else 0%Q.
Proof.
  unfold Graph3LabelFunc.score.
  cbn [GraphFunc.feedbacks GraphFunc.labelCounts GraphFunc.finalize summary
       node_with GraphFunc.Acc.feedbacks GraphFunc.Acc.labelCounts
       GraphFunc.relevance GraphFunc.concreteness GraphFunc.constructive].
  by rewrite valid_count_feedbacks.
Qed.

Lemma unique_node rs k m :
  In m (GraphFunc.nodes (graph_of rs)) -> GraphFunc.id m = k ->
  m = GraphFunc.finalize (summary k (assigned_rounds rs k)).
Proof. by intros (k' & _ & ->)%node_of_graph <-. Qed.

(** C4: on records with 0/1 flags, setting one 0 flag of label [L] to
    1, in a round with feedback of a selected record, strictly increases
    the reviewer's score in the mode of [L] and in mode all, and does not
    decrease the reviewer's meaningfulScore.  [n] and [n'] are the
    reviewer's nodes before and after the change. *)
Theorem label_flag_monotone
    (rawData : gmap string (list assignment_record)) (mode : GraphFunc.Mode)
    (hwNames : GraphFunc.HwNames) (hw : string)
    (l1 l2 : list assignment_record) (a : assignment_record)
    (r1 r2 : list round_record) (rd : round_record) (L : LabelKind) :
  rawData !! hw = Some (l1 ++ a :: l2) ->
  Round a = ArrayOf (r1 ++ rd :: r2) ->
  gave_feedback rd = true ->
  flag_of L rd = Js.FNum 0 ->
  In hw (GraphFunc.hw_list hwNames) ->
  binary_records (selected rawData (GraphFunc.hw_list hwNames)) ->
  let a' := with_Round (ArrayOf (r1 ++ set_flag L (Js.FNum 1) rd :: r2)) a in
  let rawData' := <[hw := l1 ++ a' :: l2]> rawData in
  exists g g' n n',
    GraphFunc.processReviewerData rawData mode hwNames = Js.Ok g /\
    GraphFunc.processReviewerData rawData' mode hwNames = Js.Ok g' /\
    (In n (GraphFunc.nodes g) /\
     forall m, In m (GraphFunc.nodes g) ->
               GraphFunc.id m = Reviewer a -> m = n) /\
    (In n' (GraphFunc.nodes g') /\
     forall m, In m (GraphFunc.nodes g') ->
               GraphFunc.id m = Reviewer a -> m = n') /\
    GraphFunc.id n = Reviewer a /\
    GraphFunc.id n' = Reviewer a /\
    (Graph3LabelFunc.score (mode_of L) n
     < Graph3LabelFunc.score (mode_of L) n')%Q /\
    (Graph3LabelFunc.score GraphFunc.ModeAll n
     < Graph3LabelFunc.score GraphFunc.ModeAll n')%Q /\
    (GraphFunc.meaningfulScore n <= GraphFunc.meaningfulScore n')%Q.
Proof.
  intros Hhw Hround Hfb Hflag Hsel _ a' rawData'.
  set (names := GraphFunc.hw_list hwNames) in *.
  set (k := Reviewer a).
  set (R := assigned_rounds (selected rawData names) k).
  set (R' := assigned_rounds (selected rawData' names) k).
  exists (graph_of (selected rawData names)), (graph_of (selected rawData' names)),
         (GraphFunc.finalize (summary k R)), (GraphFunc.finalize (summary k R')).
  split; [apply processReviewerData_graph_of|].
  split; [apply processReviewerData_graph_of|].
  destruct (raised_selected_split L rd rawData hw l1 l2 a r1 r2
              Hhw Hround names Hsel) as (P & S & P' & S' & HR & HR' & HP & HS).
  fold a' rawData' k R R' in HR, HR'.
  pose proof (raised_selected L rd rawData hw l1 l2 a r1 r2 Hhw Hround k names)
    as Hrel.
  fold a' rawData' R R' in Hrel.
  assert (Hin : In (hw, a) (selected rawData names)).
  { apply in_selected; [done|]. rewrite Hhw. apply in_elt. }
  assert (Hin' : In (hw, a') (selected rawData' names)).
  { apply in_selected; [done|]. unfold rawData'.
    rewrite lookup_insert_eq. apply in_elt. }
  split.
  { split; [|intros m Hm Hid; by apply unique_node].
    apply graph_has_node, elem_of_reviewers.
    exists (hw, a). split; [by apply list_elem_of_In | done]. }
  split.
  { split; [|intros m Hm Hid; by apply unique_node].
    apply graph_has_node, elem_of_reviewers.
    exists (hw, a'). split; [by apply list_elem_of_In | done]. }
  split; [done|]. split; [done|].
  assert (HV : valid_count R' = valid_count R)
    by (by apply (raised_valid_count L rd)).
  assert (Hpos : 0 < valid_count R).
  { apply (valid_count_pos R rd); [|done]. rewrite HR. apply in_elt. }
  assert (Hle : forall L', Zsum (label_value L') R <= Zsum (label_value L') R').
  { intros L'. apply (raised_Zsum_le L rd); [|done].
    intros x y. by apply label_value_raised_le. }
  assert (Hlt : Zsum (label_value L) R < Zsum (label_value L) R').
  { rewrite HR, HR', !Zsum_app. cbn [Zsum fold_right].
    rewrite (label_value_raised L rd Hfb Hflag).
    assert (Zsum (label_value L) P <= Zsum (label_value L) P')
      by (apply (raised_Zsum_le L rd); [intros x y; by apply label_value_raised_le | done]).
    assert (Zsum (label_value L) S <= Zsum (label_value L) S')
      by (apply (raised_Zsum_le L rd); [intros x y; by apply label_value_raised_le | done]).
    fold (Zsum (label_value L) S) (Zsum (label_value L) S'). lia. }
  assert (Hscore : Zsum round_score R <= Zsum round_score R').
  { apply (raised_Zsum_le L rd); [|done].
    intros x y. by apply round_score_raised_le. }
  assert (Hb : (0 <? valid_count R) = true) by (by apply Z.ltb_lt).
  split_and!.
  - rewrite !score_label_summary, HV, Hb. by apply frac_lt.
  - rewrite !score_all_summary, HV, Hb.
    pose proof (frac_le _ _ _ Hpos (Hle LRelevance)) as H1.
    pose proof (frac_le _ _ _ Hpos (Hle LConcreteness)) as H2.
    pose proof (frac_le _ _ _ Hpos (Hle LConstructive)) as H3.
    pose proof (frac_lt _ _ _ Hpos Hlt) as H4.
    set (V := inject_Z (valid_count R)) in *.
    destruct L;
      set (x1 := (inject_Z (Zsum (label_value LRelevance) R) / V)%Q) in *;
      set (y1 := (inject_Z (Zsum (label_value LRelevance) R') / V)%Q) in *;
      set (x2 := (inject_Z (Zsum (label_value LConcreteness) R) / V)%Q) in *;
      set (y2 := (inject_Z (Zsum (label_value LConcreteness) R') / V)%Q) in *;
      set (x3 := (inject_Z (Zsum (label_value LConstructive) R) / V)%Q) in *;
      set (y3 := (inject_Z (Zsum (label_value LConstructive) R') / V)%Q) in *;
      clearbody x1 y1 x2 y2 x3 y3;
      unfold Qdiv; (apply Qmult_lt_compat_r; [reflexivity|]); lra.
  - rewrite !meaningfulScore_summary, HV, Hb.
    apply Q.min_le_compat_r. by apply frac_le.
Qed.

(** Raising the concreteness flag of the first round of the scenario. *)
Lemma label_flag_monotone_scenario :
  exists g g' n n',
    GraphFunc.processReviewerData Scenario.hw1 GraphFunc.ModeAll
      (GraphFunc.HwArray ["HW1"%string]) = Js.Ok g /\
    GraphFunc.processReviewerData
      (<["HW1"%string :=
           [ with_Round
               (ArrayOf [ set_flag LConcreteness (Js.FNum 1) Scenario.good;
                          Scenario.silent ])
               Scenario.record_AB ]]> Scenario.hw1)
      GraphFunc.ModeAll (GraphFunc.HwArray ["HW1"%string]) = Js.Ok g' /\
    In n (GraphFunc.nodes g) /\
    In n' (GraphFunc.nodes g') /\
    (Graph3LabelFunc.score GraphFunc.ModeConcreteness n
     < Graph3LabelFunc.score GraphFunc.ModeConcreteness n')%Q /\
    (Graph3LabelFunc.score GraphFunc.ModeAll n
     < Graph3LabelFunc.score GraphFunc.ModeAll n')%Q /\
    (GraphFunc.meaningfulScore n <= GraphFunc.meaningfulScore n')%Q.
Proof.
  destruct (label_flag_monotone Scenario.hw1 GraphFunc.ModeAll
              (GraphFunc.HwArray ["HW1"%string]) "HW1"%string [] []
              Scenario.record_AB [] [Scenario.silent] Scenario.good
              LConcreteness)
    as (g & g' & n & n' & Hg & Hg' & [Hn _] & [Hn' _] & _ & _ & H1 & H2 & H3).
  - reflexivity.
  - reflexivity.
  - reflexivity.
  - reflexivity.
  - left; reflexivity.
  - repeat constructor.
  - exists g, g', n, n'. repeat split; assumption.
Defined.


(** ** The label averages in closed form *)

Lemma add_labels_nil st : add_labels [] st = st.
Proof. destruct st. unfold add_labels, labels_in. simpl. f_equal. lia. Qed.

Lemma add_labels_cons r rounds st :
  add_labels (r :: rounds) st
  = add_labels rounds
      (if parseable r
       then {| GraphFunc.totalLabel :=
                 Js.Num_add (GraphFunc.totalLabel st) (Js.parseFloat (Label r));
               GraphFunc.count := GraphFunc.count st + 1 |}
       else st).
Proof.
  unfold add_labels, labels_in. simpl. destruct (parseable r); simpl; [|done].
  f_equal. lia.
Qed.

Lemma add_label_step reviewer r (stats : gmap string GraphFunc.reviewerStat) st :
  stats !! Js.property_key reviewer = Some st ->
  GraphFunc.add_label reviewer r stats
  = Js.Ok (if parseable r
           then <[Js.property_key reviewer :=
                    {| GraphFunc.totalLabel :=
                         Js.Num_add (GraphFunc.totalLabel st)
                                    (Js.parseFloat (Label r));
                       GraphFunc.count := GraphFunc.count st + 1 |}]> stats
           else stats).
Proof.
  intros Hst. unfold GraphFunc.add_label, parseable. cbv zeta.
  destruct (negb (Js.isNaN (Js.parseFloat (Label r)))); [by rewrite Hst | done].
Qed.

Lemma fold_add_label reviewer rounds (stats : gmap string GraphFunc.reviewerStat) st :
  stats !! Js.property_key reviewer = Some st ->
  Js.foldM (GraphFunc.add_label reviewer) rounds stats
  = Js.Ok (<[Js.property_key reviewer := add_labels rounds st]> stats).
Proof.
  revert stats st. induction rounds as [|r rounds IH]; intros stats st Hst.
  - cbn [Js.foldM]. by rewrite add_labels_nil, insert_id.
  - cbn [Js.foldM]. rewrite (add_label_step _ _ _ st Hst), add_labels_cons.
    bind_ok. destruct (parseable r).
    + erewrite IH by apply lookup_insert_eq. by rewrite insert_insert_eq.
    + by apply IH.
Qed.

Lemma labels_of_app key l1 l2 :
  labels_of key (l1 ++ l2) = labels_of key l1 ++ labels_of key l2.
Proof. unfold labels_of. apply flat_map_app. Qed.

Lemma labels_of_one key a :
  labels_of key [a]
  = if decide (reviewer_key a = key) then labels_in (rounds_of a) else [].
Proof. unfold labels_of. simpl. apply app_nil_r. Qed.

Lemma seen_app key l1 l2 : seen key (l1 ++ l2) = seen key l1 || seen key l2.
Proof. unfold seen. apply existsb_app. Qed.

Lemma labels_of_unseen key l : seen key l = false -> labels_of key l = [].
Proof.
  unfold seen, labels_of. induction l as [|a l IH]; simpl; [done|].
  intros [Ha Hl]%orb_false_elim. rewrite (IH Hl), app_nil_r.
  case_decide as Hk; [|done].
  rewrite bool_decide_eq_true_2, andb_true_r in Ha by done.
  unfold rounds_of. by destruct (Round a).
Qed.

Lemma add_labels_stat_of key done rounds :
  add_labels rounds (stat_of key done)
  = {| GraphFunc.totalLabel := label_total (labels_of key done ++ labels_in rounds);
       GraphFunc.count := Z.of_nat (length (labels_of key done ++ labels_in rounds)) |}.
Proof.
  unfold add_labels, stat_of, label_total. simpl.
  rewrite fold_left_app, length_app. f_equal. lia.
Qed.

Lemma ensure_stat a rounds done stats :
  tracks done stats -> Round a = ArrayOf rounds ->
  let key0 := reviewer_key a in
  let stats1 :=
    match stats !! key0 with
    | Some _ => stats
    | None => <[key0 := {| GraphFunc.totalLabel := Js.Fin 0;
                           GraphFunc.count := 0 |}]> stats
    end in
  exists st0,
    stats1 !! key0 = Some st0 /\
    add_labels rounds st0 = stat_of key0 (done ++ [a]) /\
    forall key, key <> key0 -> stats1 !! key = stats !! key.
Proof.
  intros Htr Hr key0 stats1. unfold stats1.
  assert (Hnew : stat_of key0 (done ++ [a])
                 = {| GraphFunc.totalLabel :=
                        label_total (labels_of key0 done ++ labels_in rounds);
                      GraphFunc.count :=
                        Z.of_nat (length (labels_of key0 done ++ labels_in rounds)) |}).
  { unfold stat_of. rewrite labels_of_app, labels_of_one, decide_True by done.
    unfold rounds_of. by rewrite Hr. }
  pose proof (Htr key0) as H0. destruct (seen key0 done) eqn:Hs; rewrite H0.
  - exists (stat_of key0 done). split_and!; [done | | done].
    by rewrite add_labels_stat_of, Hnew.
  - eexists. split_and!; [apply lookup_insert_eq | |].
    + rewrite Hnew, (labels_of_unseen _ _ Hs). reflexivity.
    + intros key Hne. by rewrite lookup_insert_ne.
Qed.

Lemma collect_tracks a done stats :
  tracks done stats ->
  exists stats', GraphFunc.collect a stats = Js.Ok stats'
                 /\ tracks (done ++ [a]) stats'.
Proof.
  intros Htr. unfold GraphFunc.collect.
  fold (reviewer_key a).
  destruct (Round a) as [|rounds] eqn:Hr; cbn [Arr.isArray negb Arr.forEach].
  - exists stats. split; [done|]. intros key.
    rewrite Htr, seen_app. unfold stat_of.
    rewrite labels_of_app, labels_of_one.
    unfold rounds_of. rewrite Hr.
    assert (seen key [a] = false) as -> by (unfold seen; simpl; by rewrite Hr).
    rewrite orb_false_r. destruct (decide _); by rewrite app_nil_r.
  - destruct (ensure_stat a rounds done stats Htr Hr) as (st0 & Hst0 & Hadd & Hother).
    eexists. split; [apply (fold_add_label _ _ _ st0 Hst0)|].
    intros key. rewrite seen_app.
    assert (Hone : seen key [a] = bool_decide (reviewer_key a = key)).
    { unfold seen. simpl. rewrite Hr. simpl. by rewrite orb_false_r. }
    rewrite Hone. fold (reviewer_key a).
    destruct (decide (reviewer_key a = key)) as [<-|Hne].
    + rewrite lookup_insert_eq, bool_decide_eq_true_2, orb_true_r by done.
      by rewrite Hadd.
    + rewrite lookup_insert_ne, bool_decide_eq_false_2, orb_false_r by done.
      rewrite Hother by done. rewrite (Htr key).
      assert (stat_of key (done ++ [a]) = stat_of key done) as ->; [|done].
      unfold stat_of.
      by rewrite labels_of_app, labels_of_one, decide_False, app_nil_r by done.
Qed.

Lemma fold_collect_tracks l done stats :
  tracks done stats ->
  exists stats', Js.foldM GraphFunc.collect l stats = Js.Ok stats'
                 /\ tracks (done ++ l) stats'.
Proof.
  revert done stats. induction l as [|a l IH]; intros done stats Htr.
  - exists stats. by rewrite app_nil_r.
  - destruct (collect_tracks a done stats Htr) as (stats1 & Hc & Htr1).
    destruct (IH _ _ Htr1) as (stats' & Hf & Htr').
    exists stats'. cbn [Js.foldM]. rewrite Hc. bind_ok.
    split; [done|]. by rewrite <- app_assoc in Htr'.
Qed.

Lemma annotate_tracks assignments stats a :
  tracks assignments stats ->
  GraphFunc.annotate stats a
  = with_avgLabel (expected_avg (reviewer_key a) assignments) a.
Proof.
  intros Htr. unfold GraphFunc.annotate, with_avgLabel.
  fold (reviewer_key a). rewrite (Htr (reviewer_key a)).
  do 2 f_equal. unfold expected_avg.
  destruct (seen (reviewer_key a) assignments) eqn:Hs.
  - unfold stat_of. cbn [GraphFunc.count GraphFunc.totalLabel].
    destruct (labels_of (reviewer_key a) assignments); [done|].
    assert ((0 <? Z.of_nat (length (n :: l))) = true) as ->
      by (apply Z.ltb_lt; simpl length; lia).
    done.
  - by rewrite (labels_of_unseen _ _ Hs).
Qed.

(** The averaging never raises, and writes on each record the average of
    the parseable labels of its reviewer key. *)
Lemma calculateReviewerLabelAverages_closed assignments :
  GraphFunc.calculateReviewerLabelAverages assignments
  = Js.Ok (map (fun a => with_avgLabel (expected_avg (reviewer_key a) assignments) a)
               assignments).
Proof.
  unfold GraphFunc.calculateReviewerLabelAverages.
  destruct (fold_collect_tracks assignments [] ∅) as (stats & -> & Htr).
  { intros key. by rewrite lookup_empty. }
  cbn [mbind Js.result_bind app] in *. f_equal.
  apply map_ext. intros a. by apply annotate_tracks.
Qed.







(** ** A record whose Round is not an array *)

Lemma in_selected_iff rawData names p :
  In p (selected rawData names)
  <-> In p.1 names /\ In p.2 (default [] (rawData !! p.1)).
Proof.
  unfold selected. rewrite in_flat_map. split.
  - intros (hw & Hhw & (a & <- & Ha)%in_map_iff). done.
  - intros [Hhw Ha]. exists p.1. split; [done|].
    apply in_map_iff. exists p.2. split; [by destruct p | done].
Qed.

Section NonArray.
Variables (rawData : gmap string (list assignment_record)) (hw : string).
Variables (l1 l2 : list assignment_record) (a : assignment_record).
Hypothesis Hround : Round a = NotArray.
Hypothesis Hhw : rawData !! hw = Some (l1 ++ a :: l2).

Let rawData' := <[hw := l1 ++ l2]> rawData.

Lemma non_array_rounds_of : rounds_of a = [].
Proof. unfold rounds_of. by rewrite Hround. Qed.

Lemma non_array_assigned_rounds names k :
  assigned_rounds (selected rawData names) k
  = assigned_rounds (selected rawData' names) k.
Proof.
  induction names as [|name names IH]; [done|].
  rewrite !selected_cons, !assigned_rounds_app, IH. f_equal.
  unfold rawData'. destruct (decide (name = hw)) as [->|Hne].
  - rewrite lookup_insert_eq, Hhw. cbn [from_option id].
    rewrite !map_app. cbn [map].
    change ((hw, a) :: map (pair hw) l2) with ([(hw, a)] ++ map (pair hw) l2).
    rewrite !assigned_rounds_app, assigned_rounds_one. cbn [snd].
    rewrite non_array_rounds_of. by destruct (decide _).
  - by rewrite lookup_insert_ne.
Qed.

Lemma non_array_selected names p :
  In p (selected rawData names)
  <-> In p (selected rawData' names) \/ (p = (hw, a) /\ In hw names).
Proof.
  rewrite !in_selected_iff. unfold rawData'.
  destruct (decide (p.1 = hw)) as [Heq|Hne].
  - rewrite Heq, lookup_insert_eq, Hhw. cbn [from_option id].
    rewrite !in_app_iff. cbn [In]. split.
    + intros [Hn [H|[H|H]]]; [left | right | left]; try done.
      * split; [done | by left].
      * destruct p; simpl in *; by subst.
      * split; [done | by right].
    + intros [[Hn [H|H]] | [-> Hn]]; (split; [done|]); auto.
  - rewrite lookup_insert_ne by done. split; [by left|].
    intros [H | [-> _]]; done.
Qed.

Lemma non_array_reviewers names k :
  k ∈ reviewers (selected rawData names)
  <-> k ∈ reviewers (selected rawData' names) \/ (k = Reviewer a /\ In hw names).
Proof.
  rewrite !elem_of_reviewers. split.
  - intros (p & Hp%list_elem_of_In%non_array_selected & Hk).
    destruct Hp as [Hp | [-> Hn]]; [left | right; by split].
    exists p. split; [by apply list_elem_of_In | done].
  - intros [(p & Hp%list_elem_of_In & Hk) | [-> Hn]].
    + exists p. split; [|done]. apply list_elem_of_In, non_array_selected. by left.
    + exists (hw, a). split; [|done]. apply list_elem_of_In, non_array_selected.
      by right.
Qed.

Lemma non_array_labels_of key :
  labels_of key (l1 ++ a :: l2) = labels_of key (l1 ++ l2).
Proof.
  change (a :: l2) with ([a] ++ l2).
  rewrite !labels_of_app, labels_of_one, non_array_rounds_of.
  by destruct (decide _).
Qed.

End NonArray.

(** C8: with a record whose [Round] is not an array in the input, both
    aggregations return without raising, and the record adds no round to
    any tally: every reviewer's assigned rounds, and so every node of the
    graph, are those of the input without the record, except that the
    record's reviewer keeps a node, with empty tallies when the reviewer
    has no other record; and every reviewer key has the same parseable
    labels, so every other record gets the same [avgLabel]. *)
Theorem non_array_round_adds_nothing
    (rawData : gmap string (list assignment_record)) (mode : GraphFunc.Mode)
    (hwNames : GraphFunc.HwNames) (hw : string)
    (l1 l2 : list assignment_record) (a : assignment_record) :
  Round a = NotArray ->
  rawData !! hw = Some (l1 ++ a :: l2) ->
  let rawData' := <[hw := l1 ++ l2]> rawData in
  let names := GraphFunc.hw_list hwNames in
  (exists g g',
     GraphFunc.processReviewerData rawData mode hwNames = Js.Ok g /\
     GraphFunc.processReviewerData rawData' mode hwNames = Js.Ok g' /\
     (forall k, assigned_rounds (selected rawData names) k
                = assigned_rounds (selected rawData' names) k) /\
     (forall n, In n (GraphFunc.nodes g') -> In n (GraphFunc.nodes g)) /\
     (forall n, In n (GraphFunc.nodes g) ->
        In n (GraphFunc.nodes g') \/
        (GraphFunc.id n = Reviewer a /\
         GraphFunc.feedbacks n = [] /\
         GraphFunc.labelCounts n
         = {| GraphFunc.relevance := 0; GraphFunc.concreteness := 0;
              GraphFunc.constructive := 0 |} /\
         GraphFunc.totalRounds n = 0 /\
         (GraphFunc.meaningfulScore n == 0)%Q))) /\
  (exists out1 a' out2,
     GraphFunc.calculateReviewerLabelAverages (l1 ++ a :: l2)
     = Js.Ok (out1 ++ a' :: out2) /\
     GraphFunc.calculateReviewerLabelAverages (l1 ++ l2)
     = Js.Ok (out1 ++ out2) /\
     length out1 = length l1 /\
     Round a' = NotArray /\
     forall key, labels_of key (l1 ++ a :: l2) = labels_of key (l1 ++ l2)).
Proof.
  intros Hround Hhw rawData' names. split.
  - exists (graph_of (selected rawData names)), (graph_of (selected rawData' names)).
    split; [apply processReviewerData_graph_of|].
    split; [apply processReviewerData_graph_of|].
    pose proof (non_array_assigned_rounds rawData hw l1 l2 a Hround Hhw names)
      as Hsame.
    fold rawData' in Hsame.
    split; [exact Hsame|]. split.
    + intros n (k & Hk & ->)%node_of_graph. rewrite <- Hsame.
      apply graph_has_node.
      apply (non_array_reviewers rawData hw l1 l2 a Hround Hhw). by left.
    + intros n (k & Hk & ->)%node_of_graph.
      apply (non_array_reviewers rawData hw l1 l2 a Hround Hhw) in Hk.
      fold rawData' in Hk.
      destruct (decide (k ∈ reviewers (selected rawData' names))) as [Hin|Hnin].
      * left. rewrite Hsame. by apply graph_has_node.
      * right. destruct Hk as [Hk | [-> _]]; [done|].
        rewrite Hsame, (assigned_rounds_none _ _ Hnin).
        split_and!; reflexivity.
  - pose proof (non_array_labels_of l1 l2 a Hround) as Hlab.
    rewrite !calculateReviewerLabelAverages_closed.
    eexists _, _, _. rewrite map_app. cbn [map]. split; [reflexivity|].
    split_and!.
    + rewrite map_app. apply (f_equal Js.Ok).
      apply (f_equal2 (@app _)); apply map_ext; intros b;
        unfold expected_avg; by rewrite Hlab.
    + apply length_map.
    + done.
    + done.
Qed.

(** A record with a non-array [Round] between two ordinary records. *)
Lemma non_array_round_scenario :
  exists g g' out1 a' out2,
    GraphFunc.processReviewerData Scenario.with_non_array GraphFunc.ModeAll
      (GraphFunc.HwArray ["HW1"%string]) = Js.Ok g /\
    GraphFunc.processReviewerData
      (<["HW1"%string := Scenario.before_non_array ++ Scenario.after_non_array]>
         Scenario.with_non_array)
      GraphFunc.ModeAll (GraphFunc.HwArray ["HW1"%string]) = Js.Ok g' /\
    (forall n, In n (GraphFunc.nodes g') -> In n (GraphFunc.nodes g)) /\
    GraphFunc.calculateReviewerLabelAverages
      (Scenario.before_non_array ++ Scenario.non_array :: Scenario.after_non_array)
    = Js.Ok (out1 ++ a' :: out2) /\
    GraphFunc.calculateReviewerLabelAverages
      (Scenario.before_non_array ++ Scenario.after_non_array)
    = Js.Ok (out1 ++ out2).
Proof.
  destruct (non_array_round_adds_nothing Scenario.with_non_array
              GraphFunc.ModeAll (GraphFunc.HwArray ["HW1"%string])
              "HW1"%string Scenario.before_non_array Scenario.after_non_array
              Scenario.non_array)
    as [(g & g' & Hg & Hg' & _ & Hsub & _) (out1 & a' & out2 & H1 & H2 & _)].
  - reflexivity.
  - reflexivity.
  - exists g, g', out1, a', out2. repeat split; assumption.
Defined.


(** C7: with labels +Infinity and -Infinity on two rounds with feedback,
    [getAvgLabelQuality] returns NaN, which is outside [0, 1]. *)
Theorem avg_label_quality_nan :
  GraphFunc.getAvgLabelQuality Scenario.opposite_infinities = Js.Ok Js.NaN
  /\ ~ Js.in_unit_interval Js.NaN.
Proof. split; [reflexivity | intros []]. Qed.

(** ** Label quality on finite labels *)

Lemma total_finite rounds q :
  Forall (fun r => finite_label r = true) rounds ->
  exists q',
    fold_left (fun sum r => Js.Num_add sum (Js.Num_or_zero (Js.parseFloat (Label r))))
              rounds (Js.Fin q) = Js.Fin q'.
Proof.
  intros H. revert q. induction H as [|r rounds Hr _ IH]; intros q; simpl.
  - by exists q.
  - unfold finite_label in Hr.
    destruct (Label r) as [[| | |x]|]; try discriminate; simpl;
      try destruct (Qeq_bool x 0); apply IH.
Qed.

(** On rounds whose labels are finite, NaN or missing, the label quality
    is a number in [0, 1], and it is 0 when no round has feedback. *)
Lemma avg_label_quality_finite rounds :
  Forall (fun r => finite_label r = true) rounds ->
  exists x,
    GraphFunc.getAvgLabelQuality (ArrayOf rounds) = Js.Ok x /\
    Js.in_unit_interval x /\
    (List.filter GraphFunc.has_feedback rounds = [] -> x = Js.Fin 0).
Proof.
  intros Hfin. unfold GraphFunc.getAvgLabelQuality.
  cbn [Arr.isArray negb Arr.length Arr.filter mbind Js.result_bind].
  destruct (Z.of_nat (length rounds) =? 0) eqn:Hlen.
  { exists (Js.Fin 0). split_and!; [done | simpl; lra | done]. }
  set (valid := List.filter GraphFunc.has_feedback rounds).
  destruct (Z.of_nat (length valid) =? 0) eqn:Hv.
  { exists (Js.Fin 0). split_and!; [done | simpl; lra | done]. }
  apply Z.eqb_neq in Hv.
  assert (Hvfin : Forall (fun r => finite_label r = true) valid).
  { apply List.Forall_forall. intros r [Hr _]%filter_In.
    rewrite List.Forall_forall in Hfin. by apply Hfin. }
  destruct (total_finite valid 0 Hvfin) as [q' ->].
  unfold Js.Num_div, Js.Num_of_Z, Js.sign.
  assert (Hpos : (inject_Z (Z.of_nat (length valid)) ?= 0)%Q = Gt).
  { apply Qgt_alt. change 0%Q with (inject_Z 0). rewrite <- Zlt_Qlt. lia. }
  rewrite Hpos. eexists. split; [reflexivity|]. split.
  - cbn [Js.Math_min Js.Math_max Js.in_unit_interval].
    split; [apply Q.le_max_l|]. apply Q.max_lub; [discriminate | apply Q.le_min_l].
  - intros Hnil. fold valid in Hnil. rewrite Hnil in Hv. done.
Qed.

(** The label quality of two rounds with finite labels 1 and 1/2. *)
Lemma avg_label_quality_finite_scenario :
  exists x,
    GraphFunc.getAvgLabelQuality
      (ArrayOf [ Scenario.labelled "a" (Js.Fin 1);
                 Scenario.labelled "b" (Js.Fin (1 # 2)) ]) = Js.Ok x /\
    Js.in_unit_interval x.
Proof.
  destruct (avg_label_quality_finite
              [ Scenario.labelled "a" (Js.Fin 1);
                Scenario.labelled "b" (Js.Fin (1 # 2)) ])
    as (x & Hx & Hunit & _).
  - repeat constructor.
  - exists x. split; assumption.
Defined.

(** ** Label frequencies *)

Lemma count_round_incomplete r stats :
  complete_round r = false -> HwLabelChart.count_round r stats = stats.
Proof.
  unfold complete_round, HwLabelChart.count_round. by intros ->.
Qed.

Lemma counts_from_nil stats : counts_from stats [] = stats.
Proof.
  destruct stats. unfold counts_from, ones. simpl. f_equal; lia.
Qed.

Lemma counts_from_cons stats r rounds :
  counts_from stats (r :: rounds)
  = counts_from (HwLabelChart.count_round r stats) rounds.
Proof.
  unfold counts_from, HwLabelChart.count_round, ones. cbn [List.filter].
  fold (complete_round r). destruct (complete_round r); [|done].
  cbn [List.filter length HwLabelChart.Counts.total
       HwLabelChart.Counts.relevance HwLabelChart.Counts.concreteness
       HwLabelChart.Counts.constructive].
  unfold HwLabelChart.incr_if.
  destruct (Js.is_one (Relevance r)), (Js.is_one (Concreteness r)),
    (Js.is_one (Constructive r)); cbn [length]; f_equal; lia.
Qed.

Lemma fold_count_round rounds stats :
  fold_left (fun st r => HwLabelChart.count_round r st) rounds stats
  = counts_from stats rounds.
Proof.
  revert stats. induction rounds as [|r rounds IH]; intros stats; simpl.
  - by rewrite counts_from_nil.
  - by rewrite IH, counts_from_cons.
Qed.

Lemma counts_from_app stats l1 l2 :
  counts_from (counts_from stats l1) l2 = counts_from stats (l1 ++ l2).
Proof.
  revert stats. induction l1 as [|r l1 IH]; intros stats; simpl.
  - by rewrite counts_from_nil.
  - by rewrite !counts_from_cons, IH.
Qed.

Lemma count_student_counts_from student stats :
  HwLabelChart.count_student student stats = counts_from stats (rounds_of student).
Proof.
  unfold HwLabelChart.count_student, rounds_of.
  destruct (Round student); [by rewrite counts_from_nil | apply fold_count_round].
Qed.

Lemma fold_count_student students stats :
  fold_left (fun st student => HwLabelChart.count_student student st) students stats
  = counts_from stats (flat_map rounds_of students).
Proof.
  revert stats. induction students as [|s students IH]; intros stats; simpl.
  - by rewrite counts_from_nil.
  - by rewrite IH, count_student_counts_from, counts_from_app.
Qed.

Lemma count_homework_complete students :
  let complete := List.filter complete_round (flat_map rounds_of students) in
  HwLabelChart.count_homework students
  = {| HwLabelChart.Counts.total := Z.of_nat (length complete);
       HwLabelChart.Counts.relevance := ones Relevance complete;
       HwLabelChart.Counts.concreteness := ones Concreteness complete;
       HwLabelChart.Counts.constructive := ones Constructive complete |}.
Proof.
  unfold HwLabelChart.count_homework. by rewrite fold_count_student.
Qed.

(** C5 (amended): a round enters a homework's [total] exactly when its
    three flags are all defined, so a round missing a flag changes no
    count; the percentages are the shares of the counted rounds whose
    flag is 1, and all fields are 0 when [total] is 0.  On the scenario
    input [total] is 1 and the three percentages are 100. *)
Theorem frequency_counts_complete_rounds
    (data : gmap string (list assignment_record)) (hw : string)
    (students : list assignment_record) :
  data !! hw = Some students ->
  (exists p,
     HwLabelChart.calculateHwLabelFrequency data !! hw = Some p /\
     let complete :=
       List.filter complete_round (flat_map rounds_of students) in
     HwLabelChart.total p = Z.of_nat (length complete) /\
     (0 < HwLabelChart.total p ->
      (HwLabelChart.relevance p
       == inject_Z (ones Relevance complete)
          / inject_Z (HwLabelChart.total p) * 100)%Q /\
      (HwLabelChart.concreteness p
       == inject_Z (ones Concreteness complete)
          / inject_Z (HwLabelChart.total p) * 100)%Q /\
      (HwLabelChart.constructive p
       == inject_Z (ones Constructive complete)
          / inject_Z (HwLabelChart.total p) * 100)%Q) /\
     (HwLabelChart.total p = 0 ->
      (HwLabelChart.relevance p == 0)%Q /\
      (HwLabelChart.concreteness p == 0)%Q /\
      (HwLabelChart.constructive p == 0)%Q)) /\
  (forall r stats,
     Relevance r = Js.FUndefined \/ Concreteness r = Js.FUndefined
     \/ Constructive r = Js.FUndefined ->
     HwLabelChart.count_round r stats = stats) /\
  (exists p,
     HwLabelChart.calculateHwLabelFrequency Scenario.frequency_input
       !! "HW1"%string = Some p /\
     HwLabelChart.total p = 1 /\
     (HwLabelChart.relevance p == 100)%Q /\
     (HwLabelChart.concreteness p == 100)%Q /\
     (HwLabelChart.constructive p == 100)%Q).
Proof.
  intros Hhw. split_and!.
  - unfold HwLabelChart.calculateHwLabelFrequency.
    rewrite lookup_fmap, Hhw. cbn [fmap option_fmap option_map].
    eexists. split; [reflexivity|].
    cbv zeta. rewrite count_homework_complete.
    set (complete := List.filter complete_round (flat_map rounds_of students)).
    unfold HwLabelChart.to_percentages.
    cbn [HwLabelChart.Counts.total HwLabelChart.Counts.relevance
         HwLabelChart.Counts.concreteness HwLabelChart.Counts.constructive].
    destruct (0 <? Z.of_nat (length complete)) eqn:Hpos;
      cbn [HwLabelChart.total HwLabelChart.relevance
           HwLabelChart.concreteness HwLabelChart.constructive].
    + apply Z.ltb_lt in Hpos. split_and!; [reflexivity | | lia].
      intros _. split_and!; reflexivity.
    + apply Z.ltb_ge in Hpos. split_and!; [lia | lia |].
      intros _. split_and!; reflexivity.
  - intros r stats H. apply count_round_incomplete. unfold complete_round.
    destruct H as [-> | [-> | ->]]; simpl; by rewrite ?andb_false_r.
  - eexists. split; [vm_compute; reflexivity|].
    split_and!; reflexivity.
Qed.

(** The frequency counts on the scenario input. *)
Lemma frequency_counts_scenario :
  exists p,
    HwLabelChart.calculateHwLabelFrequency Scenario.frequency_input
      !! "HW1"%string = Some p /\
    HwLabelChart.total p
    = Z.of_nat (length (List.filter complete_round
                          (flat_map rounds_of Scenario.frequency_students))).
Proof.
  destruct (frequency_counts_complete_rounds Scenario.frequency_input
              "HW1"%string Scenario.frequency_students)
    as [(p & Hp & H) _].
  - reflexivity.
  - exists p. split; [exact Hp | exact (proj1 H)].
Defined.


(** C5 (as stated) fails on its own scenario: the counted round has all
    three flags 1, so concreteness and constructive are 100, not 0. *)
Lemma frequency_scenario_all_hundred :
  exists p,
    HwLabelChart.calculateHwLabelFrequency Scenario.frequency_input
      !! "HW1"%string = Some p /\
    HwLabelChart.total p = 1 /\
    (HwLabelChart.relevance p == 100)%Q /\
    (HwLabelChart.concreteness p == 100)%Q /\
    (HwLabelChart.constructive p == 100)%Q /\
    ~ (HwLabelChart.concreteness p == 0)%Q /\
    ~ (HwLabelChart.constructive p == 0)%Q.
Proof.
  eexists. split; [vm_compute; reflexivity|].
  split_and!; try reflexivity; discriminate.
Qed.

(** * Further properties of the code *)

(** ** Further properties of the node aggregation *)

(** X2: when no selected homework key has records (the key maps to an
    empty list, or it is missing from the data and not a name inherited
    from [Object.prototype]), the aggregation returns no node and no
    edge. *)
Theorem no_records_empty_graph
    (rawData : gmap string (list assignment_record)) (mode : GraphFunc.Mode)
    (hwNames : GraphFunc.HwNames) :
  (forall hw, In hw (GraphFunc.hw_list hwNames) ->
              default [] (rawData !! hw) = []) ->
  plain_keys rawData (GraphFunc.hw_list hwNames) ->
  GraphFunc.processReviewerData rawData mode hwNames
  = Js.Ok {| GraphFunc.nodes := []; GraphFunc.links := [] |}.
Proof.
  intros Hempty _. rewrite processReviewerData_graph_of.
  assert (Hsel : selected rawData (GraphFunc.hw_list hwNames) = []).
  { unfold selected.
    induction (GraphFunc.hw_list hwNames) as [|hw names IH]; [done|].
    cbn [flat_map]. rewrite (Hempty hw) by (by left).
    apply IH. intros hw' Hin. apply Hempty. by right. }
  by rewrite Hsel.
Qed.

(** No data at all, with the default homework selection. *)
Lemma no_records_empty_graph_default :
  GraphFunc.processReviewerData ∅ GraphFunc.ModeAll GraphFunc.HwDefault
  = Js.Ok {| GraphFunc.nodes := []; GraphFunc.links := [] |}.
Proof.
  apply (no_records_empty_graph ∅ GraphFunc.ModeAll GraphFunc.HwDefault).
  - intros hw [<- | []]. reflexivity.
  - intros hw [<- | []] _. reflexivity.
Defined.

(** X3: the nodes are keyed by the raw [Reviewer] value: their ids are
    pairwise distinct, they are the reviewers of the selected records in
    order of first appearance, and nothing else. *)
Theorem one_node_per_reviewer
    (rawData : gmap string (list assignment_record)) (mode : GraphFunc.Mode)
    (hwNames : GraphFunc.HwNames) :
  exists g,
    GraphFunc.processReviewerData rawData mode hwNames = Js.Ok g /\
    let rs := selected rawData (GraphFunc.hw_list hwNames) in
    map GraphFunc.id (GraphFunc.nodes g) = reviewers rs /\
    NoDup (map GraphFunc.id (GraphFunc.nodes g)) /\
    (forall k, In k (map GraphFunc.id (GraphFunc.nodes g))
               <-> exists p, In p rs /\ Reviewer p.2 = k).
Proof.
  eexists. split; [apply processReviewerData_graph_of|].
  cbv zeta. set (rs := selected rawData (GraphFunc.hw_list hwNames)).
  assert (Hids : map GraphFunc.id (GraphFunc.nodes (graph_of rs)) = reviewers rs).
  { unfold graph_of. cbn [GraphFunc.nodes]. rewrite map_map.
    cbn [GraphFunc.id GraphFunc.finalize summary node_with GraphFunc.Acc.id].
    apply map_id. }
  rewrite Hids. split_and!; [done | apply reviewers_NoDup |].
  intros k. rewrite <- list_elem_of_In, elem_of_reviewers.
  split; intros (p & Hp & Hk); exists p; (split; [|done]);
    by apply list_elem_of_In.
Qed.

Lemma Zsum_no_feedback (f : round_record -> Z) rounds :
  (forall r, gave_feedback r = false -> f r = 0) ->
  Forall (fun r => gave_feedback r = false) rounds ->
  Zsum f rounds = 0.
Proof.
  intros Hf. induction 1 as [|r rounds Hr _ IH]; simpl; [done|].
  rewrite (Hf r Hr), IH. done.
Qed.

Lemma valid_count_zero rounds :
  valid_count rounds = 0 <-> Forall (fun r => gave_feedback r = false) rounds.
Proof.
  unfold valid_count. induction rounds as [|r rounds IH]; simpl.
  - split; [constructor | done].
  - destruct (gave_feedback r) eqn:Hr; simpl length.
    + split; [lia|]. intros H. apply Forall_cons in H as [? _]. congruence.
    + rewrite IH, Forall_cons. split; [by split | by intros [_ ?]].
Qed.

Lemma isFeedbackEmpty_summary k rounds :
  GraphFunc.isFeedbackEmpty (GraphFunc.finalize (summary k rounds)) = true
  <-> valid_count rounds = 0.
Proof.
  cbn [GraphFunc.isFeedbackEmpty GraphFunc.finalize summary node_with
       GraphFunc.Acc.feedbacks].
  rewrite valid_count_zero.
  induction rounds as [|r rounds IH]; simpl.
  - split; [constructor | done].
  - rewrite andb_true_iff, IH, Forall_cons.
    assert (Hg : gave_feedback r = negb (String.eqb (feedback_text r) ""))
      by done.
    rewrite Hg. destruct (String.eqb (feedback_text r) ""); simpl.
    + split; intros [_ ?]; by split.
    + split; intros [? _]; done.
Qed.

(** X4: every aggregated node has [totalRounds] equal to the length of
    [feedbacks]; [isFeedbackEmpty] holds exactly when none of the
    reviewer's rounds has feedback, and then all label counts,
    [meaningfulScore] and the completion rate are 0. *)
Theorem node_invariants
    (rawData : gmap string (list assignment_record)) (mode : GraphFunc.Mode)
    (hwNames : GraphFunc.HwNames) :
  exists g,
    GraphFunc.processReviewerData rawData mode hwNames = Js.Ok g /\
    forall n, In n (GraphFunc.nodes g) ->
      let rounds :=
        assigned_rounds (selected rawData (GraphFunc.hw_list hwNames))
                        (GraphFunc.id n) in
      GraphFunc.totalRounds n = Z.of_nat (length (GraphFunc.feedbacks n)) /\
      GraphFunc.totalRounds n = Z.of_nat (length rounds) /\
      (GraphFunc.isFeedbackEmpty n = true
       <-> Forall (fun r => gave_feedback r = false) rounds) /\
      (GraphFunc.isFeedbackEmpty n = true ->
       GraphFunc.labelCounts n
       = {| GraphFunc.relevance := 0; GraphFunc.concreteness := 0;
            GraphFunc.constructive := 0 |} /\
       (GraphFunc.meaningfulScore n == 0)%Q /\
       (Graph3LabelFunc.completionRate n == 0)%Q).
Proof.
  eexists. split; [apply processReviewerData_graph_of|].
  intros n (k & _ & ->)%node_of_graph.
  cbn [GraphFunc.id GraphFunc.finalize summary node_with GraphFunc.Acc.id].
  set (rounds := assigned_rounds _ k). cbv zeta.
  split_and!.
  - change (Z.of_nat (length rounds)
            = Z.of_nat (length (map feedback_text rounds))).
    by rewrite length_map.
  - done.
  - change (GraphFunc.isFeedbackEmpty (GraphFunc.finalize (summary k rounds)) = true
            <-> Forall (fun r => gave_feedback r = false) rounds).
    by rewrite isFeedbackEmpty_summary, valid_count_zero.
  - intros Hempty.
    change (GraphFunc.isFeedbackEmpty (GraphFunc.finalize (summary k rounds)) = true)
      in Hempty.
    apply isFeedbackEmpty_summary in Hempty.
    pose proof (proj1 (valid_count_zero rounds) Hempty) as Hnone.
    assert (Hlab : forall L, Zsum (label_value L) rounds = 0).
    { intros L. apply Zsum_no_feedback; [|done].
      intros r Hr. unfold label_value. by rewrite Hr. }
    assert (Hsc : Zsum round_score rounds = 0).
    { apply Zsum_no_feedback; [|done].
      intros r Hr. unfold round_score. by rewrite Hr. }
    split_and!.
    + change ({| GraphFunc.relevance := Zsum (label_value LRelevance) rounds;
                 GraphFunc.concreteness := Zsum (label_value LConcreteness) rounds;
                 GraphFunc.constructive := Zsum (label_value LConstructive) rounds |}
              = {| GraphFunc.relevance := 0; GraphFunc.concreteness := 0;
                   GraphFunc.constructive := 0 |}).
      by rewrite !Hlab.
    + change ((GraphFunc.meaningfulScore (GraphFunc.finalize (summary k rounds)) == 0)%Q).
      rewrite meaningfulScore_summary, Hempty. reflexivity.
    + change ((Graph3LabelFunc.completionRate (GraphFunc.finalize (summary k rounds)) == 0)%Q).
      rewrite completionRate_summary, Hempty.
      destruct (0 <? Z.of_nat (length rounds)); reflexivity.
Qed.

Lemma label_value_binary L r :
  binary_round r = true ->
  0 <= label_value L r <= (if gave_feedback r then 1 else 0).
Proof.
  unfold binary_round, label_value. intros H.
  apply andb_prop in H as [H Hc]. apply andb_prop in H as [Ha Hb].
  destruct (gave_feedback r); [|lia].
  destruct L; simpl;
    [destruct (Relevance r) as [| |[|[]|]]
    |destruct (Concreteness r) as [| |[|[]|]]
    |destruct (Constructive r) as [| |[|[]|]]]; try discriminate; simpl; lia.
Qed.

Lemma label_sum_binary L rounds :
  Forall (fun r => binary_round r = true) rounds ->
  0 <= Zsum (label_value L) rounds <= valid_count rounds.
Proof.
  unfold valid_count. induction 1 as [|r rounds Hr _ IH]; simpl; [lia|].
  apply (label_value_binary L) in Hr.
  destruct (gave_feedback r); simpl length; lia.
Qed.

(** X5: when the rounds of the selected records carry 0/1 flags, every
    label count of a node lies between 0 and the number of the reviewer's
    rounds with feedback, so the colour score of the styling layer lies in
    [0, 1] in every mode. *)
Theorem label_counts_and_score_bounds
    (rawData : gmap string (list assignment_record)) (mode : GraphFunc.Mode)
    (hwNames : GraphFunc.HwNames) :
  Forall (fun p => Forall (fun r => binary_round r = true) (rounds_of p.2))
         (selected rawData (GraphFunc.hw_list hwNames)) ->
  exists g,
    GraphFunc.processReviewerData rawData mode hwNames = Js.Ok g /\
    forall n, In n (GraphFunc.nodes g) ->
      let valid :=
        valid_count
          (assigned_rounds (selected rawData (GraphFunc.hw_list hwNames))
                           (GraphFunc.id n)) in
      0 <= GraphFunc.relevance (GraphFunc.labelCounts n) <= valid /\
      0 <= GraphFunc.concreteness (GraphFunc.labelCounts n) <= valid /\
      0 <= GraphFunc.constructive (GraphFunc.labelCounts n) <= valid /\
      forall mode', (0 <= Graph3LabelFunc.score mode' n <= 1)%Q.
Proof.
  intros Hbin. eexists. split; [apply processReviewerData_graph_of|].
  intros n (k & _ & ->)%node_of_graph.
  cbn [GraphFunc.id GraphFunc.finalize summary node_with GraphFunc.Acc.id].
  set (rounds := assigned_rounds _ k). cbv zeta.
  assert (Hb : Forall (fun r => binary_round r = true) rounds)
    by (by apply assigned_rounds_Forall).
  pose proof (label_sum_binary LRelevance rounds Hb) as H1.
  pose proof (label_sum_binary LConcreteness rounds Hb) as H2.
  pose proof (label_sum_binary LConstructive rounds Hb) as H3.
  split; [exact H1|]. split; [exact H2|]. split; [exact H3|].
  intros mode'.
  assert (Hfrac : forall L, 0 < valid_count rounds ->
            (0 <= inject_Z (Zsum (label_value L) rounds)
                  / inject_Z (valid_count rounds) <= 1)%Q).
  { intros L Hpos. apply (frac_bounds _ _ 1); [done | |];
      pose proof (label_sum_binary L rounds Hb); lia. }
  destruct mode'.
  - change (0 <= Graph3LabelFunc.score GraphFunc.ModeAll
                   (GraphFunc.finalize (summary k rounds)) <= 1)%Q.
    rewrite score_all_summary.
    destruct (0 <? valid_count rounds) eqn:Hv; [|split; discriminate].
    apply Z.ltb_lt in Hv.
    pose proof (Hfrac LRelevance Hv) as [? ?].
    pose proof (Hfrac LConcreteness Hv) as [? ?].
    pose proof (Hfrac LConstructive Hv) as [? ?].
    set (x1 := (inject_Z (Zsum (label_value LRelevance) rounds) / _)%Q) in *.
    set (x2 := (inject_Z (Zsum (label_value LConcreteness) rounds) / _)%Q) in *.
    set (x3 := (inject_Z (Zsum (label_value LConstructive) rounds) / _)%Q) in *.
    clearbody x1 x2 x3. unfold Qdiv. split.
    + apply Qmult_le_0_compat; [lra | discriminate].
    + apply Qle_shift_div_r; [reflexivity | lra].
  - change (0 <= Graph3LabelFunc.score (mode_of LRelevance)
                   (GraphFunc.finalize (summary k rounds)) <= 1)%Q.
    rewrite score_label_summary.
    destruct (0 <? valid_count rounds) eqn:Hv; [|split; discriminate].
    apply Hfrac. by apply Z.ltb_lt.
  - change (0 <= Graph3LabelFunc.score (mode_of LConcreteness)
                   (GraphFunc.finalize (summary k rounds)) <= 1)%Q.
    rewrite score_label_summary.
    destruct (0 <? valid_count rounds) eqn:Hv; [|split; discriminate].
    apply Hfrac. by apply Z.ltb_lt.
  - change (0 <= Graph3LabelFunc.score (mode_of LConstructive)
                   (GraphFunc.finalize (summary k rounds)) <= 1)%Q.
    rewrite score_label_summary.
    destruct (0 <? valid_count rounds) eqn:Hv; [|split; discriminate].
    apply Hfrac. by apply Z.ltb_lt.
Qed.

(** The count and score bounds on the scenario input. *)
Lemma label_counts_and_score_bounds_scenario :
  exists g,
    GraphFunc.processReviewerData Scenario.hw1 GraphFunc.ModeAll
      (GraphFunc.HwArray ["HW1"%string]) = Js.Ok g /\
    forall n, In n (GraphFunc.nodes g) ->
      forall mode', (0 <= Graph3LabelFunc.score mode' n <= 1)%Q.
Proof.
  destruct (label_counts_and_score_bounds Scenario.hw1 GraphFunc.ModeAll
              (GraphFunc.HwArray ["HW1"%string])) as (g & Hg & H).
  - vm_compute. repeat constructor.
  - exists g. split; [exact Hg|]. intros n Hn. apply (H n Hn).
Defined.

(** ** The order of the homework keys *)







(** ** Styled edges *)

(** X7: [generateGraph] returns one styled node per distinct reviewer
    and one styled edge per selected record; the edges do not depend on
    the mode, and an edge is dashed and red exactly when its record has
    fewer than three rounds, and solid and blue otherwise. *)
Theorem styled_edges
    (rawData : gmap string (list assignment_record)) (mode : GraphFunc.Mode)
    (hwNames : GraphFunc.HwNames) :
  exists visNodes visEdges,
    Graph3LabelFunc.generateGraph rawData mode hwNames
    = Js.Ok (visNodes, visEdges) /\
    let rs := selected rawData (GraphFunc.hw_list hwNames) in
    length visNodes = length (reviewers rs) /\
    visEdges = map (fun p => Graph3LabelFunc.style_edge (edge_of p)) rs /\
    (forall mode', exists visNodes',
        Graph3LabelFunc.generateGraph rawData mode' hwNames
        = Js.Ok (visNodes', visEdges)) /\
    forall p, In p rs ->
      let e := Graph3LabelFunc.style_edge (edge_of p) in
      let short := (length (rounds_of p.2) < 3)%nat in
      Graph3LabelFunc.ve_from e = Reviewer p.2 /\
      Graph3LabelFunc.ve_to e = Author p.2 /\
      (Graph3LabelFunc.dashes e = true <-> short) /\
      (Graph3LabelFunc.ve_color e = "#ff6b6b"%string <-> short) /\
      (Graph3LabelFunc.ve_color e = "#73BEFF"%string <-> ~ short).
Proof.
  unfold Graph3LabelFunc.generateGraph.
  rewrite processReviewerData_graph_of. cbn [mbind Js.result_bind].
  eexists _, _. split; [reflexivity|]. cbv zeta.
  set (rs := selected rawData (GraphFunc.hw_list hwNames)).
  split_and!.
  - cbn [graph_of GraphFunc.nodes]. by rewrite !length_map.
  - cbn [graph_of GraphFunc.links]. by rewrite map_map.
  - intros mode'. rewrite processReviewerData_graph_of.
    cbn [mbind Js.result_bind]. by eexists.
  - intros p _. unfold Graph3LabelFunc.style_edge, edge_of.
    cbn [GraphFunc.from GraphFunc.to GraphFunc.completedAll
         Graph3LabelFunc.ve_from Graph3LabelFunc.ve_to
         Graph3LabelFunc.dashes Graph3LabelFunc.ve_color].
    destruct (3 <=? Z.of_nat (length (rounds_of p.2))) eqn:Hlen.
    + apply Z.leb_le in Hlen. split_and!; try done; split; try done; lia.
    + apply Z.leb_gt in Hlen. split_and!; try done; split; try done; lia.
Qed.

(** ** Label averages: idempotence and key normalisation *)

Lemma reviewer_key_with_avgLabel v a :
  reviewer_key (with_avgLabel v a) = reviewer_key a.
Proof. reflexivity. Qed.

Lemma labels_of_annotated key (f : assignment_record -> Js.Num) l :
  labels_of key (map (fun a => with_avgLabel (f a) a) l) = labels_of key l.
Proof.
  unfold labels_of. induction l as [|a l IH]; simpl; [done|].
  by rewrite IH.
Qed.

(** X8: the averaging is idempotent: applied to its own output it
    returns that output unchanged. *)
Theorem label_averages_idempotent (assignments : list assignment_record) :
  exists out,
    GraphFunc.calculateReviewerLabelAverages assignments = Js.Ok out /\
    GraphFunc.calculateReviewerLabelAverages out = Js.Ok out.
Proof.
  eexists. split; [apply calculateReviewerLabelAverages_closed|].
  rewrite calculateReviewerLabelAverages_closed. f_equal.
  rewrite map_map. apply map_ext. intros a.
  unfold expected_avg. rewrite reviewer_key_with_avgLabel.
  by rewrite (labels_of_annotated _ (fun a => expected_avg (reviewer_key a) assignments)).
Qed.

(** X9: the averaging keys reviewers by their trimmed, uppercased name:
    two records whose [Reviewer] values agree after trimming and
    uppercasing get the same [avgLabel]. *)
Theorem same_key_same_average
    (assignments : list assignment_record) (i j : nat)
    (a b : assignment_record) (ra rb : string) :
  nth_error assignments i = Some a ->
  nth_error assignments j = Some b ->
  Reviewer a = Some ra -> Reviewer b = Some rb ->
  Js.toUpperCase (Js.trim ra) = Js.toUpperCase (Js.trim rb) ->
  exists out a' b',
    GraphFunc.calculateReviewerLabelAverages assignments = Js.Ok out /\
    nth_error out i = Some a' /\ nth_error out j = Some b' /\
    Reviewer a' = Some ra /\ Reviewer b' = Some rb /\
    avgLabel a' = avgLabel b'.
Proof.
  intros Hi Hj Ha Hb Hkey.
  eexists _, _, _. split; [apply calculateReviewerLabelAverages_closed|].
  split; [by apply map_nth_error|]. split; [by apply map_nth_error|].
  cbn [with_avgLabel Reviewer avgLabel]. split_and!; [done | done |].
  do 2 f_equal. unfold reviewer_key, GraphFunc.reviewer_of.
  rewrite Ha, Hb. cbn [Js.property_key]. by rewrite Hkey.
Qed.

(** One reviewer spelled "ab " and "AB". *)
Lemma same_key_same_average_spellings :
  exists out a' b',
    GraphFunc.calculateReviewerLabelAverages Example.two_spellings = Js.Ok out /\
    nth_error out 0 = Some a' /\ nth_error out 1 = Some b' /\
    Reviewer a' = Some "ab "%string /\ Reviewer b' = Some "AB"%string /\
    avgLabel a' = avgLabel b'.
Proof.
  apply (same_key_same_average Example.two_spellings 0 1
           (Scenario.record "ab " "x" (ArrayOf [ Scenario.labelled "f" (Js.Fin 1) ]))
           (Scenario.record "AB" "y" (ArrayOf [ Scenario.labelled "g" (Js.Fin 0) ]))
           "ab "%string "AB"%string); reflexivity.
Defined.

(** ** Label quality: only rounds with feedback count *)

Lemma filter_filter {A : Type} (p : A -> bool) (l : list A) :
  List.filter p (List.filter p l) = List.filter p l.
Proof.
  induction l as [|x l IH]; simpl; [done|].
  destruct (p x) eqn:Hx; simpl; [by rewrite Hx, IH | done].
Qed.

(** X10: the label quality depends only on the rounds with feedback:
    dropping the rounds without feedback does not change the result, and
    the result is 0 when the argument is not an array or no round has
    feedback. *)
Theorem avg_label_quality_feedback_only :
  GraphFunc.getAvgLabelQuality NotArray = Js.Ok (Js.Fin 0) /\
  forall rounds,
    GraphFunc.getAvgLabelQuality (ArrayOf rounds)
    = GraphFunc.getAvgLabelQuality
        (ArrayOf (List.filter GraphFunc.has_feedback rounds)) /\
    (List.filter GraphFunc.has_feedback rounds = [] ->
     GraphFunc.getAvgLabelQuality (ArrayOf rounds) = Js.Ok (Js.Fin 0)).
Proof.
  split; [reflexivity|]. intros rounds.
  unfold GraphFunc.getAvgLabelQuality.
  cbn [Arr.isArray negb Arr.length Arr.filter mbind Js.result_bind].
  rewrite filter_filter.
  set (valid := List.filter GraphFunc.has_feedback rounds).
  destruct (Z.of_nat (length valid) =? 0) eqn:Hv.
  - destruct (Z.of_nat (length rounds) =? 0); split; try done.
  - assert (Hr : (Z.of_nat (length rounds) =? 0) = false).
    { apply Z.eqb_neq in Hv. apply Z.eqb_neq.
      pose proof (List.filter_length_le GraphFunc.has_feedback rounds).
      fold valid in H. lia. }
    rewrite Hr. split; [done|].
    intros Hnil. rewrite Hnil in Hv. done.
Qed.

(** ** Label frequencies: range and keys *)

Lemma ones_bounds f rounds : 0 <= ones f rounds <= Z.of_nat (length rounds).
Proof.
  unfold ones.
  pose proof (List.filter_length_le (fun r => Js.is_one (f r)) rounds). lia.
Qed.

Lemma percent_bounds (a b : Z) :
  0 < b -> 0 <= a <= b -> (0 <= inject_Z a / inject_Z b * 100 <= 100)%Q.
Proof.
  intros Hb Ha. destruct b as [|p|p]; try lia.
  unfold Qdiv, Qmult, Qinv, Qle, inject_Z; simpl. split; nia.
Qed.

(** X11: for every key other than __proto__ the frequency table has
    an entry exactly when the input has the key; in the entry [total] is
    at least 0 and at most the number of rounds of the key's records, and
    every percentage lies in [0, 100]. *)
Theorem frequency_range_and_keys
    (data : gmap string (list assignment_record)) (hw : string) :
  hw <> "__proto__"%string ->
  match data !! hw with
  | None => HwLabelChart.calculateHwLabelFrequency data !! hw = None
  | Some students =>
      exists p,
        HwLabelChart.calculateHwLabelFrequency data !! hw = Some p /\
        0 <= HwLabelChart.total p
          <= Z.of_nat (length (flat_map rounds_of students)) /\
        (0 <= HwLabelChart.relevance p <= 100)%Q /\
        (0 <= HwLabelChart.concreteness p <= 100)%Q /\
        (0 <= HwLabelChart.constructive p <= 100)%Q
  end.
Proof.
  intros _.
  unfold HwLabelChart.calculateHwLabelFrequency. rewrite lookup_fmap.
  destruct (data !! hw) as [students|]; [|done].
  cbn [fmap option_fmap option_map]. eexists. split; [reflexivity|].
  rewrite count_homework_complete. cbv zeta.
  set (complete := List.filter complete_round (flat_map rounds_of students)).
  pose proof (List.filter_length_le complete_round (flat_map rounds_of students))
    as Hle. fold complete in Hle.
  unfold HwLabelChart.to_percentages.
  cbn [HwLabelChart.Counts.total HwLabelChart.Counts.relevance
       HwLabelChart.Counts.concreteness HwLabelChart.Counts.constructive].
  destruct (0 <? Z.of_nat (length complete)) eqn:Hpos;
    cbn [HwLabelChart.total HwLabelChart.relevance
         HwLabelChart.concreteness HwLabelChart.constructive].
  - apply Z.ltb_lt in Hpos.
    split; [lia|]. split_and!; apply percent_bounds; try done; apply ones_bounds.
  - split; [lia|]. split_and!; discriminate.
Qed.

(** The frequency scenario, read at its only key. *)
Lemma frequency_range_and_keys_scenario :
  match Scenario.frequency_input !! "HW1"%string with
  | None =>
      HwLabelChart.calculateHwLabelFrequency Scenario.frequency_input
        !! "HW1"%string = None
  | Some students =>
      exists p,
        HwLabelChart.calculateHwLabelFrequency Scenario.frequency_input
          !! "HW1"%string = Some p /\
        0 <= HwLabelChart.total p
          <= Z.of_nat (length (flat_map rounds_of students)) /\
        (0 <= HwLabelChart.relevance p <= 100)%Q /\
        (0 <= HwLabelChart.concreteness p <= 100)%Q /\
        (0 <= HwLabelChart.constructive p <= 100)%Q
  end.
Proof.
  apply (frequency_range_and_keys Scenario.frequency_input "HW1"%string).
  discriminate.
Defined.

(** ** The stable sort *)
Section SortFacts.
Context {A : Type} (before : A -> A -> bool).
Hypothesis before_connex : forall x y, before x y = false -> before y x = true.

Lemma insert_Permutation x l : Permutation (JsArith.insert before x l) (x :: l).
Proof.
  induction l as [|y l IH]; simpl; [done|].
  destruct (before x y); [done|].
  rewrite IH. apply perm_swap.
Qed.

Lemma sort_Permutation l : Permutation (JsArith.sort before l) l.
Proof.
  induction l as [|x l IH]; simpl; [done|].
  rewrite insert_Permutation. by constructor.
Qed.



End SortFacts.

(** ** Minimum and maximum of the scores *)





(** ** generateAllLabelsGraph *)






Lemma empty_feedback_counts k rounds :
  GraphFunc.isFeedbackEmpty (GraphFunc.finalize (summary k rounds)) = true ->
  GraphFunc.labelCounts (GraphFunc.finalize (summary k rounds))
  = {| GraphFunc.relevance := 0; GraphFunc.concreteness := 0;
       GraphFunc.constructive := 0 |}.
Proof.
  intros Hempty. apply isFeedbackEmpty_summary, valid_count_zero in Hempty.
  assert (Hlab : forall L, Zsum (label_value L) rounds = 0).
  { intros L. apply Zsum_no_feedback; [|done].
    intros r Hr. unfold label_value. by rewrite Hr. }
  change ({| GraphFunc.relevance := Zsum (label_value LRelevance) rounds;
             GraphFunc.concreteness := Zsum (label_value LConcreteness) rounds;
             GraphFunc.constructive := Zsum (label_value LConstructive) rounds |}
          = {| GraphFunc.relevance := 0; GraphFunc.concreteness := 0;
               GraphFunc.constructive := 0 |}).
  by rewrite !Hlab.
Qed.

(** The function never raises; its nodes are the styled nodes of the
    aggregation, sorted and placed. *)
Lemma generateAllLabelsGraph_closed rawData hwName :
  let g := graph_of (selected rawData
                       (GraphFunc.hw_list (AllLabelsGraph.or_HW1 hwName))) in
  let allScores := map (fun n => Js.Fin (GraphFunc.meaningfulScore n))
                       (GraphFunc.nodes g) in
  let sorted :=
    JsArith.sort AllLabelsGraph.before
      (map (AllLabelsGraph.style_node (JsArith.Math_min_list allScores)
                                      (JsArith.Math_max_list allScores))
           (GraphFunc.nodes g)) in
  AllLabelsGraph.generateAllLabelsGraph rawData hwName
  = Js.Ok (imap (AllLabelsGraph.place (Z.of_nat (length sorted))) sorted,
           map Graph3LabelFunc.style_edge (GraphFunc.links g)).
Proof.
  intros g allScores sorted. unfold AllLabelsGraph.generateAllLabelsGraph.
  cbv zeta. by rewrite processReviewerData_graph_of.
Qed.

Lemma in_placed rawData hwName v :
  let g := graph_of (selected rawData
                       (GraphFunc.hw_list (AllLabelsGraph.or_HW1 hwName))) in
  let allScores := map (fun n => Js.Fin (GraphFunc.meaningfulScore n))
                       (GraphFunc.nodes g) in
  forall placed visEdges,
    AllLabelsGraph.generateAllLabelsGraph rawData hwName
    = Js.Ok (placed, visEdges) ->
    In v placed ->
    exists n, In n (GraphFunc.nodes g) /\
      AllLabelsGraph.styled v
      = AllLabelsGraph.style_node (JsArith.Math_min_list allScores)
                                  (JsArith.Math_max_list allScores) n.
Proof.
  intros g allScores placed visEdges Hrun Hv.
  rewrite generateAllLabelsGraph_closed in Hrun. cbv zeta in Hrun.
  fold g allScores in Hrun. injection Hrun as <- _.
  apply list_elem_of_In, elem_of_lookup_imap in Hv as (i & u & -> & Hu).
  cbn [AllLabelsGraph.styled AllLabelsGraph.place].
  apply list_elem_of_lookup_2, list_elem_of_In in Hu.
  apply (Permutation_in _ (sort_Permutation _ _)) in Hu.
  apply in_map_iff in Hu as (n & <- & Hn). by exists n.
Qed.

Lemma labelCount_range n : 0 <= AllLabelsGraph.labelCount n <= 3.
Proof.
  unfold AllLabelsGraph.labelCount.
  destruct (0 <? GraphFunc.relevance _), (0 <? GraphFunc.concreteness _),
    (0 <? GraphFunc.constructive _); lia.
Qed.

Lemma colorRule_empty n :
  GraphFunc.isFeedbackEmpty n = true -> AllLabelsGraph.labelCount n = 0 ->
  AllLabelsGraph.colorRule n
  = ("#f0f8ff"%string, "#62B0D8"%string, true, 0).
Proof. intros He Hc. unfold AllLabelsGraph.colorRule. by rewrite Hc, He. Qed.

Lemma colorRule_feedback n :
  GraphFunc.isFeedbackEmpty n = false ->
  exists color,
    AllLabelsGraph.colorRule n
    = (color, "#e6f3ff"%string, false, 1 + AllLabelsGraph.labelCount n).
Proof.
  intros He. unfold AllLabelsGraph.colorRule. cbv zeta. rewrite He.
  pose proof (labelCount_range n) as Hr.
  destruct (AllLabelsGraph.labelCount n =? 0) eqn:H0;
    [apply Z.eqb_eq in H0; rewrite H0; by eexists|].
  destruct (AllLabelsGraph.labelCount n =? 1) eqn:H1;
    [apply Z.eqb_eq in H1; rewrite H1; by eexists|].
  destruct (AllLabelsGraph.labelCount n =? 2) eqn:H2;
    [apply Z.eqb_eq in H2; rewrite H2; by eexists|].
  apply Z.eqb_neq in H0, H1, H2.
  assert (AllLabelsGraph.labelCount n = 3) as -> by lia. by eexists.
Qed.

(** X12: in the all-labels graph every styled node belongs to an
    aggregated node; a reviewer without any feedback gets colour depth 0
    and the dashed-border colours, and any other reviewer gets colour
    depth 1 plus the number of labels with a positive count (between 1
    and 4) and a border of the background colour. *)
Theorem all_labels_colour_rule
    (rawData : gmap string (list assignment_record))
    (hwName : GraphFunc.HwNames) :
  exists g placed visEdges,
    GraphFunc.processReviewerData rawData GraphFunc.ModeAll
      (AllLabelsGraph.or_HW1 hwName) = Js.Ok g /\
    AllLabelsGraph.generateAllLabelsGraph rawData hwName
    = Js.Ok (placed, visEdges) /\
    forall v, In v placed ->
      exists n,
        In n (GraphFunc.nodes g) /\
        AllLabelsGraph.vn_id (AllLabelsGraph.styled v) = GraphFunc.id n /\
        AllLabelsGraph.vn_meaningfulScore (AllLabelsGraph.styled v)
        = GraphFunc.meaningfulScore n /\
        (GraphFunc.isFeedbackEmpty n = true ->
         AllLabelsGraph.colorDepth (AllLabelsGraph.styled v) = 0 /\
         AllLabelsGraph.background (AllLabelsGraph.styled v) = "#f0f8ff"%string /\
         AllLabelsGraph.border (AllLabelsGraph.styled v) = "#62B0D8"%string) /\
        (GraphFunc.isFeedbackEmpty n = false ->
         AllLabelsGraph.colorDepth (AllLabelsGraph.styled v)
         = 1 + AllLabelsGraph.labelCount n /\
         1 <= AllLabelsGraph.colorDepth (AllLabelsGraph.styled v) <= 4 /\
         AllLabelsGraph.border (AllLabelsGraph.styled v)
         = AllLabelsGraph.background (AllLabelsGraph.styled v)).
Proof.
  eexists _, _, _. split; [apply processReviewerData_graph_of|].
  split; [apply generateAllLabelsGraph_closed|].
  intros v Hv.
  destruct (in_placed rawData hwName v _ _
              (generateAllLabelsGraph_closed rawData hwName) Hv)
    as (n & Hn & Hst).
  exists n. split; [done|]. rewrite Hst. clear Hst Hv.
  unfold AllLabelsGraph.style_node.
  split; [by destruct (AllLabelsGraph.colorRule n) as [[[? ?] ?] ?]|].
  split; [by destruct (AllLabelsGraph.colorRule n) as [[[? ?] ?] ?]|].
  split.
  - intros He.
    assert (Hc : AllLabelsGraph.labelCount n = 0).
    { apply node_of_graph in Hn as (k & _ & ->).
      unfold AllLabelsGraph.labelCount. by rewrite (empty_feedback_counts _ _ He). }
    by rewrite (colorRule_empty n He Hc).
  - intros He. destruct (colorRule_feedback n He) as (color & ->).
    pose proof (labelCount_range n).
    cbn [AllLabelsGraph.colorDepth AllLabelsGraph.border
         AllLabelsGraph.background]. split_and!; [done | lia | lia | done].
Qed.







(** ** createHwLabelChart *)






(** ** calculateStudentStats in closed form *)

Lemma ones_cons f r rounds :
  ones f (r :: rounds) = (if Js.is_one (f r) then 1 else 0) + ones f rounds.
Proof.
  unfold ones. cbn [List.filter]. destruct (Js.is_one (f r)); simpl length; lia.
Qed.

Lemma ones_app f l1 l2 : ones f (l1 ++ l2) = ones f l1 + ones f l2.
Proof. unfold ones. rewrite List.filter_app, length_app. lia. Qed.

Lemma add_reviews_nil a acc : add_reviews a [] acc = acc.
Proof.
  destruct acc. unfold add_reviews, ones. simpl.
  rewrite app_nil_r. f_equal; lia.
Qed.

Lemma count_review_valid a r acc has :
  StudentStats.valid_review r = true ->
  StudentStats.count_review a r (acc, has) = (add_reviews a [r] acc, true).
Proof.
  intros Hv. unfold StudentStats.count_review, add_reviews. rewrite Hv.
  rewrite !ones_cons. unfold ones, StudentStats.incr_if, item_of. simpl.
  do 2 f_equal;
    try (destruct (Js.is_one _); lia).
Qed.

Lemma add_reviews_app a l1 l2 acc :
  add_reviews a l2 (add_reviews a l1 acc) = add_reviews a (l1 ++ l2) acc.
Proof.
  unfold add_reviews. cbn [StudentStats.Acc.validReviews
    StudentStats.Acc.relevanceCount StudentStats.Acc.concretenessCount
    StudentStats.Acc.constructiveCount StudentStats.Acc.completedTasks
    StudentStats.Acc.feedbackList].
  rewrite !ones_app, length_app, map_app, Nat2Z.inj_add, <- app_assoc.
  f_equal; lia.
Qed.

Lemma fold_count_review a rounds acc has :
  fold_left (fun s r => StudentStats.count_review a r s) rounds (acc, has)
  = (add_reviews a (List.filter StudentStats.valid_review rounds) acc,
     has || match List.filter StudentStats.valid_review rounds with
            | [] => false
            | _ => true
            end).
Proof.
  revert acc has. induction rounds as [|r rounds IH]; intros acc has.
  - cbn. by rewrite add_reviews_nil, orb_false_r.
  - cbn [fold_left List.filter].
    destruct (StudentStats.valid_review r) eqn:Hv.
    + rewrite (count_review_valid _ _ _ _ Hv), IH.
      rewrite add_reviews_app. cbn [app]. by rewrite orb_true_r.
    + unfold StudentStats.count_review at 2. rewrite Hv. apply IH.
Qed.


Lemma Round_or_empty_tolerated r :
  tolerated r = true ->
  StudentStats.Round_or_empty r = ArrayOf (rounds_of (inner r)).
Proof.
  unfold tolerated, StudentStats.Round_or_empty, rounds_of.
  destruct (Round (inner r)); [|done]. by destruct (non_array r).
Qed.

Lemma count_record_tolerated r acc :
  tolerated r = true ->
  StudentStats.count_record r acc = Js.Ok (absorb r acc).
Proof.
  intros Ht. unfold StudentStats.count_record. cbv zeta.
  rewrite (Round_or_empty_tolerated r Ht). cbn [Arr.forEach].
  rewrite foldM_pure, fold_count_review. cbn [mbind Js.result_bind orb].
  unfold absorb, completed, reviews_of.
  by destruct (List.filter StudentStats.valid_review (rounds_of (inner r))).
Qed.

Lemma count_record_throws r acc :
  tolerated r = false ->
  StudentStats.count_record r acc = Js.Throw Js.TypeError.
Proof.
  unfold tolerated, StudentStats.count_record, StudentStats.Round_or_empty.
  destruct (Round (inner r)); [|done]. by destruct (non_array r).
Qed.

Lemma absorb_tally_of r done :
  absorb r (tally_of done) = tally_of (done ++ [r]).
Proof.
  unfold absorb, tally_of, add_reviews. cbv zeta.
  cbn [StudentStats.Acc.validReviews StudentStats.Acc.relevanceCount
       StudentStats.Acc.concretenessCount StudentStats.Acc.constructiveCount
       StudentStats.Acc.completedTasks StudentStats.Acc.feedbackList].
  rewrite !flat_map_app, List.filter_app. cbn [flat_map List.filter].
  rewrite !app_nil_r, !ones_app, !length_app, !Nat2Z.inj_add.
  destruct (completed r); cbn [length app]; f_equal; lia.
Qed.

Lemma fold_count_record rs done :
  Forall (fun r => tolerated r = true) rs ->
  Js.foldM StudentStats.count_record rs (tally_of done)
  = Js.Ok (tally_of (done ++ rs)).
Proof.
  intros H. revert done. induction H as [|r rs Hr _ IH]; intros done.
  - by rewrite app_nil_r.
  - cbn [Js.foldM]. rewrite (count_record_tolerated _ _ Hr).
    cbn [mbind Js.result_bind]. rewrite absorb_tally_of, IH.
    by rewrite <- app_assoc.
Qed.

Lemma fold_count_record_throws rs acc :
  Exists (fun r => tolerated r = false) rs ->
  Js.foldM StudentStats.count_record rs acc = Js.Throw Js.TypeError.
Proof.
  intros H. revert acc. induction rs as [|r rs IH]; intros acc.
  - by apply Exists_nil in H.
  - cbn [Js.foldM]. destruct (tolerated r) eqn:Hr.
    + rewrite (count_record_tolerated _ _ Hr). cbn [mbind Js.result_bind].
      apply IH. apply Exists_cons in H as [H|H]; [congruence | done].
    + by rewrite (count_record_throws _ _ Hr).
Qed.

Lemma completed_le_reviews rs :
  Z.of_nat (length (List.filter completed rs))
  <= Z.of_nat (length (flat_map reviews_of rs)).
Proof.
  induction rs as [|r rs IH]; simpl; [lia|].
  rewrite length_app. unfold completed at 1.
  destruct (reviews_of r); simpl length; lia.
Qed.

Lemma completed_all rs :
  length (List.filter completed rs) = length rs
  <-> Forall (fun r => completed r = true) rs.
Proof.
  induction rs as [|r rs IH]; simpl.
  - split; [constructor | done].
  - pose proof (List.filter_length_le completed rs).
    destruct (completed r) eqn:Hr; simpl length.
    + rewrite Forall_cons. split.
      * intros H'. split; [done|]. apply IH. lia.
      * intros [_ H']. apply IH in H'. lia.
    + split; [lia|]. intros H'. apply Forall_cons in H' as [? _]. congruence.
Qed.

(** X16: on records whose [Round] is an array or falsy,
    [calculateStudentStats] returns statistics in which the assigned
    tasks are the records, the completed tasks are at most the assigned
    tasks and at most the valid reviews, the feedback list has one entry
    per valid review, each label count is at most the valid reviews, and
    the participation rate lies in [0, 1], reaching 1 exactly when there is
    a record and every record has a valid review. *)
Theorem student_stats_invariants (nodeId : string) (records : list loose_record) :
  Forall (fun r => tolerated r = true) records ->
  exists s,
    StudentStats.calculateStudentStats nodeId records = Js.Ok s /\
    StudentStats.studentName s = nodeId /\
    StudentStats.assignedTasks s = Z.of_nat (length records) /\
    0 <= StudentStats.completedTasks s <= StudentStats.assignedTasks s /\
    StudentStats.completedTasks s <= StudentStats.validReviews s /\
    StudentStats.validReviews s
    = Z.of_nat (length (StudentStats.feedbackList s)) /\
    StudentStats.validReviews s
    = Z.of_nat (length (flat_map reviews_of records)) /\
    0 <= StudentStats.relevanceCount s <= StudentStats.validReviews s /\
    0 <= StudentStats.concretenessCount s <= StudentStats.validReviews s /\
    0 <= StudentStats.constructiveCount s <= StudentStats.validReviews s /\
    (0 <= StudentStats.participationRate s <= 1)%Q /\
    ((StudentStats.participationRate s == 1)%Q
     <-> records <> [] /\ Forall (fun r => completed r = true) records).
Proof.
  intros Htol. unfold StudentStats.calculateStudentStats. cbv zeta.
  change {| StudentStats.Acc.validReviews := 0;
            StudentStats.Acc.relevanceCount := 0;
            StudentStats.Acc.concretenessCount := 0;
            StudentStats.Acc.constructiveCount := 0;
            StudentStats.Acc.completedTasks := 0;
            StudentStats.Acc.feedbackList := [] |} with (tally_of []).
  rewrite (fold_count_record _ _ Htol). cbn [mbind Js.result_bind app].
  eexists. split; [reflexivity|].
  cbn [StudentStats.studentName StudentStats.assignedTasks
       StudentStats.completedTasks StudentStats.validReviews
       StudentStats.feedbackList StudentStats.relevanceCount
       StudentStats.concretenessCount StudentStats.constructiveCount
       StudentStats.participationRate tally_of
       StudentStats.Acc.validReviews StudentStats.Acc.relevanceCount
       StudentStats.Acc.concretenessCount StudentStats.Acc.constructiveCount
       StudentStats.Acc.completedTasks StudentStats.Acc.feedbackList].
  set (vs := flat_map reviews_of records).
  pose proof (List.filter_length_le completed records) as Hc.
  pose proof (completed_le_reviews records) as Hcv. fold vs in Hcv.
  pose proof (ones_bounds Relevance vs). pose proof (ones_bounds Concreteness vs).
  pose proof (ones_bounds Constructive vs).
  split; [done|]. split; [done|]. split; [lia|]. split; [done|].
  split.
  { f_equal. unfold vs. clear. induction records as [|r rs IH]; simpl; [done|].
    by rewrite !length_app, length_map, IH. }
  split; [done|]. split; [done|]. split; [done|]. split; [done|].
  destruct (0 <? Z.of_nat (length records)) eqn:Hlen.
  - apply Z.ltb_lt in Hlen. split; [apply (frac_bounds _ _ 1); lia|].
    rewrite frac_eq_one by done. rewrite Nat2Z.inj_iff, completed_all.
    split; [intros H'; split; [|done] | by intros [_ ?]].
    intros ->. simpl in Hlen. lia.
  - apply Z.ltb_ge in Hlen. split; [split; discriminate|].
    split; [discriminate|]. intros [Hne _].
    destruct records; [done | simpl in Hlen; lia].
Qed.

(** ** The click handler against the graph *)

Lemma valid_review_gave_feedback r :
  StudentStats.valid_review r
  = gave_feedback r
    && negb (String.eqb (Js.toUpperCase (Js.or_empty (Feedback r))) "NULL").
Proof.
  unfold StudentStats.valid_review, gave_feedback, feedback_text. cbv zeta.
  destruct (Js.or_empty (Feedback r)) as [|c s]; [reflexivity|].
  reflexivity.
Qed.

Lemma selected_forget rawData names :
  selected (forget rawData) names
  = flat_map (fun hw => map (fun r => (hw, inner r)) (default [] (rawData !! hw)))
             names.
Proof.
  unfold selected, forget. apply flat_map_ext. intros hw.
  rewrite lookup_fmap. destruct (rawData !! hw); simpl; [|done].
  by rewrite map_map.
Qed.

Lemma click_rounds rawData names nodeId :
  flat_map (fun r => rounds_of (inner r))
           (StudentStats.reviewerRecords rawData names nodeId)
  = assigned_rounds (selected (forget rawData) names) (Some nodeId).
Proof.
  rewrite selected_forget. unfold StudentStats.reviewerRecords, assigned_rounds.
  induction names as [|hw names IH]; [done|].
  cbn [flat_map]. rewrite !flat_map_app, IH. f_equal.
  destruct (rawData !! hw) as [records|]; [|done]. simpl.
  induction records as [|a records IHr]; [done|]. simpl.
  destruct (decide (Reviewer (inner a) = Some nodeId)) as [Ha|Ha].
  - rewrite bool_decide_true by done. simpl. by rewrite IHr.
  - rewrite bool_decide_false by done. by rewrite IHr.
Qed.

Lemma click_links rawData names nodeId :
  length (StudentStats.reviewerRecords rawData names nodeId)
  = length (List.filter
              (fun e => bool_decide (GraphFunc.from e = Some nodeId))
              (map edge_of (selected (forget rawData) names))).
Proof.
  rewrite selected_forget. unfold StudentStats.reviewerRecords.
  induction names as [|hw names IH]; [done|].
  cbn [flat_map]. rewrite map_app, List.filter_app, !length_app, IH. f_equal.
  destruct (rawData !! hw) as [records|]; [|done]. simpl.
  induction records as [|a records IHr]; [done|]. simpl.
  destruct (bool_decide (Reviewer (inner a) = Some nodeId)); simpl; by rewrite IHr.
Qed.

Lemma click_reviewer rawData names nodeId r :
  In r (StudentStats.reviewerRecords rawData names nodeId) ->
  Some nodeId ∈ reviewers (selected (forget rawData) names).
Proof.
  unfold StudentStats.reviewerRecords.
  intros (hw & Hhw & Hr)%in_flat_map.
  destruct (rawData !! hw) as [records|] eqn:Hrec; [|done].
  apply filter_In in Hr as [Hr Hk]. apply bool_decide_eq_true in Hk.
  apply elem_of_reviewers. exists (hw, inner r). split; [|done].
  apply list_elem_of_In. rewrite selected_forget. apply in_flat_map.
  exists hw. split; [done|]. rewrite Hrec. simpl.
  apply in_map_iff. by exists r.
Qed.

Lemma reviews_of_flat rs :
  flat_map reviews_of rs
  = List.filter StudentStats.valid_review
                (flat_map (fun r => rounds_of (inner r)) rs).
Proof.
  induction rs as [|r rs IH]; [done|]. simpl.
  by rewrite List.filter_app, IH.
Qed.

Lemma valid_reviews_le rounds :
  Z.of_nat (length (List.filter StudentStats.valid_review rounds))
  <= valid_count rounds.
Proof.
  unfold valid_count. induction rounds as [|r rounds IH]; simpl; [lia|].
  rewrite valid_review_gave_feedback.
  destruct (gave_feedback r); simpl; [|lia].
  destruct (negb _); simpl length; lia.
Qed.

Lemma valid_reviews_no_null rounds :
  Forall (fun r => Js.toUpperCase (Js.or_empty (Feedback r)) <> "NULL"%string)
         rounds ->
  List.filter StudentStats.valid_review rounds = List.filter gave_feedback rounds.
Proof.
  induction 1 as [|r rounds Hr _ IH]; [done|]. simpl.
  rewrite valid_review_gave_feedback, IH.
  apply String.eqb_neq in Hr. rewrite Hr. simpl. by rewrite andb_true_r.
Qed.

Lemma ones_label_value L rounds :
  Forall (fun r => binary_round r = true) rounds ->
  ones (flag_of L) (List.filter gave_feedback rounds)
  = Zsum (label_value L) rounds.
Proof.
  induction 1 as [|r rounds Hr _ IH]; [done|]. simpl.
  unfold label_value at 1.
  destruct (gave_feedback r); [|by rewrite IH].
  rewrite ones_cons, IH. f_equal.
  unfold binary_round in Hr.
  apply andb_prop in Hr as [Hr Hc]. apply andb_prop in Hr as [Ha Hb].
  destruct L; simpl;
    [destruct (Relevance r) as [| |[|[]|]]
    |destruct (Concreteness r) as [| |[|[]|]]
    |destruct (Constructive r) as [| |[|[]|]]]; by try discriminate.
Qed.

(** X17: when one of the clicked reviewer's records has a [Round] that is
    neither an array nor falsy, the click handler raises a TypeError,
    although [processReviewerData] builds the graph from the same data and
    the graph has the clicked node. *)
Theorem click_throws_on_non_array_round
    (rawData : gmap string (list loose_record)) (mode : GraphFunc.Mode)
    (names : list string) (nodeId : string) :
  Exists (fun r => tolerated r = false)
         (StudentStats.reviewerRecords rawData names nodeId) ->
  StudentStats.on_click rawData names nodeId = Js.Throw Js.TypeError /\
  exists g n,
    GraphFunc.processReviewerData (forget rawData) mode (GraphFunc.HwArray names)
    = Js.Ok g /\
    In n (GraphFunc.nodes g) /\ GraphFunc.id n = Some nodeId.
Proof.
  intros Hex. split.
  - unfold StudentStats.on_click, StudentStats.calculateStudentStats. cbv zeta.
    by rewrite (fold_count_record_throws _ _ Hex).
  - rewrite processReviewerData_graph_of. cbn [GraphFunc.hw_list].
    apply Exists_exists in Hex as (r & Hr & _).
    apply list_elem_of_In, click_reviewer in Hr.
    eexists _, _. split; [reflexivity|].
    split; [by apply graph_has_node | done].
Qed.

(** A click on reviewer A when A's record has an object as [Round]. *)
Lemma click_throws_on_object_round :
  StudentStats.on_click ClickExample.object_round ["HW1"%string] "A"
  = Js.Throw Js.TypeError /\
  exists g n,
    GraphFunc.processReviewerData (forget ClickExample.object_round)
      GraphFunc.ModeAll (GraphFunc.HwArray ["HW1"%string]) = Js.Ok g /\
    In n (GraphFunc.nodes g) /\ GraphFunc.id n = Some "A"%string.
Proof.
  apply (click_throws_on_non_array_round ClickExample.object_round
           GraphFunc.ModeAll ["HW1"%string] "A").
  apply Exists_cons_hd. reflexivity.
Defined.

(** X18: when the clicked reviewer's records are tolerated, the modal's
    statistics agree with the graph built from the same data: the
    assigned tasks are the edges leaving the node, and the valid reviews
    are at most the node's non-empty feedbacks.  When none of the
    reviewer's feedbacks is NULL in any letter case the two are equal, and
    when the flags are 0 or 1 as well, the three label counts are those of
    the node. *)
Theorem student_stats_match_graph
    (rawData : gmap string (list loose_record)) (mode : GraphFunc.Mode)
    (names : list string) (nodeId : string) :
  Forall (fun r => tolerated r = true)
         (StudentStats.reviewerRecords rawData names nodeId) ->
  exists s g,
    StudentStats.on_click rawData names nodeId = Js.Ok s /\
    GraphFunc.processReviewerData (forget rawData) mode (GraphFunc.HwArray names)
    = Js.Ok g /\
    StudentStats.assignedTasks s
    = Z.of_nat
        (length (List.filter
                   (fun e => bool_decide (GraphFunc.from e = Some nodeId))
                   (GraphFunc.links g))) /\
    forall n, In n (GraphFunc.nodes g) -> GraphFunc.id n = Some nodeId ->
      let rounds :=
        assigned_rounds (selected (forget rawData) names) (Some nodeId) in
      let given :=
        Z.of_nat
          (length (List.filter (fun fb => negb (String.eqb fb ""))
                               (GraphFunc.feedbacks n))) in
      StudentStats.validReviews s <= given /\
      (Forall (fun r => Js.toUpperCase (Js.or_empty (Feedback r))
                        <> "NULL"%string) rounds ->
       StudentStats.validReviews s = given /\
       (Forall (fun r => binary_round r = true) rounds ->
        StudentStats.relevanceCount s
        = GraphFunc.relevance (GraphFunc.labelCounts n) /\
        StudentStats.concretenessCount s
        = GraphFunc.concreteness (GraphFunc.labelCounts n) /\
        StudentStats.constructiveCount s
        = GraphFunc.constructive (GraphFunc.labelCounts n))).
Proof.
  intros Htol. unfold StudentStats.on_click, StudentStats.calculateStudentStats.
  cbv zeta.
  change {| StudentStats.Acc.validReviews := 0;
            StudentStats.Acc.relevanceCount := 0;
            StudentStats.Acc.concretenessCount := 0;
            StudentStats.Acc.constructiveCount := 0;
            StudentStats.Acc.completedTasks := 0;
            StudentStats.Acc.feedbackList := [] |} with (tally_of []).
  rewrite (fold_count_record _ _ Htol). cbn [mbind Js.result_bind app].
  rewrite processReviewerData_graph_of. cbn [GraphFunc.hw_list].
  eexists _, _. split; [reflexivity|]. split; [reflexivity|].
  cbn [StudentStats.assignedTasks StudentStats.validReviews
       StudentStats.relevanceCount StudentStats.concretenessCount
       StudentStats.constructiveCount tally_of
       StudentStats.Acc.validReviews StudentStats.Acc.relevanceCount
       StudentStats.Acc.concretenessCount StudentStats.Acc.constructiveCount].
  split.
  { by rewrite click_links. }
  intros n (k & Hk & ->)%node_of_graph Hid.
  cbn [GraphFunc.id GraphFunc.finalize summary node_with GraphFunc.Acc.id] in Hid.
  subst k. cbv zeta.
  rewrite reviews_of_flat, click_rounds.
  set (rounds := assigned_rounds _ _).
  cbn [GraphFunc.feedbacks GraphFunc.labelCounts GraphFunc.finalize summary
       node_with GraphFunc.Acc.feedbacks GraphFunc.Acc.labelCounts
       GraphFunc.relevance GraphFunc.concreteness GraphFunc.constructive].
  rewrite filter_feedback_text, length_map.
  split.
  { apply valid_reviews_le. }
  intros Hnull. rewrite (valid_reviews_no_null _ Hnull).
  split; [done|]. intros Hbin.
  split; [exact (ones_label_value LRelevance rounds Hbin)|].
  split; [exact (ones_label_value LConcreteness rounds Hbin)|].
  exact (ones_label_value LConstructive rounds Hbin).
Qed.

(** The scenario of two rounds, the second without feedback. *)
Lemma student_stats_match_graph_scenario :
  exists s g,
    StudentStats.on_click ClickExample.hw1 ["HW1"%string] "A" = Js.Ok s /\
    GraphFunc.processReviewerData (forget ClickExample.hw1) GraphFunc.ModeAll
      (GraphFunc.HwArray ["HW1"%string]) = Js.Ok g /\
    StudentStats.assignedTasks s
    = Z.of_nat
        (length (List.filter
                   (fun e => bool_decide (GraphFunc.from e = Some "A"%string))
                   (GraphFunc.links g))) /\
    forall n, In n (GraphFunc.nodes g) -> GraphFunc.id n = Some "A"%string ->
      let rounds :=
        assigned_rounds (selected (forget ClickExample.hw1) ["HW1"%string])
                        (Some "A"%string) in
      let given :=
        Z.of_nat
          (length (List.filter (fun fb => negb (String.eqb fb ""))
                               (GraphFunc.feedbacks n))) in
      StudentStats.validReviews s <= given /\
      (Forall (fun r => Js.toUpperCase (Js.or_empty (Feedback r))
                        <> "NULL"%string) rounds ->
       StudentStats.validReviews s = given /\
       (Forall (fun r => binary_round r = true) rounds ->
        StudentStats.relevanceCount s
        = GraphFunc.relevance (GraphFunc.labelCounts n) /\
        StudentStats.concretenessCount s
        = GraphFunc.concreteness (GraphFunc.labelCounts n) /\
        StudentStats.constructiveCount s
        = GraphFunc.constructive (GraphFunc.labelCounts n))).
Proof.
  apply (student_stats_match_graph ClickExample.hw1 GraphFunc.ModeAll
           ["HW1"%string] "A").
  repeat constructor.
Defined.

(** The scenario of two rounds, the second without feedback. *)
Lemma student_stats_invariants_scenario :
  exists s,
    StudentStats.calculateStudentStats "A"
      [ ClickExample.loose Scenario.record_AB Falsy ] = Js.Ok s /\
    StudentStats.studentName s = "A"%string /\
    StudentStats.assignedTasks s
    = Z.of_nat (length [ ClickExample.loose Scenario.record_AB Falsy ]) /\
    0 <= StudentStats.completedTasks s <= StudentStats.assignedTasks s /\
    StudentStats.completedTasks s <= StudentStats.validReviews s /\
    StudentStats.validReviews s
    = Z.of_nat (length (StudentStats.feedbackList s)) /\
    StudentStats.validReviews s
    = Z.of_nat (length (flat_map reviews_of
                          [ ClickExample.loose Scenario.record_AB Falsy ])) /\
    0 <= StudentStats.relevanceCount s <= StudentStats.validReviews s /\
    0 <= StudentStats.concretenessCount s <= StudentStats.validReviews s /\
    0 <= StudentStats.constructiveCount s <= StudentStats.validReviews s /\
    (0 <= StudentStats.participationRate s <= 1)%Q /\
    ((StudentStats.participationRate s == 1)%Q
     <-> [ ClickExample.loose Scenario.record_AB Falsy ] <> [] /\
         Forall (fun r => completed r = true)
                [ ClickExample.loose Scenario.record_AB Falsy ]).
Proof.
  apply (student_stats_invariants "A"
           [ ClickExample.loose Scenario.record_AB Falsy ]).
  repeat constructor.
Defined.

(** ** The bubble chart data in closed form *)

Lemma students_snoc rs r :
  students (rs ++ [r])
  = note_student (note_student (students rs) (BubbleChart.reviewer_id r))
                 (BubbleChart.author_id r).
Proof. unfold students. by rewrite fold_left_app. Qed.

Lemma elem_of_note_student acc k k' :
  k' ∈ note_student acc k <-> k' ∈ acc \/ (BubbleChart.truthy k = true /\ k' = k).
Proof.
  unfold note_student. destruct (BubbleChart.truthy k).
  - rewrite elem_of_note_reviewer. split; (intros [?|?]; [by left | right]).
    + by split.
    + by destruct H.
  - split; [by left | by intros [?|[? _]]].
Qed.

Lemma NoDup_note_student acc k : NoDup acc -> NoDup (note_student acc k).
Proof.
  unfold note_student. destruct (BubbleChart.truthy k); [|done].
  apply NoDup_note_reviewer.
Qed.

Lemma students_NoDup rs : NoDup (students rs).
Proof.
  induction rs as [|r rs IH] using rev_ind; [apply NoDup_nil_2|].
  rewrite students_snoc. by do 2 apply NoDup_note_student.
Qed.

Lemma elem_of_students rs k :
  k ∈ students rs
  <-> BubbleChart.truthy k = true
      /\ exists r, r ∈ rs
           /\ (BubbleChart.reviewer_id r = k \/ BubbleChart.author_id r = k).
Proof.
  induction rs as [|r rs IH] using rev_ind.
  - split; [by intros ?%elem_of_nil | by intros (_ & ? & ?%elem_of_nil & _)].
  - rewrite students_snoc, !elem_of_note_student, IH. split.
    + intros [[(Ht & q & Hq & Hk) | [Ht ->]] | [Ht ->]].
      * split; [done|]. exists q. split; [apply elem_of_app; by left | done].
      * split; [done|]. exists r.
        split; [apply elem_of_app; right; by apply list_elem_of_singleton|].
        by left.
      * split; [done|]. exists r.
        split; [apply elem_of_app; right; by apply list_elem_of_singleton|].
        by right.
    + intros (Ht & q & [Hq | ->%list_elem_of_singleton]%elem_of_app & Hk).
      * left. left. split; [done|]. by exists q.
      * destruct Hk as [<- | <-]; [left; right | right]; done.
Qed.

Lemma tasks_app k rs1 rs2 : tasks k (rs1 ++ rs2) = tasks k rs1 ++ tasks k rs2.
Proof. unfold tasks. apply List.filter_app. Qed.

Lemma tasks_none rs k :
  BubbleChart.truthy k = true -> k ∉ students rs -> tasks k rs = [].
Proof.
  intros Ht Hk. unfold tasks.
  induction rs as [|r rs IH] using rev_ind; [done|].
  rewrite List.filter_app. cbn [List.filter].
  rewrite students_snoc, !elem_of_note_student in Hk.
  rewrite IH by tauto.
  rewrite bool_decide_false; [done|]. intros Heq. apply Hk.
  left. right. by rewrite Heq.
Qed.

Lemma student_of_none rs k :
  BubbleChart.truthy k = true -> k ∉ students rs ->
  student_of rs k = BubbleChart.new_student k.
Proof.
  intros Ht Hk. unfold student_of. rewrite (tasks_none rs k Ht Hk). reflexivity.
Qed.

Lemma tasks_other rs r k :
  BubbleChart.reviewer_id r <> k -> tasks k (rs ++ [r]) = tasks k rs.
Proof.
  intros Hne. rewrite tasks_app. unfold tasks at 2. cbn [List.filter].
  rewrite bool_decide_false by done. apply app_nil_r.
Qed.

Lemma tasks_same rs r :
  tasks (BubbleChart.reviewer_id r) (rs ++ [r])
  = tasks (BubbleChart.reviewer_id r) rs ++ [r].
Proof.
  rewrite tasks_app. unfold tasks at 2. cbn [List.filter].
  by rewrite bool_decide_true.
Qed.

Lemma student_of_other rs r k :
  BubbleChart.reviewer_id r <> k -> student_of (rs ++ [r]) k = student_of rs k.
Proof. intros Hne. unfold student_of. by rewrite tasks_other. Qed.

Section Ensure.
Variable F : option string -> BubbleChart.student.

Lemma ensure_student_tabulate ids k :
  (BubbleChart.truthy k = true -> k ∉ ids -> BubbleChart.new_student k = F k) ->
  BubbleChart.ensure_student (map (fun k' => (k', F k')) ids) k
  = map (fun k' => (k', F k')) (note_student ids k).
Proof.
  intros Hnew. unfold BubbleChart.ensure_student, note_student, Js.Map_has.
  rewrite (Map_get_tabulate F). unfold note_reviewer.
  destruct (BubbleChart.truthy k); [|done].
  destruct (decide (k ∈ ids)) as [Hin|Hnin]; [done|]. cbn [andb negb].
  rewrite (Map_set_fresh F) by done.
  rewrite map_app. cbn [map]. by rewrite Hnew.
Qed.
End Ensure.

(** The local counters after a loop over [rounds]. *)
Lemma fold_bubble_rounds rounds c :
  fold_left (fun c r => BubbleChart.count_round r c) rounds c
  = let vs := List.filter GraphFunc.has_feedback rounds in
    {| BubbleChart.hasValidFeedback :=
         BubbleChart.hasValidFeedback c
         || match vs with [] => false | _ => true end;
       BubbleChart.validRoundsCount :=
         BubbleChart.validRoundsCount c + Z.of_nat (length vs);
       BubbleChart.c_relevanceCount :=
         BubbleChart.c_relevanceCount c + ones Relevance vs;
       BubbleChart.c_concretenessCount :=
         BubbleChart.c_concretenessCount c + ones Concreteness vs;
       BubbleChart.c_constructiveCount :=
         BubbleChart.c_constructiveCount c + ones Constructive vs |}.
Proof.
  revert c. induction rounds as [|r rounds IH]; intros c.
  - destruct c. cbn. unfold ones. cbn. rewrite orb_false_r. f_equal; lia.
  - cbn [fold_left List.filter]. rewrite IH. cbv zeta.
    unfold BubbleChart.count_round.
    destruct (GraphFunc.has_feedback r); [|done].
    cbn [BubbleChart.hasValidFeedback BubbleChart.validRoundsCount
         BubbleChart.c_relevanceCount BubbleChart.c_concretenessCount
         BubbleChart.c_constructiveCount orb].
    rewrite !ones_cons, orb_true_r. unfold BubbleChart.incr_if.
    f_equal; cbn [length];
      try (destruct (Js.is_one _)); lia.
Qed.

Lemma bubble_rounds_loop r :
  loopable r = true ->
  (if BubbleChart.Round_nonempty (BubbleChart.upper r)
   then Arr.forEach (Round (inner (BubbleChart.upper r)))
          (fun round c => Js.Ok (BubbleChart.count_round round c))
          {| BubbleChart.hasValidFeedback := false;
             BubbleChart.validRoundsCount := 0;
             BubbleChart.c_relevanceCount := 0;
             BubbleChart.c_concretenessCount := 0;
             BubbleChart.c_constructiveCount := 0 |}
   else Js.Ok {| BubbleChart.hasValidFeedback := false;
                 BubbleChart.validRoundsCount := 0;
                 BubbleChart.c_relevanceCount := 0;
                 BubbleChart.c_concretenessCount := 0;
                 BubbleChart.c_constructiveCount := 0 |})
  = Js.Ok {| BubbleChart.hasValidFeedback := commented r;
             BubbleChart.validRoundsCount := Z.of_nat (length (counted r));
             BubbleChart.c_relevanceCount := ones Relevance (counted r);
             BubbleChart.c_concretenessCount := ones Concreteness (counted r);
             BubbleChart.c_constructiveCount := ones Constructive (counted r) |}.
Proof.
  unfold loopable, BubbleChart.Round_nonempty, commented, counted, rounds_of.
  destruct (Round (inner (BubbleChart.upper r))) as [|rounds].
  - destruct (non_array (BubbleChart.upper r)) as [|[]]; done.
  - intros _. destruct rounds as [|r0 rounds]; [done|].
    change (0 <? Z.of_nat (length (r0 :: rounds))) with true.
    cbn [Arr.forEach]. by rewrite foldM_pure, fold_bubble_rounds.
Qed.


Lemma students_truthy rs k : k ∈ students rs -> BubbleChart.truthy k = true.
Proof. by intros [? _]%elem_of_students. Qed.

Lemma ensure_both rs r :
  fold_left BubbleChart.ensure_student
    [BubbleChart.reviewer_id r; BubbleChart.author_id r] (students_of rs)
  = map (fun k => (k, student_of rs k)) (students (rs ++ [r])).
Proof.
  cbn [fold_left]. unfold students_of. rewrite students_snoc.
  rewrite (ensure_student_tabulate (student_of rs)).
  2:{ intros Ht Hk. symmetry. by apply student_of_none. }
  rewrite (ensure_student_tabulate (student_of rs)); [done|].
  intros Ht Hk. symmetry. apply student_of_none; [done|].
  intros Hin. apply Hk. apply elem_of_note_student. by left.
Qed.

Lemma student_of_snoc rs r :
  student_of (rs ++ [r]) (BubbleChart.reviewer_id r)
  = let s := student_of rs (BubbleChart.reviewer_id r) in
    {| BubbleChart.id := BubbleChart.id s;
       BubbleChart.name := BubbleChart.name s;
       BubbleChart.validComments :=
         BubbleChart.incr_if (commented r) (BubbleChart.validComments s);
       BubbleChart.validRounds :=
         BubbleChart.validRounds s + Z.of_nat (length (counted r));
       BubbleChart.assignedTasks := BubbleChart.assignedTasks s + 1;
       BubbleChart.relevanceCount :=
         BubbleChart.relevanceCount s + ones Relevance (counted r);
       BubbleChart.concretenessCount :=
         BubbleChart.concretenessCount s + ones Concreteness (counted r);
       BubbleChart.constructiveCount :=
         BubbleChart.constructiveCount s + ones Constructive (counted r) |}.
Proof.
  unfold student_of. cbv zeta. rewrite tasks_same.
  cbn [BubbleChart.id BubbleChart.name BubbleChart.validComments
       BubbleChart.validRounds BubbleChart.assignedTasks
       BubbleChart.relevanceCount BubbleChart.concretenessCount
       BubbleChart.constructiveCount].
  rewrite !flat_map_app, List.filter_app. cbn [flat_map List.filter].
  rewrite !app_nil_r, !ones_app, !length_app, !Nat2Z.inj_add.
  unfold BubbleChart.incr_if.
  destruct (commented r); cbn [length app]; f_equal; lia.
Qed.

Lemma bubble_assignment_table rs r :
  BubbleChart.truthy (BubbleChart.reviewer_id r) = false \/ loopable r = true ->
  BubbleChart.process_assignment r (students_of rs)
  = Js.Ok (students_of (rs ++ [r])).
Proof.
  intros Hok. unfold BubbleChart.process_assignment. cbv zeta.
  rewrite ensure_both. unfold Js.Map_has.
  rewrite (Map_get_tabulate (student_of rs)).
  destruct (BubbleChart.truthy (BubbleChart.reviewer_id r)) eqn:Ht.
  - assert (Hk : BubbleChart.reviewer_id r ∈ students (rs ++ [r])).
    { apply elem_of_students. split; [done|]. exists r.
      split; [apply elem_of_app; right; by apply list_elem_of_singleton|].
      by left. }
    rewrite decide_True by done. cbn [andb].
    destruct Hok as [Hok|Hok]; [done|].
    rewrite (bubble_rounds_loop r Hok). cbn [mbind Js.result_bind].
    cbn [BubbleChart.hasValidFeedback BubbleChart.validRoundsCount
         BubbleChart.c_relevanceCount BubbleChart.c_concretenessCount
         BubbleChart.c_constructiveCount].
    rewrite (Map_set_present (student_of rs)); [| apply students_NoDup | done].
    unfold students_of. f_equal. apply map_ext. intros k'. f_equal.
    destruct (decide (k' = BubbleChart.reviewer_id r)) as [->|Hne].
    + by rewrite student_of_snoc.
    + symmetry. apply student_of_other. congruence.
  - cbn [andb]. unfold students_of. f_equal. apply map_ext_in.
    intros k' Hk'%list_elem_of_In%students_truthy. f_equal.
    symmetry. apply student_of_other. intros Heq. congruence.
Qed.


Lemma fold_bubble_assignments l rs :
  Forall (fun r => passable r = true) l ->
  Js.foldM BubbleChart.process_assignment l (students_of rs)
  = Js.Ok (students_of (rs ++ l)).
Proof.
  intros H. revert rs. induction H as [|r l Hr _ IH]; intros rs; cbn [Js.foldM].
  - by rewrite app_nil_r.
  - rewrite bubble_assignment_table. 2:{
      unfold passable in Hr. apply orb_true_iff in Hr as [Hr|Hr]; [left|by right].
      by apply negb_true_iff. }
    cbn [mbind Js.result_bind]. rewrite IH. by rewrite <- app_assoc.
Qed.


Lemma chosen_cons rawData hw names :
  chosen rawData (hw :: names)
  = default [] (rawData !! hw) ++ chosen rawData names.
Proof. reflexivity. Qed.

Lemma bubble_homework_table rawData hw rs :
  Forall (fun r => passable r = true) (default [] (rawData !! hw)) ->
  BubbleChart.process_homework rawData hw (students_of rs)
  = Js.Ok (students_of (rs ++ default [] (rawData !! hw))).
Proof. unfold BubbleChart.process_homework. apply fold_bubble_assignments. Qed.


Lemma fold_bubble_homeworks rawData names rs :
  Forall (fun r => passable r = true) (chosen rawData names) ->
  Js.foldM (BubbleChart.process_homework rawData) names (students_of rs)
  = Js.Ok (students_of (rs ++ chosen rawData names)).
Proof.
  revert rs. induction names as [|hw names IH]; intros rs H; cbn [Js.foldM].
  - unfold chosen. cbn. by rewrite app_nil_r.
  - rewrite chosen_cons in H. apply Forall_app in H as [H1 H2].
    rewrite (bubble_homework_table _ _ _ H1). cbn [mbind Js.result_bind].
    rewrite (IH _ H2), chosen_cons. by rewrite <- app_assoc.
Qed.


Lemma prepare_closed rawData names :
  Forall (fun r => passable r = true) (chosen rawData names) ->
  BubbleChart.prepareNetworkDataForBubbleChart (Some rawData) names
  = Js.Ok (Some {| BubbleChart.nodes :=
                     map (fun k => BubbleChart.to_node
                                     (student_of (chosen rawData names) k))
                         (students (chosen rawData names));
                   BubbleChart.edges := [] |}).
Proof.
  intros H. unfold BubbleChart.prepareNetworkDataForBubbleChart.
  change (@nil (option string * BubbleChart.student)) with (students_of []).
  rewrite (fold_bubble_homeworks _ _ _ H). cbn [mbind Js.result_bind app].
  unfold students_of, Js.Map_values. by rewrite !map_map.
Qed.

(** ** The bubble chart data *)

Lemma commented_le_counted rs :
  Z.of_nat (length (List.filter commented rs))
  <= Z.of_nat (length (flat_map counted rs)).
Proof.
  induction rs as [|r rs IH]; simpl; [lia|].
  rewrite length_app. unfold commented at 1.
  destruct (counted r); simpl length; lia.
Qed.

Lemma counted_le_rounds rs :
  Z.of_nat (length (flat_map counted rs))
  <= Z.of_nat
       (length (flat_map (fun r => rounds_of (inner (BubbleChart.upper r))) rs)).
Proof.
  induction rs as [|r rs IH]; simpl; [lia|].
  rewrite !length_app. unfold counted at 1.
  pose proof (List.filter_length_le GraphFunc.has_feedback
                (rounds_of (inner (BubbleChart.upper r)))).
  lia.
Qed.


(** X19: the bubble chart data has one node per student, where a
    student is any non-empty reviewer or author id of the selected
    records (the lower-case field standing in for an empty or missing
    capitalised one): the ids are pairwise distinct, each node is labelled
    by its id and grouped as student, and there are no edges. *)
Theorem bubble_chart_students
    (rawData : gmap string (list BubbleChart.bubble_record))
    (hwNames : list string) :
  Forall (fun r => passable r = true) (chosen rawData hwNames) ->
  exists net,
    BubbleChart.prepareNetworkDataForBubbleChart (Some rawData) hwNames
    = Js.Ok (Some net) /\
    BubbleChart.edges net = [] /\
    NoDup (map BubbleChart.bn_id (BubbleChart.nodes net)) /\
    (forall k, In k (map BubbleChart.bn_id (BubbleChart.nodes net))
       <-> BubbleChart.truthy k = true
           /\ exists r, In r (chosen rawData hwNames)
                /\ (BubbleChart.reviewer_id r = k
                    \/ BubbleChart.author_id r = k)) /\
    forall n, In n (BubbleChart.nodes net) ->
      BubbleChart.bn_label n = BubbleChart.bn_id n /\
      BubbleChart.group n = "student"%string.
Proof.
  intros Hok. eexists. split; [by apply prepare_closed|].
  cbn [BubbleChart.edges BubbleChart.nodes]. split; [done|].
  set (rs := chosen rawData hwNames).
  assert (Hids : map BubbleChart.bn_id
                   (map (fun k => BubbleChart.to_node (student_of rs k))
                        (students rs)) = students rs).
  { rewrite map_map. apply map_id. }
  rewrite Hids. split; [apply students_NoDup|]. split.
  - intros k. rewrite <- list_elem_of_In, elem_of_students.
    split; intros (Ht & r & Hr & Hk); (split; [done|]); exists r;
      (split; [by apply list_elem_of_In | done]).
  - intros n (k & <- & _)%in_map_iff. done.
Qed.

(** The scenario: reviewer A and author B are both students. *)
Lemma bubble_chart_students_scenario :
  exists net,
    BubbleChart.prepareNetworkDataForBubbleChart (Some BubbleExample.hw1)
      ["HW1"%string] = Js.Ok (Some net) /\
    BubbleChart.edges net = [] /\
    NoDup (map BubbleChart.bn_id (BubbleChart.nodes net)) /\
    (forall k, In k (map BubbleChart.bn_id (BubbleChart.nodes net))
       <-> BubbleChart.truthy k = true
           /\ exists r, In r (chosen BubbleExample.hw1 ["HW1"%string])
                /\ (BubbleChart.reviewer_id r = k
                    \/ BubbleChart.author_id r = k)) /\
    forall n, In n (BubbleChart.nodes net) ->
      BubbleChart.bn_label n = BubbleChart.bn_id n /\
      BubbleChart.group n = "student"%string.
Proof.
  apply (bubble_chart_students BubbleExample.hw1 ["HW1"%string]).
  repeat constructor.
Defined.

(** X20: in the bubble chart data every node counts the records its
    student reviews as assigned tasks; the completed tasks are at most
    the assigned tasks and at most the valid rounds, the valid rounds are
    at most the rounds of those records, and each label count is at most
    the valid rounds.  A student who reviews nothing has every counter
    0. *)
Theorem bubble_chart_counters
    (rawData : gmap string (list BubbleChart.bubble_record))
    (hwNames : list string) :
  Forall (fun r => passable r = true) (chosen rawData hwNames) ->
  exists net,
    BubbleChart.prepareNetworkDataForBubbleChart (Some rawData) hwNames
    = Js.Ok (Some net) /\
    forall n, In n (BubbleChart.nodes net) ->
      let mine := tasks (BubbleChart.bn_id n) (chosen rawData hwNames) in
      let rounds :=
        flat_map (fun r => rounds_of (inner (BubbleChart.upper r))) mine in
      BubbleChart.bn_assignedTasks n = Z.of_nat (length mine) /\
      0 <= BubbleChart.bn_validComments n <= BubbleChart.bn_assignedTasks n /\
      BubbleChart.bn_validComments n <= BubbleChart.bn_validRounds n /\
      BubbleChart.bn_validRounds n <= Z.of_nat (length rounds) /\
      0 <= BubbleChart.bn_relevanceCount n <= BubbleChart.bn_validRounds n /\
      0 <= BubbleChart.bn_concretenessCount n <= BubbleChart.bn_validRounds n /\
      0 <= BubbleChart.bn_constructiveCount n <= BubbleChart.bn_validRounds n /\
      (mine = [] ->
       BubbleChart.bn_validComments n = 0 /\ BubbleChart.bn_validRounds n = 0 /\
       BubbleChart.bn_relevanceCount n = 0 /\
       BubbleChart.bn_concretenessCount n = 0 /\
       BubbleChart.bn_constructiveCount n = 0).
Proof.
  intros Hok. eexists. split; [by apply prepare_closed|].
  cbn [BubbleChart.nodes]. set (rs := chosen rawData hwNames).
  intros n (k & <- & _)%in_map_iff.
  cbn [BubbleChart.to_node student_of BubbleChart.bn_id BubbleChart.id
       BubbleChart.bn_assignedTasks BubbleChart.assignedTasks
       BubbleChart.bn_validComments BubbleChart.validComments
       BubbleChart.bn_validRounds BubbleChart.validRounds
       BubbleChart.bn_relevanceCount BubbleChart.relevanceCount
       BubbleChart.bn_concretenessCount BubbleChart.concretenessCount
       BubbleChart.bn_constructiveCount BubbleChart.constructiveCount].
  cbv zeta. set (mine := tasks k rs).
  pose proof (List.filter_length_le commented mine).
  pose proof (commented_le_counted mine).
  pose proof (counted_le_rounds mine).
  pose proof (ones_bounds Relevance (flat_map counted mine)).
  pose proof (ones_bounds Concreteness (flat_map counted mine)).
  pose proof (ones_bounds Constructive (flat_map counted mine)).
  split; [done|]. split; [lia|]. split; [done|]. split; [done|].
  split; [done|]. split; [done|]. split; [done|].
  intros ->. done.
Qed.

(** The counters on the scenario. *)
Lemma bubble_chart_counters_scenario :
  exists net,
    BubbleChart.prepareNetworkDataForBubbleChart (Some BubbleExample.hw1)
      ["HW1"%string] = Js.Ok (Some net) /\
    forall n, In n (BubbleChart.nodes net) ->
      let mine :=
        tasks (BubbleChart.bn_id n) (chosen BubbleExample.hw1 ["HW1"%string]) in
      let rounds :=
        flat_map (fun r => rounds_of (inner (BubbleChart.upper r))) mine in
      BubbleChart.bn_assignedTasks n = Z.of_nat (length mine) /\
      0 <= BubbleChart.bn_validComments n <= BubbleChart.bn_assignedTasks n /\
      BubbleChart.bn_validComments n <= BubbleChart.bn_validRounds n /\
      BubbleChart.bn_validRounds n <= Z.of_nat (length rounds) /\
      0 <= BubbleChart.bn_relevanceCount n <= BubbleChart.bn_validRounds n /\
      0 <= BubbleChart.bn_concretenessCount n <= BubbleChart.bn_validRounds n /\
      0 <= BubbleChart.bn_constructiveCount n <= BubbleChart.bn_validRounds n /\
      (mine = [] ->
       BubbleChart.bn_validComments n = 0 /\ BubbleChart.bn_validRounds n = 0 /\
       BubbleChart.bn_relevanceCount n = 0 /\
       BubbleChart.bn_concretenessCount n = 0 /\
       BubbleChart.bn_constructiveCount n = 0).
Proof.
  apply (bubble_chart_counters BubbleExample.hw1 ["HW1"%string]).
  repeat constructor.
Defined.



(** ** The bubble chart against the graph and the modal *)

Lemma has_feedback_gave_feedback r : GraphFunc.has_feedback r = gave_feedback r.
Proof.
  unfold GraphFunc.has_feedback, gave_feedback, feedback_text.
  destruct (Feedback r) as [[|c s]|]; reflexivity.
Qed.

Lemma names_reviewer_id r :
  names_reviewer r = true ->
  BubbleChart.reviewer_id r = Reviewer (inner (BubbleChart.upper r)).
Proof.
  unfold names_reviewer, BubbleChart.reviewer_id, BubbleChart.truthy,
    BubbleChart.or_else.
  destruct (Reviewer (inner (BubbleChart.upper r))) as [s|]; [|done].
  by destruct (String.eqb s "").
Qed.

Lemma selected_uppers rawData names :
  selected (forget (uppers rawData)) names
  = flat_map
      (fun hw => map (fun r => (hw, inner (BubbleChart.upper r)))
                     (default [] (rawData !! hw)))
      names.
Proof.
  unfold selected, forget, uppers. apply flat_map_ext. intros hw.
  rewrite !lookup_fmap. destruct (rawData !! hw); simpl; [|done].
  by rewrite !map_map.
Qed.

Lemma tasks_rounds_one hw k l :
  Forall (fun r => names_reviewer r = true) l ->
  flat_map rounds_in (tasks k l)
  = assigned_rounds (map (fun r => (hw, inner (BubbleChart.upper r))) l) k.
Proof.
  unfold tasks, assigned_rounds.
  induction 1 as [|r l Hr _ IH]; [done|]. cbn [List.filter map flat_map].
  rewrite (names_reviewer_id r Hr). cbn [snd].
  destruct (decide (Reviewer (inner (BubbleChart.upper r)) = k)) as [Hk|Hk].
  - rewrite bool_decide_true by done. cbn [flat_map]. by rewrite IH.
  - rewrite bool_decide_false by done. by rewrite IH.
Qed.

Lemma tasks_rounds rawData names k :
  Forall (fun r => names_reviewer r = true) (chosen rawData names) ->
  flat_map rounds_in (tasks k (chosen rawData names))
  = assigned_rounds (selected (forget (uppers rawData)) names) k.
Proof.
  rewrite selected_uppers.
  induction names as [|hw names IH]; intros H; [done|].
  rewrite chosen_cons in H. apply Forall_app in H as [H1 H2].
  rewrite chosen_cons, tasks_app, flat_map_app. cbn [flat_map].
  rewrite assigned_rounds_app, <- (IH H2). f_equal.
  by apply tasks_rounds_one.
Qed.

Lemma tasks_links_one hw k l :
  Forall (fun r => names_reviewer r = true) l ->
  length (tasks k l)
  = length (List.filter (fun e => bool_decide (GraphFunc.from e = k))
              (map edge_of (map (fun r => (hw, inner (BubbleChart.upper r))) l))).
Proof.
  unfold tasks. induction 1 as [|r l Hr _ IH]; [done|].
  cbn [List.filter map]. rewrite (names_reviewer_id r Hr).
  cbn [edge_of GraphFunc.from snd].
  destruct (bool_decide (Reviewer (inner (BubbleChart.upper r)) = k));
    cbn [length]; by rewrite IH.
Qed.

Lemma tasks_links rawData names k :
  Forall (fun r => names_reviewer r = true) (chosen rawData names) ->
  length (tasks k (chosen rawData names))
  = length (List.filter (fun e => bool_decide (GraphFunc.from e = k))
              (map edge_of (selected (forget (uppers rawData)) names))).
Proof.
  rewrite selected_uppers.
  induction names as [|hw names IH]; intros H; [done|].
  rewrite chosen_cons in H. apply Forall_app in H as [H1 H2].
  rewrite chosen_cons, tasks_app. cbn [flat_map].
  rewrite map_app, List.filter_app, !length_app, <- (IH H2). f_equal.
  by apply tasks_links_one.
Qed.

Lemma counted_flat rs :
  flat_map counted rs = List.filter gave_feedback (flat_map rounds_in rs).
Proof.
  induction rs as [|r rs IH]; [done|]. cbn [flat_map].
  rewrite List.filter_app, IH. f_equal. unfold counted, rounds_in.
  apply List.filter_ext. intros x. apply has_feedback_gave_feedback.
Qed.

Lemma reviewer_is_student rawData names k :
  Forall (fun r => names_reviewer r = true) (chosen rawData names) ->
  k ∈ reviewers (selected (forget (uppers rawData)) names) ->
  k ∈ students (chosen rawData names) /\ tasks k (chosen rawData names) <> [].
Proof.
  intros H. rewrite selected_uppers.
  intros (p & Hp & Hk)%elem_of_reviewers.
  apply list_elem_of_In, in_flat_map in Hp as (hw & Hhw & Hp).
  apply in_map_iff in Hp as (r & <- & Hr). cbn [snd] in Hk.
  assert (Hin : In r (chosen rawData names)).
  { unfold chosen. apply in_flat_map. by exists hw. }
  assert (Hn : names_reviewer r = true).
  { rewrite List.Forall_forall in H. by apply H. }
  pose proof (names_reviewer_id r Hn) as Hid.
  split.
  - apply elem_of_students. split.
    + unfold names_reviewer in Hn. by rewrite <- Hk.
    + exists r. split; [by apply list_elem_of_In|]. left. congruence.
  - intros Hnil.
    assert (Hr' : In r (tasks k (chosen rawData names))).
    { unfold tasks. apply filter_In. split; [done|].
      apply bool_decide_eq_true. congruence. }
    rewrite Hnil in Hr'. destruct Hr'.
Qed.

Lemma one_round_each rs :
  Forall (fun r => length (rounds_in r) = 1%nat) rs ->
  length (flat_map rounds_in rs) = length rs
  /\ length (List.filter commented rs) = length (flat_map counted rs).
Proof.
  induction 1 as [|r rs Hr _ [IH1 IH2]]; [done|].
  cbn [flat_map List.filter]. rewrite !length_app, IH1, Hr. split; [done|].
  unfold commented at 1, counted at 1 2. fold (rounds_in r).
  destruct (rounds_in r) as [|x [|]]; try discriminate.
  cbn [List.filter]. destruct (GraphFunc.has_feedback x); cbn [length app]; lia.
Qed.

(** X22: when every selected record names its reviewer in [Reviewer]
    and has a [Round] the bubble chart can loop over (an array, or a value
    that is falsy or has no positive length), each node of the graph of
    [processReviewerData] has a bubble chart node with the same id, whose
    assigned tasks are the edges leaving the graph node and whose valid
    rounds are the node's non-empty feedbacks.
    With 0/1 flags the label counts of the two nodes are equal; and when
    each of the reviewer's records has exactly one round, the completion
    rate of the graph node is the share of completed among assigned tasks
    of the bubble chart node. *)
Theorem bubble_chart_matches_graph
    (rawData : gmap string (list BubbleChart.bubble_record))
    (mode : GraphFunc.Mode) (hwNames : list string) :
  Forall (fun r => loopable r = true) (chosen rawData hwNames) ->
  Forall (fun r => names_reviewer r = true) (chosen rawData hwNames) ->
  exists net g,
    BubbleChart.prepareNetworkDataForBubbleChart (Some rawData) hwNames
    = Js.Ok (Some net) /\
    GraphFunc.processReviewerData (forget (uppers rawData)) mode
      (GraphFunc.HwArray hwNames) = Js.Ok g /\
    forall n, In n (GraphFunc.nodes g) ->
      exists b,
        In b (BubbleChart.nodes net) /\
        BubbleChart.bn_id b = GraphFunc.id n /\
        0 < BubbleChart.bn_assignedTasks b /\
        BubbleChart.bn_assignedTasks b
        = Z.of_nat
            (length (List.filter
                       (fun e => bool_decide (GraphFunc.from e = GraphFunc.id n))
                       (GraphFunc.links g))) /\
        BubbleChart.bn_validRounds b
        = Z.of_nat
            (length (List.filter (fun fb => negb (String.eqb fb ""))
                                 (GraphFunc.feedbacks n))) /\
        (Forall (fun r => Forall (fun x => binary_round x = true) (rounds_in r))
                (chosen rawData hwNames) ->
         BubbleChart.bn_relevanceCount b
         = GraphFunc.relevance (GraphFunc.labelCounts n) /\
         BubbleChart.bn_concretenessCount b
         = GraphFunc.concreteness (GraphFunc.labelCounts n) /\
         BubbleChart.bn_constructiveCount b
         = GraphFunc.constructive (GraphFunc.labelCounts n)) /\
        (Forall (fun r => length (rounds_in r) = 1%nat)
                (tasks (GraphFunc.id n) (chosen rawData hwNames)) ->
         BubbleChart.bn_assignedTasks b = GraphFunc.totalRounds n /\
         BubbleChart.bn_validComments b = BubbleChart.bn_validRounds b /\
         (Graph3LabelFunc.completionRate n
          == inject_Z (BubbleChart.bn_validComments b)
             / inject_Z (BubbleChart.bn_assignedTasks b))%Q).
Proof.
  intros Hloop Hnames.
  assert (Hok : Forall (fun r => passable r = true) (chosen rawData hwNames)).
  { eapply Forall_impl; [exact Hloop|]. intros r Hr. unfold passable.
    rewrite Hr. apply orb_true_r. }
  eexists _, _. split; [by apply prepare_closed|].
  split; [apply processReviewerData_graph_of|]. cbn [GraphFunc.hw_list].
  set (rs := chosen rawData hwNames) in *.
  set (rs' := selected (forget (uppers rawData)) hwNames).
  intros n (k & Hk & ->)%node_of_graph.
  destruct (reviewer_is_student rawData hwNames k Hnames Hk) as [Hst Hne].
  fold rs in Hst, Hne.
  exists (BubbleChart.to_node (student_of rs k)).
  cbn [BubbleChart.nodes]. split.
  { apply in_map_iff. exists k. split; [done | by apply list_elem_of_In]. }
  cbn [GraphFunc.id GraphFunc.finalize summary node_with GraphFunc.Acc.id
       GraphFunc.totalRounds GraphFunc.Acc.totalRounds
       GraphFunc.feedbacks GraphFunc.Acc.feedbacks
       GraphFunc.labelCounts GraphFunc.Acc.labelCounts
       GraphFunc.relevance GraphFunc.concreteness GraphFunc.constructive
       graph_of GraphFunc.links
       BubbleChart.to_node student_of BubbleChart.bn_id BubbleChart.id
       BubbleChart.bn_assignedTasks BubbleChart.assignedTasks
       BubbleChart.bn_validComments BubbleChart.validComments
       BubbleChart.bn_validRounds BubbleChart.validRounds
       BubbleChart.bn_relevanceCount BubbleChart.relevanceCount
       BubbleChart.bn_concretenessCount BubbleChart.concretenessCount
       BubbleChart.bn_constructiveCount BubbleChart.constructiveCount].
  pose proof (tasks_rounds rawData hwNames k Hnames) as Hrounds.
  pose proof (tasks_links rawData hwNames k Hnames) as Hlinks.
  fold rs in Hrounds, Hlinks. fold rs' in Hrounds, Hlinks.
  set (mine := tasks k rs) in *. set (rounds := assigned_rounds rs' k) in *.
  split; [done|]. split.
  { destruct mine; [done | cbn [length]; lia]. }
  split; [by rewrite Hlinks|].
  assert (Hcount : flat_map counted mine = List.filter gave_feedback rounds).
  { by rewrite counted_flat, Hrounds. }
  rewrite !Hcount. split.
  { change (fun fb : string => negb (String.eqb fb ""))
      with Graph3LabelFunc.nonempty.
    by rewrite filter_feedback_text, length_map. }
  split.
  - intros Hbin.
    assert (Hb : Forall (fun x => binary_round x = true) rounds).
    { rewrite <- Hrounds. apply Forall_forall.
      intros x (r & Hr & Hx)%list_elem_of_In%in_flat_map.
      unfold mine, tasks in Hr. apply filter_In in Hr as [Hr _].
      rewrite List.Forall_forall in Hbin. specialize (Hbin r Hr).
      rewrite List.Forall_forall in Hbin. by apply Hbin. }
    split; [exact (ones_label_value LRelevance rounds Hb)|].
    split; [exact (ones_label_value LConcreteness rounds Hb)|].
    exact (ones_label_value LConstructive rounds Hb).
  - intros Hone. destruct (one_round_each mine Hone) as [Hlen Hcom].
    rewrite Hrounds in Hlen. rewrite Hcount in Hcom.
    split; [by rewrite Hlen|]. split; [by rewrite Hcom|].
    change (Graph3LabelFunc.completionRate
              (GraphFunc.finalize (summary k rounds))
            == inject_Z (Z.of_nat (length (List.filter commented mine)))
               / inject_Z (Z.of_nat (length mine)))%Q.
    rewrite completionRate_summary, Hcom, <- Hlen.
    assert (Hpos : 0 < Z.of_nat (length rounds)).
    { rewrite Hlen. destruct mine; [done | cbn [length]; lia]. }
    apply Z.ltb_lt in Hpos. rewrite Hpos. reflexivity.
Qed.

(** Reviewer A with one round for each of two authors. *)
Lemma bubble_chart_matches_graph_scenario :
  exists net g,
    BubbleChart.prepareNetworkDataForBubbleChart
      (Some BubbleExample.one_round_each) ["HW1"%string] = Js.Ok (Some net) /\
    GraphFunc.processReviewerData (forget (uppers BubbleExample.one_round_each))
      GraphFunc.ModeAll (GraphFunc.HwArray ["HW1"%string]) = Js.Ok g /\
    forall n, In n (GraphFunc.nodes g) ->
      exists b,
        In b (BubbleChart.nodes net) /\
        BubbleChart.bn_id b = GraphFunc.id n /\
        0 < BubbleChart.bn_assignedTasks b /\
        BubbleChart.bn_assignedTasks b
        = Z.of_nat
            (length (List.filter
                       (fun e => bool_decide (GraphFunc.from e = GraphFunc.id n))
                       (GraphFunc.links g))) /\
        BubbleChart.bn_validRounds b
        = Z.of_nat
            (length (List.filter (fun fb => negb (String.eqb fb ""))
                                 (GraphFunc.feedbacks n))) /\
        (Forall (fun r => Forall (fun x => binary_round x = true) (rounds_in r))
                (chosen BubbleExample.one_round_each ["HW1"%string]) ->
         BubbleChart.bn_relevanceCount b
         = GraphFunc.relevance (GraphFunc.labelCounts n) /\
         BubbleChart.bn_concretenessCount b
         = GraphFunc.concreteness (GraphFunc.labelCounts n) /\
         BubbleChart.bn_constructiveCount b
         = GraphFunc.constructive (GraphFunc.labelCounts n)) /\
        (Forall (fun r => length (rounds_in r) = 1%nat)
                (tasks (GraphFunc.id n)
                       (chosen BubbleExample.one_round_each ["HW1"%string])) ->
         BubbleChart.bn_assignedTasks b = GraphFunc.totalRounds n /\
         BubbleChart.bn_validComments b = BubbleChart.bn_validRounds b /\
         (Graph3LabelFunc.completionRate n
          == inject_Z (BubbleChart.bn_validComments b)
             / inject_Z (BubbleChart.bn_assignedTasks b))%Q).
Proof.
  apply (bubble_chart_matches_graph BubbleExample.one_round_each
           GraphFunc.ModeAll ["HW1"%string]); repeat constructor.
Defined.

Lemma tolerated_passable r :
  tolerated (BubbleChart.upper r) = true -> passable r = true.
Proof.
  unfold tolerated, passable, loopable. intros H.
  destruct (Round (inner (BubbleChart.upper r))),
    (non_array (BubbleChart.upper r)) as [|[]];
    try discriminate; apply orb_true_r.
Qed.

Lemma click_tasks_one nodeId l :
  Forall (fun r => names_reviewer r = true) l ->
  List.filter (fun a => bool_decide (Reviewer (inner a) = Some nodeId))
              (map BubbleChart.upper l)
  = map BubbleChart.upper (tasks (Some nodeId) l).
Proof.
  unfold tasks. induction 1 as [|r l Hr _ IH]; [done|].
  cbn [map List.filter]. rewrite (names_reviewer_id r Hr).
  destruct (bool_decide (Reviewer (inner (BubbleChart.upper r)) = Some nodeId));
    cbn [map]; by rewrite IH.
Qed.

Lemma click_tasks rawData names nodeId :
  Forall (fun r => names_reviewer r = true) (chosen rawData names) ->
  StudentStats.reviewerRecords (uppers rawData) names nodeId
  = map BubbleChart.upper (tasks (Some nodeId) (chosen rawData names)).
Proof.
  unfold StudentStats.reviewerRecords.
  induction names as [|hw names IH]; intros H; [done|].
  rewrite chosen_cons in H. apply Forall_app in H as [H1 H2].
  rewrite chosen_cons, tasks_app, map_app. cbn [flat_map].
  rewrite (IH H2). f_equal.
  unfold uppers. rewrite lookup_fmap.
  destruct (rawData !! hw) as [l|]; cbn in *; [|done].
  by apply click_tasks_one.
Qed.

Lemma reviews_le_counted f r :
  ones f (reviews_of (BubbleChart.upper r)) <= ones f (counted r)
  /\ Z.of_nat (length (reviews_of (BubbleChart.upper r)))
     <= Z.of_nat (length (counted r)).
Proof.
  unfold reviews_of, counted. fold (rounds_in r).
  induction (rounds_in r) as [|x l [IH1 IH2]]; [done|].
  cbn [List.filter]. rewrite valid_review_gave_feedback, has_feedback_gave_feedback.
  destruct (gave_feedback x); cbn [andb]; [|done].
  destruct (negb _); rewrite ?ones_cons; cbn [length];
    split; try lia; destruct (Js.is_one (f x)); lia.
Qed.

Lemma reviews_le_counted_all f mine :
  ones f (flat_map reviews_of (map BubbleChart.upper mine))
  <= ones f (flat_map counted mine)
  /\ Z.of_nat (length (flat_map reviews_of (map BubbleChart.upper mine)))
     <= Z.of_nat (length (flat_map counted mine))
  /\ Z.of_nat (length (List.filter completed (map BubbleChart.upper mine)))
     <= Z.of_nat (length (List.filter commented mine)).
Proof.
  induction mine as [|r mine (IH1 & IH2 & IH3)]; [done|].
  cbn [map flat_map List.filter]. rewrite !ones_app, !length_app.
  destruct (reviews_le_counted f r) as [H1 H2].
  split; [lia|]. split; [lia|].
  unfold completed at 1, commented at 1.
  destruct (reviews_of (BubbleChart.upper r)), (counted r);
    cbn [length] in *; lia.
Qed.

Lemma reviews_eq_counted mine :
  Forall (fun x => Js.toUpperCase (Js.or_empty (Feedback x)) <> "NULL"%string)
         (flat_map rounds_in mine) ->
  flat_map reviews_of (map BubbleChart.upper mine) = flat_map counted mine
  /\ List.filter completed (map BubbleChart.upper mine)
     = map BubbleChart.upper (List.filter commented mine).
Proof.
  induction mine as [|r mine IH]; [done|]. cbn [flat_map].
  intros [H1 H2]%Forall_app. destruct (IH H2) as [IH1 IH2].
  assert (Hr : reviews_of (BubbleChart.upper r) = counted r).
  { unfold reviews_of, counted. fold (rounds_in r).
    rewrite (valid_reviews_no_null _ H1). apply List.filter_ext.
    intros x. symmetry. apply has_feedback_gave_feedback. }
  cbn [map flat_map List.filter]. rewrite IH1, Hr. split; [done|].
  unfold completed at 1, commented at 1. rewrite Hr.
  destruct (counted r); cbn [map]; by rewrite IH2.
Qed.

(** X23: when every selected record has an array or falsy [Round] and
    names its reviewer in [Reviewer], the modal statistics of a student
    and the student's bubble chart node count the same assigned tasks, and
    no modal counter exceeds its bubble chart counterpart.  When none of
    the student's feedbacks is NULL in any letter case, the completed
    tasks, the valid reviews and the three label counts are equal. *)
Theorem student_stats_match_bubble_chart
    (rawData : gmap string (list BubbleChart.bubble_record))
    (hwNames : list string) (nodeId : string) :
  Forall (fun r => tolerated (BubbleChart.upper r) = true)
         (chosen rawData hwNames) ->
  Forall (fun r => names_reviewer r = true) (chosen rawData hwNames) ->
  exists s net,
    StudentStats.on_click (uppers rawData) hwNames nodeId = Js.Ok s /\
    BubbleChart.prepareNetworkDataForBubbleChart (Some rawData) hwNames
    = Js.Ok (Some net) /\
    forall b, In b (BubbleChart.nodes net) ->
      BubbleChart.bn_id b = Some nodeId ->
      StudentStats.assignedTasks s = BubbleChart.bn_assignedTasks b /\
      StudentStats.completedTasks s <= BubbleChart.bn_validComments b /\
      StudentStats.validReviews s <= BubbleChart.bn_validRounds b /\
      StudentStats.relevanceCount s <= BubbleChart.bn_relevanceCount b /\
      StudentStats.concretenessCount s <= BubbleChart.bn_concretenessCount b /\
      StudentStats.constructiveCount s <= BubbleChart.bn_constructiveCount b /\
      (Forall (fun x => Js.toUpperCase (Js.or_empty (Feedback x))
                        <> "NULL"%string)
              (flat_map rounds_in
                 (tasks (Some nodeId) (chosen rawData hwNames))) ->
       StudentStats.completedTasks s = BubbleChart.bn_validComments b /\
       StudentStats.validReviews s = BubbleChart.bn_validRounds b /\
       StudentStats.relevanceCount s = BubbleChart.bn_relevanceCount b /\
       StudentStats.concretenessCount s = BubbleChart.bn_concretenessCount b /\
       StudentStats.constructiveCount s = BubbleChart.bn_constructiveCount b).
Proof.
  intros Htol Hnames.
  assert (Hok : Forall (fun r => passable r = true) (chosen rawData hwNames)).
  { eapply Forall_impl; [exact Htol|]. intros r. apply tolerated_passable. }
  unfold StudentStats.on_click. rewrite (click_tasks _ _ _ Hnames).
  set (rs := chosen rawData hwNames) in *.
  set (mine := tasks (Some nodeId) rs).
  assert (Hmine : Forall (fun r => tolerated r = true)
                         (map BubbleChart.upper mine)).
  { apply Forall_forall. intros a (r & <- & Hr)%list_elem_of_In%in_map_iff.
    unfold mine, tasks in Hr. apply filter_In in Hr as [Hr _].
    rewrite List.Forall_forall in Htol. by apply Htol. }
  unfold StudentStats.calculateStudentStats. cbv zeta.
  change {| StudentStats.Acc.validReviews := 0;
            StudentStats.Acc.relevanceCount := 0;
            StudentStats.Acc.concretenessCount := 0;
            StudentStats.Acc.constructiveCount := 0;
            StudentStats.Acc.completedTasks := 0;
            StudentStats.Acc.feedbackList := [] |} with (tally_of []).
  rewrite (fold_count_record _ _ Hmine). cbn [mbind Js.result_bind app].
  eexists _, _. split; [reflexivity|]. split; [by apply prepare_closed|].
  cbn [BubbleChart.nodes]. fold rs.
  intros b (k & <- & _)%in_map_iff Hid.
  cbn [BubbleChart.to_node student_of BubbleChart.bn_id BubbleChart.id] in Hid.
  subst k. fold mine.
  cbn [StudentStats.assignedTasks StudentStats.validReviews
       StudentStats.completedTasks
       StudentStats.relevanceCount StudentStats.concretenessCount
       StudentStats.constructiveCount tally_of
       StudentStats.Acc.validReviews StudentStats.Acc.relevanceCount
       StudentStats.Acc.concretenessCount StudentStats.Acc.constructiveCount
       StudentStats.Acc.completedTasks
       BubbleChart.to_node student_of
       BubbleChart.bn_assignedTasks BubbleChart.assignedTasks
       BubbleChart.bn_validComments BubbleChart.validComments
       BubbleChart.bn_validRounds BubbleChart.validRounds
       BubbleChart.bn_relevanceCount BubbleChart.relevanceCount
       BubbleChart.bn_concretenessCount BubbleChart.concretenessCount
       BubbleChart.bn_constructiveCount BubbleChart.constructiveCount].
  fold mine.
  destruct (reviews_le_counted_all Relevance mine) as (H1 & H2 & H3).
  destruct (reviews_le_counted_all Concreteness mine) as (H4 & _ & _).
  destruct (reviews_le_counted_all Constructive mine) as (H5 & _ & _).
  split; [by rewrite length_map|].
  split; [done|]. split; [done|]. split; [done|]. split; [done|].
  split; [done|].
  intros Hnull. destruct (reviews_eq_counted mine Hnull) as [E1 E2].
  rewrite E1, E2, length_map. done.
Qed.

(** The scenario of two rounds, the second without feedback. *)
Lemma student_stats_match_bubble_chart_scenario :
  exists s net,
    StudentStats.on_click (uppers BubbleExample.hw1) ["HW1"%string] "A"
    = Js.Ok s /\
    BubbleChart.prepareNetworkDataForBubbleChart (Some BubbleExample.hw1)
      ["HW1"%string] = Js.Ok (Some net) /\
    forall b, In b (BubbleChart.nodes net) ->
      BubbleChart.bn_id b = Some "A"%string ->
      StudentStats.assignedTasks s = BubbleChart.bn_assignedTasks b /\
      StudentStats.completedTasks s <= BubbleChart.bn_validComments b /\
      StudentStats.validReviews s <= BubbleChart.bn_validRounds b /\
      StudentStats.relevanceCount s <= BubbleChart.bn_relevanceCount b /\
      StudentStats.concretenessCount s <= BubbleChart.bn_concretenessCount b /\
      StudentStats.constructiveCount s <= BubbleChart.bn_constructiveCount b /\
      (Forall (fun x => Js.toUpperCase (Js.or_empty (Feedback x))
                        <> "NULL"%string)
              (flat_map rounds_in
                 (tasks (Some "A"%string)
                        (chosen BubbleExample.hw1 ["HW1"%string]))) ->
       StudentStats.completedTasks s = BubbleChart.bn_validComments b /\
       StudentStats.validReviews s = BubbleChart.bn_validRounds b /\
       StudentStats.relevanceCount s = BubbleChart.bn_relevanceCount b /\
       StudentStats.concretenessCount s = BubbleChart.bn_concretenessCount b /\
       StudentStats.constructiveCount s = BubbleChart.bn_constructiveCount b).
Proof.
  apply (student_stats_match_bubble_chart BubbleExample.hw1 ["HW1"%string] "A");
    repeat constructor.
Defined.
